(** * Mission Monitor: the local state engine of [script.js]

    A shallow embedding of the storage manager, the account manager, the
    badge manager, the reminder scheduler and the handlers of the task
    manager of [script.js], and the properties of the specification
    settled against them.

    Conventions of the embedding.
    - A JavaScript string is a [string], the list of its code units, each
      below 256; [===] on strings, and on values that are a string or
      [null], is [bool_decide] of Leibniz equality.
    - An instant is the number of milliseconds since the epoch, a [Z]
      ([Date.prototype.getTime]); an invalid date ([NaN]) is [None].
    - The host's time zone is a parameter, a [Calendar.Host]: [setDate],
      [getHours], [getDay] and [setHours] work on local time, which the
      host places at its offset from UTC, and [toISOString] prints UTC.
    - Every method that reads the clock takes the instant [now] it reads,
      and a handler of the page one instant for each call it makes;
      [Math.random] is read through the digits it contributes to an id,
      and the answer to [confirm] is an argument.
    - [localStorage] may refuse a write (the quota): the storage carries
      a flag for it, and [setItem] throws when it is set.
    - DOM rendering, charts and console output are left out. *)

From Stdlib Require Import ZArith List String Ascii Bool Lia.
From stdpp Require Import base option list strings gmap.

Local Open Scope Z_scope.

(** ** JavaScript primitives *)

Module Js.

(** [Number.prototype.toString(radix)] on an integer. *)
Definition digitChar (d : Z) : ascii :=
  if d <? 10 then ascii_of_nat (Z.to_nat (48 + d))
  else ascii_of_nat (Z.to_nat (87 + d)).

Fixpoint radixDigits (fuel : nat) (radix n : Z) (acc : string) : string :=
  match fuel with
  | O => acc
  | S fuel' =>
      let acc' := String (digitChar (n mod radix)) acc in
      if n / radix =? 0 then acc' else radixDigits fuel' radix (n / radix) acc'
  end.

Definition toStringRadix (radix n : Z) : string :=
  let body := radixDigits (S (Z.to_nat (Z.log2 (Z.abs n)))) radix (Z.abs n) "" in
  if n <? 0 then String "-" body else body.

(** A number written with exactly [width] decimal digits. *)
Fixpoint padDigits (width : nat) (n : Z) (acc : string) : string :=
  match width with
  | O => acc
  | S w => padDigits w (n / 10) (String (digitChar (n mod 10)) acc)
  end.

Definition pad (width : nat) (n : Z) : string := padDigits width n "".

(** [ToInt32]: what [<<] and [&] make of their operands. *)
Definition toInt32 (z : Z) : Z := (z + 2 ^ 31) mod 2 ^ 32 - 2 ^ 31.

(** [s.charCodeAt(i)] for each [i], in order. *)
Fixpoint charCodes (s : string) : list Z :=
  match s with
  | EmptyString => []
  | String c rest => Z.of_nat (nat_of_ascii c) :: charCodes rest
  end.

(** [s.split('T')[0]]. *)
Fixpoint beforeT (s : string) : string :=
  match s with
  | EmptyString => EmptyString
  | String c rest => if Ascii.eqb c "T" then EmptyString else String c (beforeT rest)
  end.

(** The names every object made by [JSON.parse] inherits from
    [Object.prototype]: [obj[name]] is truthy for them whether or not
    the object has the property itself. *)
Definition inheritedNames : list string :=
  [ "constructor"; "__proto__"; "hasOwnProperty"; "isPrototypeOf";
    "propertyIsEnumerable"; "toLocaleString"; "toString"; "valueOf";
    "__defineGetter__"; "__defineSetter__"; "__lookupGetter__";
    "__lookupSetter__" ]%string.

(** [s.trim()]: the white space of the code units below 256 is taken
    off both ends. *)
Definition isWhiteSpace (c : ascii) : bool :=
  let n := nat_of_ascii c in
  ((9 <=? n) && (n <=? 13) || (n =? 32) || (n =? 160))%nat.

Fixpoint trimStart (s : string) : string :=
  match s with
  | EmptyString => EmptyString
  | String c rest => if isWhiteSpace c then trimStart rest else s
  end.

Fixpoint trimEnd (s : string) : string :=
  match s with
  | EmptyString => EmptyString
  | String c rest =>
      match trimEnd rest with
      | EmptyString => if isWhiteSpace c then EmptyString else String c EmptyString
      | rest' => String c rest'
      end
  end.

Definition trim (s : string) : string := trimEnd (trimStart s).

End Js.

(** ** Calendar arithmetic of [Date] *)

Module Calendar.

Definition msPerMinute : Z := 60 * 1000.
Definition msPerHour : Z := 60 * msPerMinute.
Definition msPerDay : Z := 24 * msPerHour.

(** Day number since the epoch to (year, month, day) of the proleptic
    Gregorian calendar. *)
Definition civilFromDays (days : Z) : Z * Z * Z :=
  let z := days + 719468 in
  let era := z / 146097 in
  let doe := z - era * 146097 in
  let yoe := (doe - doe / 1460 + doe / 36524 - doe / 146096) / 365 in
  let doy := doe - (365 * yoe + yoe / 4 - yoe / 100) in
  let mp := (5 * doy + 2) / 153 in
  let d := doy - (153 * mp + 2) / 5 + 1 in
  let m := if mp <? 10 then mp + 3 else mp - 9 in
  let y := yoe + era * 400 in
  (if m <=? 2 then y + 1 else y, m, d).

Definition daysFromCivil (y m d : Z) : Z :=
  let y' := if m <=? 2 then y - 1 else y in
  let era := y' / 400 in
  let yoe := y' - era * 400 in
  let doy := (153 * (if 2 <? m then m - 3 else m + 9) + 2) / 5 + d - 1 in
  let doe := yoe * 365 + yoe / 4 - yoe / 100 + doy in
  era * 146097 + doe - 719468.

Definition yearText (y : Z) : string :=
  if (0 <=? y) && (y <=? 9999) then Js.pad 4 y
  else String (if y <? 0 then "-"%char else "+"%char) (Js.pad 6 (Z.abs y)).

(** [new Date(t).toISOString()]. *)
Definition toISOString (t : Z) : string :=
  let '(y, m, d) := civilFromDays (t / msPerDay) in
  let ms := t mod msPerDay in
  (yearText y +:+ "-" +:+ Js.pad 2 m +:+ "-" +:+ Js.pad 2 d +:+ "T"
     +:+ Js.pad 2 (ms / msPerHour) +:+ ":" +:+ Js.pad 2 (ms / msPerMinute mod 60)
     +:+ ":" +:+ Js.pad 2 (ms / 1000 mod 60) +:+ "." +:+ Js.pad 3 (ms mod 1000)
     +:+ "Z")%string.

(** [new Date(t).toISOString().split('T')[0]]: the calendar day of [t]. *)
Definition isoDate (t : Z) : string := Js.beforeT (toISOString t).

(** The date part of [toISOString] for the day number [day]. *)
Definition dateText (day : Z) : string :=
  let '(y, m, d) := civilFromDays day in
  (yearText y +:+ "-" +:+ Js.pad 2 m +:+ "-" +:+ Js.pad 2 d)%string.

(** The time zone of the host: [localTZA host t true] is the offset of
    local time from UTC, in milliseconds, that holds at the instant [t],
    and [localTZA host t false] the offset by which the host reads the
    local time value [t] (the [LocalTZA] of ECMAScript).  The two differ
    around a change of the clock. *)
Record Host := mkHost {
  localTZA : Z -> bool -> Z
}.

(** [LocalTime(t)] and [UTC(t)]. *)
Definition localTime (host : Host) (t : Z) : Z := t + localTZA host t true.
Definition utc (host : Host) (t : Z) : Z := t - localTZA host t false.

(** [getHours()] and [getDay()] of the instant [t]. *)
Definition getHours (host : Host) (t : Z) : Z := localTime host t mod msPerDay / msPerHour.
Definition getDay (host : Host) (t : Z) : Z := (localTime host t / msPerDay + 4) mod 7.

(** [d.setHours(0, 0, 0, 0)]: local midnight of the local day of [t]. *)
Definition startOfDay (host : Host) (t : Z) : Z :=
  utc host (localTime host t / msPerDay * msPerDay).

(** [d.setDate(d.getDate() - i)]: the same local time of day on the
    local day [i] days before. *)
Definition daysBefore (host : Host) (t : Z) (i : Z) : Z :=
  utc host (localTime host t - i * msPerDay).

(** A host on UTC, one at a fixed offset, and the property of a host
    that its clock is never changed. *)
Definition utcHost : Host := {| localTZA := fun _ _ => 0 |}.

Definition hostAt (offset : Z) : Host := {| localTZA := fun _ _ => offset |}.

Definition fixedOffset (host : Host) : Prop :=
  exists offset, forall t isUTC, localTZA host t isUTC = offset.

(** The offset by which the host reads the local time [i] days before
    (after, for a negative [i]) the local time of [now] is the offset
    that holds at [now]: no change of the clock lies between the two. *)
Definition sameOffset (host : Host) (now : Z) (i : Z) : Prop :=
  localTZA host (localTime host now - i * msPerDay) false = localTZA host now true.

(** A [Date] parser of a host on UTC, for some of the texts it reads:
    [YYYY-MM-DD] (midnight), and that date followed by [THH:MM],
    [THH:MM:SS] or [THH:MM:SS.sss], with or without a final [Z].  Other
    texts, among them some that a host reads, are invalid dates here.
    It stands for the parser of [utcHost] in the examples, on texts of
    these forms only; a text that is a date alone is read as its UTC
    midnight by every host. *)
Definition digitValue (c : ascii) : option Z :=
  let n := Z.of_nat (nat_of_ascii c) in
  if (48 <=? n) && (n <=? 57) then Some (n - 48) else None.

Fixpoint readDigits (count : nat) (s : string) (acc : Z) : option (Z * string) :=
  match count, s with
  | O, _ => Some (acc, s)
  | S count', String c rest =>
      match digitValue c with
      | Some d => readDigits count' rest (acc * 10 + d)
      | None => None
      end
  | S _, EmptyString => None
  end.

Definition expect (c : ascii) (s : string) : option string :=
  match s with
  | String c' rest => if Ascii.eqb c' c then Some rest else None
  | EmptyString => None
  end.

Definition isLeap (y : Z) : bool :=
  ((y mod 4 =? 0) && negb (y mod 100 =? 0)) || (y mod 400 =? 0).

Definition daysInMonth (y m : Z) : Z :=
  if m =? 2 then (if isLeap y then 29 else 28)
  else if (m =? 4) || (m =? 6) || (m =? 9) || (m =? 11) then 30
  else 31.

Definition readDate (s : string) : option (Z * string) :=
  match readDigits 4 s 0 with
  | Some (y, s1) =>
      match expect "-" s1 with
      | Some s2 =>
          match readDigits 2 s2 0 with
          | Some (m, s3) =>
              match expect "-" s3 with
              | Some s4 =>
                  match readDigits 2 s4 0 with
                  | Some (d, s5) =>
                      if (1 <=? m) && (m <=? 12) && (1 <=? d) && (d <=? daysInMonth y m)
                      then Some (daysFromCivil y m d * msPerDay, s5)
                      else None
                  | None => None
                  end
              | None => None
              end
          | None => None
          end
      | None => None
      end
  | None => None
  end.

Definition readSeconds (s : string) : option (Z * string) :=
  match s with
  | String ":" s1 =>
      match readDigits 2 s1 0 with
      | Some (sec, String "." s2) =>
          match readDigits 3 s2 0 with
          | Some (ms, s3) => if sec <=? 59 then Some (sec * 1000 + ms, s3) else None
          | None => None
          end
      | Some (sec, s2) => if sec <=? 59 then Some (sec * 1000, s2) else None
      | None => None
      end
  | _ => Some (0, s)
  end.

Definition readTime (s : string) : option (Z * string) :=
  match readDigits 2 s 0 with
  | Some (h, s1) =>
      match expect ":" s1 with
      | Some s2 =>
          match readDigits 2 s2 0 with
          | Some (m, s3) =>
              match readSeconds s3 with
              | Some (ms, s4) =>
                  if (h <=? 23) && (m <=? 59)
                  then Some (h * msPerHour + m * msPerMinute + ms, s4)
                  else None
              | None => None
              end
          | None => None
          end
      | None => None
      end
  | None => None
  end.

Definition parseISO (s : string) : option Z :=
  match readDate s with
  | Some (day, EmptyString) => Some day
  | Some (day, String "T" s1) =>
      match readTime s1 with
      | Some (time, EmptyString) => Some (day + time)
      | Some (time, String "Z" EmptyString) => Some (day + time)
      | _ => None
      end
  | _ => None
  end.

End Calendar.

(** ** The persisted document *)

(** A user record of [data.users]. *)
Record User := mkUser {
  username : string;
  displayName : string;
  passwordHash : string;
  userCreatedAt : string
}.

(** A task of [data.tasks].  [userId] is [data.currentUser] at creation,
    [null] when nobody was logged in; [completedAt] is absent until the
    task is completed. *)
Record Task := mkTask {
  id : string;
  userId : option string;
  title : string;
  description : string;
  priority : string;
  date : string;
  startTime : string;
  endTime : string;
  createdAt : string;
  completed : bool;
  completedAt : option string
}.

(** A badge of [data.badges]: the fields of its definition that
    [JSON.stringify] keeps, the owner and the day it was earned.  The icon
    glyph, which only the renderer reads, is left out. *)
Record Badge := mkBadge {
  badgeId : string;
  badgeTitle : string;
  badgeDescription : string;
  badgeCategory : string;
  badgeUserId : option string;
  earnedAt : string
}.

Record Settings := mkSettings {
  theme : string;
  notifications : bool
}.

Record Document := mkDocument {
  users : gmap string User;
  currentUser : option string;
  tasks : list Task;
  badges : list Badge;
  settings : Settings
}.

(** [initialData] of [initializeStorage]. *)
Definition initialData : Document :=
  {| users := ∅; currentUser := None; tasks := []; badges := [];
     settings := {| theme := "light"; notifications := true |} |}.

(** Any other value [JSON.parse] can return. *)
#[local] Unset Elimination Schemes.
Inductive json :=
| JNull
| JBool (b : bool)
| JNumber (n : Z)
| JString (s : string)
| JArray (items : list json)
| JObject (fields : list (string * json)).
#[local] Set Elimination Schemes.

(** What [JSON.parse] returns: a document of the schema above, kept
    typed, or a value that is not one. *)
Inductive JsValue :=
| Doc (d : Document)
| Other (j : json).

(** The text in the storage slot, by what [JSON.parse] makes of it. *)
Inductive StoredText :=
| Unparseable (raw : string)
| Json (v : JsValue).

(** [localStorage]: the item under [storageKey] ([None] when
    [getItem] returns [null]) and whether the host refuses writes
    ([setItem] throws, the quota being exceeded). *)
Record Store := mkStore {
  item : option StoredText;
  quotaExceeded : bool
}.

(** JavaScript truthiness, as [||] reads it. *)
Definition truthy (v : JsValue) : bool :=
  match v with
  | Doc _ => true
  | Other JNull => false
  | Other (JBool b) => b
  | Other (JNumber n) => negb (n =? 0)
  | Other (JString s) => negb (bool_decide (s = ""%string))
  | Other (JArray _) => true
  | Other (JObject _) => true
  end.

(** ** Computations: state, exceptions *)

Inductive exn :=
| Error (message : string)
| SyntaxError
| QuotaExceededError.

(** How a call ends: it returns, it throws, or it has met a stored value
    without the fields of the schema, where the model stops following it. *)
Inductive outcome (A : Type) :=
| Return (a : A)
| Throw (e : exn)
| OffSchema.
Arguments Return {A} a.
Arguments Throw {A} e.
Arguments OffSchema {A}.

Definition M (S A : Type) : Type := S -> outcome A * S.

Definition ret {S A} (a : A) : M S A := fun s => (Return a, s).

Definition bind {S A B} (m : M S A) (k : A -> M S B) : M S B :=
  fun s =>
    match m s with
    | (Return a, s') => k a s'
    | (Throw e, s') => (Throw e, s')
    | (OffSchema, s') => (OffSchema, s')
    end.

Definition throw {S A} (e : exn) : M S A := fun s => (Throw e, s).

Definition offSchema {S A} : M S A := fun s => (OffSchema, s).

(** [try { body } catch (error) { handler }]. *)
Definition tryCatch {S A} (body : M S A) (handler : exn -> M S A) : M S A :=
  fun s =>
    match body s with
    | (Throw e, s') => handler e s'
    | r => r
    end.

Definition gets {S A} (f : S -> A) : M S A := fun s => (Return (f s), s).
Definition modify {S} (f : S -> S) : M S unit := fun s => (Return tt, f s).

Declare Scope js_scope.
Delimit Scope js_scope with js.
Notation "x <- m ;; k" := (bind m (fun x => k))
  (at level 100, m at next level, right associativity) : js_scope.
Notation "m ;;; k" := (bind m (fun _ => k))
  (at level 100, right associativity) : js_scope.
Local Open Scope js_scope.

(** [forEach] over an array. *)
Fixpoint forEach {S A} (f : A -> M S unit) (l : list A) : M S unit :=
  match l with
  | [] => ret tt
  | x :: rest => f x ;;; forEach f rest
  end.

(** ** StorageManager *)

Module StorageManager.

Definition setItem (text : StoredText) : M Store unit :=
  fun s =>
    if quotaExceeded s then (Throw QuotaExceededError, s)
    else (Return tt, {| item := Some text; quotaExceeded := quotaExceeded s |}).

(** [JSON.parse(localStorage.getItem(this.storageKey))]: an absent item
    is [null], which parses to [null]; unparseable text throws. *)
Definition parseItem : M Store JsValue :=
  fun s =>
    match item s with
    | None => (Return (Other JNull), s)
    | Some (Unparseable raw) => (Throw SyntaxError, s)
    | Some (Json v) => (Return v, s)
    end.

Definition initializeStorage : M Store unit :=
  setItem (Json (Doc initialData)).

(** [init()] of the constructor: [!localStorage.getItem(...)] holds of a
    missing item and of the empty text. *)
Definition init : M Store unit :=
  fun s =>
    match item s with
    | None => initializeStorage s
    | Some (Unparseable "") => initializeStorage s
    | Some _ => (Return tt, s)
    end.

(** [getData] calls itself after it has reinitialised the storage.  The
    recursion is unfolded at most [fuel] times; [None] says that it
    would go deeper. *)
Fixpoint getDataFuel (fuel : nat) (s : Store) : option (outcome JsValue * Store) :=
  match fuel with
  | O => None
  | S fuel' =>
      match (v <- parseItem ;; ret (if truthy v then v else Other (JObject []))) s with
      | (Throw _, s') =>
          match initializeStorage s' with
          | (Return _, s'') => getDataFuel fuel' s''
          | (Throw e, s'') => Some (Throw e, s'')
          | (OffSchema, s'') => Some (OffSchema, s'')
          end
      | r => Some r
      end
  end.

(** Two rounds are all the recursion ever takes ([getDataFuel_enough]
    below), so [getData] is total. *)
Definition getData : M Store JsValue :=
  fun s => default (OffSchema, s) (getDataFuel 2 s).

Definition saveData (data : Document) : M Store bool :=
  tryCatch (setItem (Json (Doc data)) ;;; ret true) (fun _ => ret false).

(** The [const data = this.getData()] that opens every method below,
    for a stored value that is a document. *)
Definition getDocument : M Store Document :=
  v <- getData ;;
  match v with
  | Doc d => ret d
  | Other _ => offSchema
  end.

(** *** Users *)

(** [obj[name]] on an object used as a dictionary: the object's own
    entry, else what it inherits from [Object.prototype] (a function or
    an object, truthy, without a [passwordHash]), else [undefined]. *)
Inductive Property (A : Type) :=
| Own (a : A)
| Inherited
| Undefined.
Arguments Own {A} a.
Arguments Inherited {A}.
Arguments Undefined {A}.

Definition getProperty {A} (obj : gmap string A) (name : string) : Property A :=
  match obj !! name with
  | Some a => Own a
  | None => if bool_decide (name ∈ Js.inheritedNames) then Inherited else Undefined
  end.

Definition isTruthy {A} (p : Property A) : bool :=
  match p with Undefined => false | _ => true end.

(** The [userData] that [register] builds. *)
Record UserData := mkUserData {
  newUsername : string;
  newDisplayName : string;
  newPasswordHash : string
}.

Definition withUsers (data : Document) (us : gmap string User) : Document :=
  {| users := us; currentUser := currentUser data; tasks := tasks data;
     badges := badges data; settings := settings data |}.

Definition withCurrentUser (data : Document) (u : option string) : Document :=
  {| users := users data; currentUser := u; tasks := tasks data;
     badges := badges data; settings := settings data |}.

Definition withTasks (data : Document) (ts : list Task) : Document :=
  {| users := users data; currentUser := currentUser data; tasks := ts;
     badges := badges data; settings := settings data |}.

Definition withBadges (data : Document) (bs : list Badge) : Document :=
  {| users := users data; currentUser := currentUser data; tasks := tasks data;
     badges := bs; settings := settings data |}.

Definition addUser (now : Z) (userData : UserData) : M Store bool :=
  data <- getDocument ;;
  if isTruthy (getProperty (users data) (newUsername userData)) then ret false
  else
    saveData
      (withUsers data
         (<[newUsername userData :=
              {| username := newUsername userData;
                 displayName := newDisplayName userData;
                 passwordHash := newPasswordHash userData;
                 userCreatedAt := Calendar.toISOString now |}]> (users data))).

(** [data.users[username] || null]; [null] is [Undefined] here. *)
Definition getUser (name : string) : M Store (Property User) :=
  data <- getDocument ;; ret (getProperty (users data) name).

Definition setCurrentUser (name : option string) : M Store bool :=
  data <- getDocument ;; saveData (withCurrentUser data name).

Definition getCurrentUser : M Store (option string) :=
  data <- getDocument ;; ret (currentUser data).

(** *** Tasks *)

(** The object that [handleAddTask] passes to [addTask]. *)
Record TaskInput := mkTaskInput {
  inTitle : string;
  inDescription : string;
  inPriority : string;
  inDate : string;
  inStartTime : string;
  inEndTime : string
}.

(** [Date.now().toString(36) + Math.random().toString(36).substr(2)];
    [random] is the second summand, the digits the host's random
    number generator yields. *)
Definition generateId (now : Z) (random : string) : string :=
  (Js.toStringRadix 36 now +:+ random)%string.

(** [{ ...task, id: this.generateId(), userId: data.currentUser,
       createdAt: new Date().toISOString(), completed: false }]. *)
Definition stampTask (now : Z) (random : string) (owner : option string)
    (task : TaskInput) : Task :=
  {| id := generateId now random;
     userId := owner;
     title := inTitle task;
     description := inDescription task;
     priority := inPriority task;
     date := inDate task;
     startTime := inStartTime task;
     endTime := inEndTime task;
     createdAt := Calendar.toISOString now;
     completed := false;
     completedAt := None |}.

Definition addTask (now : Z) (random : string) (task : TaskInput) : M Store Task :=
  data <- getDocument ;;
  let newTask := stampTask now random (currentUser data) task in
  saveData (withTasks data (tasks data ++ [newTask])) ;;;
  ret newTask.

Definition getTasks : M Store (list Task) :=
  data <- getDocument ;;
  ret (filter (fun task => userId task = currentUser data) (tasks data)).

(** The [updates] object of [updateTask]: the fields it carries. *)
Record TaskUpdates := mkTaskUpdates {
  upId : option string;
  upUserId : option (option string);
  upCreatedAt : option string;
  upTitle : option string;
  upDescription : option string;
  upPriority : option string;
  upDate : option string;
  upStartTime : option string;
  upEndTime : option string;
  upCompleted : option bool;
  upCompletedAt : option string
}.

(** [{ ...task, ...updates }]. *)
Definition merge (task : Task) (updates : TaskUpdates) : Task :=
  {| id := default (id task) (upId updates);
     userId := default (userId task) (upUserId updates);
     title := default (title task) (upTitle updates);
     description := default (description task) (upDescription updates);
     priority := default (priority task) (upPriority updates);
     date := default (date task) (upDate updates);
     startTime := default (startTime task) (upStartTime updates);
     endTime := default (endTime task) (upEndTime updates);
     createdAt := default (createdAt task) (upCreatedAt updates);
     completed := default (completed task) (upCompleted updates);
     completedAt :=
       match upCompletedAt updates with
       | Some t => Some t
       | None => completedAt task
       end |}.

(** [tasks.findIndex(task => task.id === taskId)]; [None] is [-1]. *)
Fixpoint findIndex (taskId : string) (ts : list Task) : option nat :=
  match ts with
  | [] => None
  | task :: rest =>
      if bool_decide (id task = taskId) then Some O
      else S <$> findIndex taskId rest
  end.

Definition updateTask (taskId : string) (updates : TaskUpdates) : M Store (option Task) :=
  data <- getDocument ;;
  match findIndex taskId (tasks data) with
  | Some taskIndex =>
      let tasks' := alter (fun old => merge old updates) taskIndex (tasks data) in
      saveData (withTasks data tasks') ;;;
      ret (tasks' !! taskIndex)
  | None => ret None
  end.

Definition deleteTask (taskId : string) : M Store bool :=
  data <- getDocument ;;
  match findIndex taskId (tasks data) with
  | Some taskIndex => saveData (withTasks data (delete taskIndex (tasks data)))
  | None => ret false
  end.

Definition completion (now : Z) : TaskUpdates :=
  {| upId := None; upUserId := None; upCreatedAt := None;
     upTitle := None; upDescription := None; upPriority := None; upDate := None;
     upStartTime := None; upEndTime := None;
     upCompleted := Some true;
     upCompletedAt := Some (Calendar.toISOString now) |}.

Definition completeTask (now : Z) (taskId : string) : M Store (option Task) :=
  updateTask taskId (completion now).

(** *** Badges *)

Definition addBadge (now : Z) (badge : Badge) : M Store (option Badge) :=
  data <- getDocument ;;
  match
    find (fun b => bool_decide (badgeId b = badgeId badge)
                   && bool_decide (badgeUserId b = currentUser data))
         (badges data)
  with
  | Some _ => ret None
  | None =>
      let newBadge :=
        {| badgeId := badgeId badge;
           badgeTitle := badgeTitle badge;
           badgeDescription := badgeDescription badge;
           badgeCategory := badgeCategory badge;
           badgeUserId := currentUser data;
           earnedAt := Calendar.toISOString now |} in
      saveData (withBadges data (badges data ++ [newBadge])) ;;;
      ret (Some newBadge)
  end.

Definition getBadges : M Store (list Badge) :=
  data <- getDocument ;;
  ret (filter (fun badge => badgeUserId badge = currentUser data) (badges data)).

(** *** Statistics *)

Record DayStats := mkDayStats {
  dayTotal : nat;
  dayCompleted : nat;
  dayPending : nat
}.

Record PriorityStats := mkPriorityStats {
  high : nat;
  medium : nat;
  low : nat
}.

Record Stats := mkStats {
  total : nat;
  completedCount : nat;
  pending : nat;
  completedTasks : nat;
  today : DayStats;
  byPriority : PriorityStats
}.

Definition isCompleted (task : Task) : Prop := completed task = true.
Definition isPending (task : Task) : Prop := completed task = false.

Definition getTaskStats (now : Z) : M Store Stats :=
  ts <- getTasks ;;
  let todayDate := Calendar.isoDate now in
  let todayTasks := filter (fun task => date task = todayDate) ts in
  let completedList := filter isCompleted ts in
  let pendingList := filter isPending ts in
  ret {| total := length ts;
         completedCount := length completedList;
         pending := length pendingList;
         completedTasks := length completedList;
         today :=
           {| dayTotal := length todayTasks;
              dayCompleted := length (filter isCompleted todayTasks);
              dayPending := length (filter isPending todayTasks) |};
         byPriority :=
           {| high := length (filter (fun task => priority task = "high"%string) ts);
              medium := length (filter (fun task => priority task = "medium"%string) ts);
              low := length (filter (fun task => priority task = "low"%string) ts) |} |}.

(** *** Settings, export, import, cleanup *)

(** [data.users || {}]. *)
Definition getUsers : M Store (gmap string User) :=
  data <- getDocument ;; ret (users data).

Definition withSettings (data : Document) (s : Settings) : Document :=
  {| users := users data; currentUser := currentUser data; tasks := tasks data;
     badges := badges data; settings := s |}.

Definition setTheme (name : string) : M Store bool :=
  data <- getDocument ;;
  saveData (withSettings data
              {| theme := name; notifications := notifications (settings data) |}).

(** [data.settings.theme || 'light']. *)
Definition getTheme : M Store string :=
  data <- getDocument ;;
  ret (if bool_decide (theme (settings data) = ""%string) then "light"%string
       else theme (settings data)).

(** The object that [exportUserData] returns. *)
Record Export := mkExport {
  exUser : Property User;
  exTasks : list Task;
  exBadges : list Badge;
  exSettings : Settings
}.

(** The property name that [data.users[currentUser]] looks up: [null]
    is read as the string "null". *)
Definition propertyName (name : option string) : string :=
  match name with
  | Some n => n
  | None => "null"%string
  end.

Definition exportUserData : M Store Export :=
  data <- getDocument ;;
  ts <- getTasks ;;
  bs <- getBadges ;;
  ret {| exUser := getProperty (users data) (propertyName (currentUser data));
         exTasks := ts; exBadges := bs; exSettings := settings data |}.

(** The [settings] of an imported object: the fields it carries. *)
Record SettingsUpdates := mkSettingsUpdates {
  upTheme : option string;
  upNotifications : option bool
}.

(** The argument of [importUserData]: each part may be missing. *)
Record Import := mkImport {
  imTasks : option (list Task);
  imBadges : option (list Badge);
  imSettings : option SettingsUpdates
}.

(** [{ ...task, userId: currentUser }] and the same for a badge. *)
Definition ownTask (owner : option string) (task : Task) : Task :=
  {| id := id task; userId := owner; title := title task;
     description := description task; priority := priority task; date := date task;
     startTime := startTime task; endTime := endTime task;
     createdAt := createdAt task; completed := completed task;
     completedAt := completedAt task |}.

Definition ownBadge (owner : option string) (badge : Badge) : Badge :=
  {| badgeId := badgeId badge; badgeTitle := badgeTitle badge;
     badgeDescription := badgeDescription badge; badgeCategory := badgeCategory badge;
     badgeUserId := owner; earnedAt := earnedAt badge |}.

(** [{ ...data.settings, ...userData.settings }]. *)
Definition mergeSettings (s : Settings) (updates : SettingsUpdates) : Settings :=
  {| theme := default (theme s) (upTheme updates);
     notifications := default (notifications s) (upNotifications updates) |}.

Definition importUserData (userData : Import) : M Store bool :=
  data <- getDocument ;;
  let owner := currentUser data in
  let data1 :=
    match imTasks userData with
    | Some imported =>
        withTasks data
          (filter (fun task => userId task <> owner) (tasks data)
           ++ map (ownTask owner) imported)
    | None => data
    end in
  let data2 :=
    match imBadges userData with
    | Some imported =>
        withBadges data1
          (filter (fun badge => badgeUserId badge <> owner) (badges data1)
           ++ map (ownBadge owner) imported)
    | None => data1
    end in
  let data3 :=
    match imSettings userData with
    | Some updates => withSettings data2 (mergeSettings (settings data2) updates)
    | None => data2
    end in
  saveData data3.

(** An export, as [importUserData] reads it when it is passed back. *)
Definition asImport (e : Export) : Import :=
  {| imTasks := Some (exTasks e);
     imBadges := Some (exBadges e);
     imSettings := Some {| upTheme := Some (theme (exSettings e));
                           upNotifications := Some (notifications (exSettings e)) |} |}.

Section Cleanup.

(** The time zone of the host, and its [new Date(text).getTime()],
    [None] for an invalid date. *)
Variable host : Calendar.Host.
Variable dateParse : string -> option Z.

(** [task.completedAt || task.createdAt]. *)
Definition lastTouched (task : Task) : string :=
  match completedAt task with
  | Some "" => createdAt task
  | Some text => text
  | None => createdAt task
  end.

(** The callback of the filter of [cleanupOldData]. *)
Definition keptByCleanup (cutoff : Z) (task : Task) : bool :=
  if negb (completed task) then true
  else
    match dateParse (lastTouched task) with
    | Some taskDate => cutoff <? taskDate
    | None => false
    end.

Definition cleanupOldData (now : Z) (daysToKeep : Z) : M Store bool :=
  data <- getDocument ;;
  let cutoffDate := Calendar.daysBefore host now daysToKeep in
  saveData (withTasks data
              (filter (fun task => keptByCleanup cutoffDate task = true) (tasks data))).

End Cleanup.

(** *** Storages to run on *)

(** The stored item is a document of the schema. *)
Definition wellFormed (s : Store) : Prop :=
  exists d, item s = Some (Json (Doc d)).

(** A storage whose item is the document [d]; [full] tells whether the
    host refuses writes. *)
Definition storeOf (full : bool) (d : Document) : Store :=
  {| item := Some (Json (Doc d)); quotaExceeded := full |}.

(** A storage whose item says nothing ([JSON.parse] throws on it). *)
Definition corrupted (full : bool) (raw : string) : Store :=
  {| item := Some (Unparseable raw); quotaExceeded := full |}.

End StorageManager.


(** ** AuthManager *)

Module AuthManager.
Import StorageManager.

Record Auth := mkAuth {
  storage : Store;
  currentSession : option string
}.

Definition onStorage {A} (m : M Store A) : M Auth A :=
  fun a =>
    let '(r, s') := m (storage a) in
    (r, {| storage := s'; currentSession := currentSession a |}).

Definition setSession (name : option string) : M Auth unit :=
  modify (fun a => {| storage := storage a; currentSession := name |}).

(** One round of the loop of [hashPassword]:
    [hash = ((hash << 5) - hash) + char; hash = hash & hash]. *)
Definition hashStep (hash char : Z) : Z :=
  Js.toInt32 (Js.toInt32 (hash * 2 ^ 5) - hash + char).

Definition hashPassword (password : string) : string :=
  Js.toStringRadix 10 (fold_left hashStep (Js.charCodes password) 0).

(** [user.passwordHash]: [undefined] on what is inherited. *)
Definition passwordHashOf (user : Property User) : option string :=
  match user with
  | Own u => Some (passwordHash u)
  | Inherited => None
  | Undefined => None
  end.

(** [!s] on a string. *)
Definition isEmpty (s : string) : bool := bool_decide (s = ""%string).

Definition login (name password : string) : M Auth bool :=
  if isEmpty name || isEmpty password then
    throw (Error "Username and password are required")
  else
    user <- onStorage (getUser name) ;;
    if negb (isTruthy user) then
      throw (Error "Invalid username or password")
    else if negb (bool_decide (passwordHashOf user = Some (hashPassword password))) then
      throw (Error "Invalid username or password")
    else
      setSession (Some name) ;;;
      onStorage (setCurrentUser (Some name)) ;;;
      ret true.

Definition register (now : Z) (name password display : string) : M Auth bool :=
  if isEmpty name || isEmpty password || isEmpty display then
    throw (Error "All fields are required")
  else if (String.length name <? 3)%nat then
    throw (Error "Username must be at least 3 characters")
  else if (String.length password <? 6)%nat then
    throw (Error "Password must be at least 6 characters")
  else
    existingUser <- onStorage (getUser name) ;;
    if isTruthy existingUser then throw (Error "Username already exists")
    else
      let userData :=
        {| newUsername := name;
           newDisplayName := display;
           newPasswordHash := hashPassword password |} in
      success <- onStorage (addUser now userData) ;;
      if success then login name password
      else throw (Error "Failed to create account").

Definition logout : M Auth bool :=
  setSession None ;;;
  onStorage (setCurrentUser None) ;;;
  ret true.

(** [init()]: the session stored, if any, becomes the session. *)
Definition init : M Auth unit :=
  stored <- onStorage getCurrentUser ;;
  match stored with
  | Some name => if isEmpty name then ret tt else setSession (Some name)
  | None => ret tt
  end.

(** [new AuthManager(storage)], as on every load of the page. *)
Definition construct (s : Store) : outcome unit * Auth :=
  init {| storage := s; currentSession := None |}.

Definition isLoggedIn (a : Auth) : bool :=
  match currentSession a with
  | Some _ => true
  | None => false
  end.

(** [getCurrentUserData()]; [null] is [Undefined]. *)
Definition getCurrentUserData : M Auth (Property User) :=
  session <- gets currentSession ;;
  match session with
  | None => ret Undefined
  | Some name => if isEmpty name then ret Undefined else onStorage (getUser name)
  end.

(** The account manager over a storage that holds [d]. *)
Definition authOf (full : bool) (d : Document) (session : option string) : Auth :=
  {| storage := storeOf full d; currentSession := session |}.

(** The fields pass the checks of [register]. *)
Definition validFields (name password display : string) : Prop :=
  name <> ""%string /\ password <> ""%string /\ display <> ""%string
  /\ (3 <= String.length name)%nat /\ (6 <= String.length password)%nat.

(** The record that [addUser] stores. *)
Definition newUser (now : Z) (name password display : string) : User :=
  {| username := name; displayName := display;
     passwordHash := hashPassword password;
     userCreatedAt := Calendar.toISOString now |}.

(** The error classes of the specification, read off the messages. *)
Definition ValidationError (e : exn) : Prop :=
  e = Error "All fields are required"
  \/ e = Error "Username must be at least 3 characters"
  \/ e = Error "Password must be at least 6 characters".

Definition ConflictError (e : exn) : Prop :=
  e = Error "Username already exists".

Definition AuthError (e : exn) : Prop :=
  e = Error "Invalid username or password".

End AuthManager.

(** ** BadgeManager *)

Module BadgeManager.
Import StorageManager.

(** What the notification manager is asked to show. *)
Inductive Notice :=
| BadgeEarned (badgeTitle : string)
| DailyGoalsAchieved.

(** [notifier] tells whether [window.notificationManager] is set: the
    badge manager asks it to show a notice only when it is, and the
    page makes the badge manager, whose constructor runs [init], before
    it sets [window.notificationManager]. *)
Record State := mkState {
  storage : Store;
  shown : list Notice;
  notifier : bool
}.

Definition onStorage {A} (m : M Store A) : M State A :=
  fun st =>
    let '(r, s') := m (storage st) in
    (r, {| storage := s'; shown := shown st; notifier := notifier st |}).

(** [if (window.notificationManager) window.notificationManager.show...()]. *)
Definition showNotice (n : Notice) : M State unit :=
  modify (fun st =>
    if notifier st then
      {| storage := storage st; shown := shown st ++ [n]; notifier := notifier st |}
    else st).

(** An entry of [badgeDefinitions]; [condition] also takes the instant
    at which it reads the clock. *)
Record BadgeDefinition := mkBadgeDefinition {
  defId : string;
  defTitle : string;
  defDescription : string;
  defCategory : string;
  condition : Z -> Stats -> list Task -> bool
}.

(** The loop of [checkCompletionStreak], from day [i] on with [remaining]
    rounds to go; [dateString i] is the day that round [i] inspects. *)
Fixpoint streakLoop (dateString : nat -> string) (tasks : list Task)
    (requiredDays : Z) (remaining i : nat) (streak : Z) : bool :=
  match remaining with
  | O => false
  | S remaining' =>
      let dayTasks := filter (fun task => date task = dateString i) tasks in
      if (length dayTasks =? 0)%nat then
        streakLoop dateString tasks requiredDays remaining' (S i) streak
      else if forallb completed dayTasks then
        let streak' := streak + 1 in
        if streak' >=? requiredDays then true
        else streakLoop dateString tasks requiredDays remaining' (S i) streak'
      else false
  end.

(** The date string of round [i]: today's date moved back [i] days. *)
Definition checkDate (host : Calendar.Host) (now : Z) (i : nat) : string :=
  Calendar.isoDate (Calendar.daysBefore host now (Z.of_nat i)).

Definition checkCompletionStreak (host : Calendar.Host) (now : Z) (tasks : list Task)
    (requiredDays : Z) : bool :=
  streakLoop (checkDate host now) tasks requiredDays 365 0 0.

Section Catalog.

(** The time zone of the host, and its [new Date(text).getTime()],
    [None] for an invalid date. *)
Variable host : Calendar.Host.
Variable dateParse : string -> option Z.

Definition dailyCompletion : BadgeDefinition :=
  {| defId := "dailyCompletion";
     defTitle := "Daily Champion";
     defDescription := "Complete all tasks in a single day";
     defCategory := "daily";
     condition := fun now _ tasks =>
       let today := Calendar.isoDate now in
       let todayTasks := filter (fun task => date task = today) tasks in
       (0 <? length todayTasks)%nat && forallb completed todayTasks |}.

(** The callback of [earlyBird] and [nightOwl], for a test on the hour. *)
Definition completedAtHour (test : Z -> bool) (task : Task) : bool :=
  if negb (completed task) then false
  else
    match completedAt task with
    | None => false
    | Some "" => false
    | Some text =>
        match dateParse text with
        | Some t => test (Calendar.getHours host t)
        | None => false
        end
    end.

(** [new Date(task.date).getDay() === day]. *)
Definition fallsOn (day : Z) (task : Task) : bool :=
  match dateParse (date task) with
  | Some t => Calendar.getDay host t =? day
  | None => false
  end.

(** The callback of [organizer]: [taskDate > today], today at midnight. *)
Definition isAhead (now : Z) (task : Task) : bool :=
  match dateParse (date task) with
  | Some t => Calendar.startOfDay host now <? t
  | None => false
  end.

Definition badgeDefinitions : list BadgeDefinition :=
  [ {| defId := "firstTask";
       defTitle := "Getting Started";
       defDescription := "Complete your first task";
       defCategory := "milestone";
       condition := fun _ userStats _ => (1 <=? completedTasks userStats)%nat |};
    dailyCompletion;
    {| defId := "streak3";
       defTitle := "On Fire";
       defDescription := "Complete all tasks for 3 consecutive days";
       defCategory := "streak";
       condition := fun now _ tasks => checkCompletionStreak host now tasks 3 |};
    {| defId := "streak7";
       defTitle := "Unstoppable";
       defDescription := "Complete all tasks for 7 consecutive days";
       defCategory := "streak";
       condition := fun now _ tasks => checkCompletionStreak host now tasks 7 |};
    {| defId := "earlyBird";
       defTitle := "Early Bird";
       defDescription := "Complete a task before 7 AM";
       defCategory := "time";
       condition := fun _ _ tasks => existsb (completedAtHour (fun h => h <? 7)) tasks |};
    {| defId := "nightOwl";
       defTitle := "Night Owl";
       defDescription := "Complete a task after 10 PM";
       defCategory := "time";
       condition := fun _ _ tasks => existsb (completedAtHour (fun h => 22 <=? h)) tasks |};
    {| defId := "taskMaster";
       defTitle := "Task Master";
       defDescription := "Complete 50 tasks total";
       defCategory := "milestone";
       condition := fun _ userStats _ => (50 <=? completedTasks userStats)%nat |};
    {| defId := "prioritizer";
       defTitle := "Priority Master";
       defDescription := "Complete 10 high-priority tasks";
       defCategory := "priority";
       condition := fun _ _ tasks =>
         (10 <=? length (filter (fun task => completed task = true
                                             /\ priority task = "high"%string) tasks))%nat |};
    {| defId := "organizer";
       defTitle := "Super Organizer";
       defDescription := "Have 20 tasks scheduled in advance";
       defCategory := "planning";
       condition := fun now _ tasks =>
         (20 <=? length (filter (fun task => isAhead now task = true) tasks))%nat |};
    {| defId := "weekendWarrior";
       defTitle := "Weekend Warrior";
       defDescription := "Complete tasks on both Saturday and Sunday";
       defCategory := "weekend";
       condition := fun _ _ tasks =>
         let weekendTasks :=
           filter (fun task => (fallsOn 0 task || fallsOn 6 task) && completed task = true)
                  tasks in
         existsb (fallsOn 6) weekendTasks && existsb (fallsOn 0) weekendTasks |} ].

Definition awardBadge (now : Z) (badgeDefinition : BadgeDefinition) : M State unit :=
  let badge :=
    {| badgeId := defId badgeDefinition;
       badgeTitle := defTitle badgeDefinition;
       badgeDescription := defDescription badgeDefinition;
       badgeCategory := defCategory badgeDefinition;
       badgeUserId := None;
       earnedAt := Calendar.toISOString now |} in
  addedBadge <- onStorage (addBadge now badge) ;;
  match addedBadge with
  | Some _ => showNotice (BadgeEarned (badgeTitle badge))
  | None => ret tt
  end.

(** The callback that [checkAllBadges] runs on each definition. *)
Definition checkBadge (now : Z) (userStats : Stats) (tasks : list Task)
    (currentBadgeIds : list string) (badgeDef : BadgeDefinition) : M State unit :=
  if bool_decide (defId badgeDef ∈ currentBadgeIds) then ret tt
  else if condition badgeDef now userStats tasks then awardBadge now badgeDef
  else ret tt.

Definition checkAllBadges (now : Z) : M State unit :=
  tasks <- onStorage getTasks ;;
  userStats <- onStorage (getTaskStats now) ;;
  currentBadges <- onStorage getBadges ;;
  let currentBadgeIds := map badgeId currentBadges in
  forEach (checkBadge now userStats tasks currentBadgeIds) badgeDefinitions.

(** [init]: the first run of [checkAllBadges]; [renderBadges] draws the
    page and is left out. *)
Definition init (now : Z) : M State unit := checkAllBadges now.

Definition checkDailyCompletionBadge (now : Z) : M State unit :=
  tasks <- onStorage getTasks ;;
  let today := Calendar.isoDate now in
  let todayTasks := filter (fun task => date task = today) tasks in
  if (0 <? length todayTasks)%nat && forallb completed todayTasks then
    currentBadges <- onStorage getBadges ;;
    let todayBadge :=
      find (fun badge => bool_decide (badgeId badge = "dailyCompletion"%string)
                         && bool_decide (Js.beforeT (earnedAt badge) = today))
           currentBadges in
    match todayBadge with
    | None => awardBadge now dailyCompletion ;;; showNotice DailyGoalsAchieved
    | Some _ => ret tt
    end
  else ret tt.

End Catalog.

End BadgeManager.

(** ** NotificationManager: the reminder scheduler *)

Module NotificationManager.
Import StorageManager.

Inductive ReminderKind :=
| OneHour
| FiveMinutes
| AtStart.

(** A pending timer of the host: its delay and the reminder its callback
    shows. *)
Record Timer := mkTimer {
  delay : Z;
  kind : ReminderKind;
  about : Task
}.

(** [scheduledNotifications] is the manager's [Map] from key to timer
    handle; [timers] are the host's pending timers and [nextTimer] the
    handle that the next [setTimeout] returns. *)
Record State := mkState {
  storage : Store;
  scheduledNotifications : gmap string nat;
  timers : gmap nat Timer;
  nextTimer : nat
}.

Definition onStorage {A} (m : M Store A) : M State A :=
  fun st =>
    let '(r, s') := m (storage st) in
    (r, {| storage := s'; scheduledNotifications := scheduledNotifications st;
           timers := timers st; nextTimer := nextTimer st |}).

Definition setTimeout (t : Timer) : M State nat :=
  fun st =>
    (Return (nextTimer st),
     {| storage := storage st; scheduledNotifications := scheduledNotifications st;
        timers := <[nextTimer st := t]> (timers st); nextTimer := S (nextTimer st) |}).

Definition clearTimeout (handle : nat) : M State unit :=
  modify (fun st =>
    {| storage := storage st; scheduledNotifications := scheduledNotifications st;
       timers := delete handle (timers st); nextTimer := nextTimer st |}).

Definition withScheduled (f : gmap string nat -> gmap string nat) : M State unit :=
  modify (fun st =>
    {| storage := storage st; scheduledNotifications := f (scheduledNotifications st);
       timers := timers st; nextTimer := nextTimer st |}).

Definition suffix (k : ReminderKind) : string :=
  match k with
  | OneHour => "-1h"
  | FiveMinutes => "-5m"
  | AtStart => "-start"
  end.

(** The key [`${task.id}-1h`], [`${task.id}-5m`] or [`${task.id}-start`]. *)
Definition key (taskId : string) (k : ReminderKind) : string :=
  (taskId +:+ suffix k)%string.

(** How long before the start of the task the reminder is due. *)
Definition lead (k : ReminderKind) : Z :=
  match k with
  | OneHour => 60 * 60 * 1000
  | FiveMinutes => 5 * 60 * 1000
  | AtStart => 0
  end.

(** The callback of [cancelTaskNotifications] on one key. *)
Definition cancelKey (name : string) : M State unit :=
  scheduled <- gets scheduledNotifications ;;
  match scheduled !! name with
  | Some handle => clearTimeout handle ;;; withScheduled (delete name)
  | None => ret tt
  end.

Definition cancelTaskNotifications (taskId : string) : M State unit :=
  forEach cancelKey [key taskId OneHour; key taskId FiveMinutes; key taskId AtStart].

(** One of the three blocks of [scheduleTaskNotifications]: the reminder
    of kind [k] is set when its instant is after [now]. *)
Definition scheduleReminder (now : Z) (task : Task) (taskDateTime : option Z)
    (k : ReminderKind) : M State unit :=
  match taskDateTime with
  | Some start =>
      if now <? start - lead k then
        handle <- setTimeout {| delay := start - lead k - now; kind := k; about := task |} ;;
        withScheduled (insert (key (id task) k) handle)
      else ret tt
  | None => ret tt
  end.

Definition clearAllNotifications : M State unit :=
  modify (fun st =>
    {| storage := storage st;
       scheduledNotifications := ∅;
       timers := foldr (fun entry ts => delete entry.2 ts) (timers st)
                       (map_to_list (scheduledNotifications st));
       nextTimer := nextTimer st |}).

Section Scheduler.

(** [new Date(text).getTime()] of the host, [None] for an invalid date. *)
Variable dateParse : string -> option Z.

(** [task] is [None] for a [null] argument. *)
Definition scheduleTaskNotifications (now : Z) (task : option Task) : M State unit :=
  match task with
  | None => ret tt
  | Some task =>
      if completed task then ret tt
      else
        let taskDateTime := dateParse (date task +:+ "T" +:+ startTime task)%string in
        cancelTaskNotifications (id task) ;;;
        scheduleReminder now task taskDateTime OneHour ;;;
        scheduleReminder now task taskDateTime FiveMinutes ;;;
        scheduleReminder now task taskDateTime AtStart
  end.

Definition scheduleAllTaskNotifications (now : Z) : M State unit :=
  tasks <- onStorage getTasks ;;
  let incompleteTasks := filter (fun task => completed task = false) tasks in
  clearAllNotifications ;;;
  forEach (fun task => scheduleTaskNotifications now (Some task)) incompleteTasks.

End Scheduler.

(** The reminder kinds that [taskId] has a timer for, in the order the
    scheduler sets them. *)
Definition remindersOf (st : State) (taskId : string) : list ReminderKind :=
  filter (fun k => is_Some (scheduledNotifications st !! key taskId k))
         [OneHour; FiveMinutes; AtStart].

End NotificationManager.

(** ** TaskManager

    The handlers of the page, with the managers that the page sets up
    when it is loaded: [window.notificationManager] and
    [window.badgeManager] exist and work on the storage of the task
    manager.  [renderTasks], [updateStats], the modals and the charts
    that a handler refreshes draw the page from what the storage holds
    and are left out; what a handler shows to the user, an [alert] or a
    notification, is recorded. *)

Module TaskManager.
Import StorageManager.

(** What the page shows: an [alert], or a notification. *)
Inductive Shown :=
| Alert (message : string)
| TaskCompleted (taskTitle : string)
| FromBadges (notice : BadgeManager.Notice).

(** [currentFilter]. *)
Record Filter := mkFilter {
  filterPriority : string;
  filterStatus : string
}.

(** The page: the storage, what has been shown, the map and the timers
    of the notification manager, and the filter of the task manager. *)
Record App := mkApp {
  storage : Store;
  shown : list Shown;
  scheduled : gmap string nat;
  pending : gmap nat NotificationManager.Timer;
  next : nat;
  currentFilter : Filter
}.

Definition withStorage (app : App) (s : Store) : App :=
  {| storage := s; shown := shown app; scheduled := scheduled app;
     pending := pending app; next := next app; currentFilter := currentFilter app |}.

Definition withShown (app : App) (notices : list Shown) : App :=
  {| storage := storage app; shown := notices; scheduled := scheduled app;
     pending := pending app; next := next app; currentFilter := currentFilter app |}.

(** [window.notificationManager], over the storage of the page. *)
Definition schedulerOf (app : App) : NotificationManager.State :=
  {| NotificationManager.storage := storage app;
     NotificationManager.scheduledNotifications := scheduled app;
     NotificationManager.timers := pending app;
     NotificationManager.nextTimer := next app |}.

Definition withScheduler (app : App) (st : NotificationManager.State) : App :=
  {| storage := NotificationManager.storage st; shown := shown app;
     scheduled := NotificationManager.scheduledNotifications st;
     pending := NotificationManager.timers st;
     next := NotificationManager.nextTimer st;
     currentFilter := currentFilter app |}.

Definition onStorage {A} (m : M Store A) : M App A :=
  fun app => let '(r, s') := m (storage app) in (r, withStorage app s').

(** A call into [window.notificationManager]. *)
Definition onScheduler {A} (m : M NotificationManager.State A) : M App A :=
  fun app => let '(r, st') := m (schedulerOf app) in (r, withScheduler app st').

(** A call into [window.badgeManager], made once the page is loaded and
    its notification manager set; what it shows is added to what the
    page has shown. *)
Definition onBadges {A} (m : M BadgeManager.State A) : M App A :=
  fun app =>
    let '(r, b') :=
      m {| BadgeManager.storage := storage app; BadgeManager.shown := [];
           BadgeManager.notifier := true |} in
    (r, withShown (withStorage app (BadgeManager.storage b'))
          (shown app ++ map FromBadges (BadgeManager.shown b'))).

Definition show (what : Shown) : M App unit :=
  modify (fun app => withShown app (shown app ++ [what])).

(** The values of the fields of a task form, as the page holds them. *)
Record TaskForm := mkTaskForm {
  formTitle : string;
  formDescription : string;
  formPriority : string;
  formDate : string;
  formStartTime : string;
  formEndTime : string
}.

(** [!s] on a string. *)
Definition isEmpty (s : string) : bool := bool_decide (s = ""%string).

(** The checks that [handleAddTask] and [handleEditTask] make on the
    values they have read: the alert to show, if any. *)
Definition refusal (taskTitle taskDate start finish : string) : option string :=
  if isEmpty taskTitle || isEmpty taskDate || isEmpty start || isEmpty finish then
    Some "Please fill in all required fields"%string
  else if negb (String.ltb start finish) then
    Some "End time must be after start time"%string
  else None.

Section Handlers.

(** The time zone of the host, and its [new Date(text).getTime()],
    [None] for an invalid date. *)
Variable host : Calendar.Host.
Variable dateParse : string -> option Z.


Definition handleEditTask (scheduledAt : Z) (taskId : string) (form : TaskForm) :
    M App unit :=
  let taskTitle := Js.trim (formTitle form) in
  let taskDescription := Js.trim (formDescription form) in
  match refusal taskTitle (formDate form) (formStartTime form) (formEndTime form) with
  | Some message => show (Alert message)
  | None =>
      let updates :=
        {| upId := None; upUserId := None; upCreatedAt := None;
           upTitle := Some taskTitle; upDescription := Some taskDescription;
           upPriority := Some (formPriority form); upDate := Some (formDate form);
           upStartTime := Some (formStartTime form); upEndTime := Some (formEndTime form);
           upCompleted := None; upCompletedAt := None |} in
      updatedTask <- onStorage (updateTask taskId updates) ;;
      match updatedTask with
      | Some updated =>
          onScheduler (NotificationManager.cancelTaskNotifications taskId) ;;;
          onScheduler (NotificationManager.scheduleTaskNotifications dateParse scheduledAt
                         (Some updated))
      | None => ret tt
      end
  end.

Definition completeTask (done checked daily : Z) (taskId : string) : M App unit :=
  task <- onStorage (StorageManager.completeTask done taskId) ;;
  match task with
  | Some finished =>
      show (TaskCompleted (title finished)) ;;;
      onBadges (BadgeManager.checkAllBadges host dateParse checked) ;;;
      onBadges (BadgeManager.checkDailyCompletionBadge daily) ;;;
      onScheduler (NotificationManager.cancelTaskNotifications taskId)
  | None => ret tt
  end.

(** [confirmed] is the answer to [confirm(...)]. *)
Definition deleteTask (confirmed : bool) (taskId : string) : M App unit :=
  if confirmed then
    success <- onStorage (StorageManager.deleteTask taskId) ;;
    if success then onScheduler (NotificationManager.cancelTaskNotifications taskId)
    else ret tt
  else ret tt.

(** The callback of [getRollingWindowTasks]: the date of the task,
    read as an instant, lies between seven days before now and seven
    days after, ends included. *)
Definition inWindow (now : Z) (task : Task) : bool :=
  match dateParse (date task) with
  | Some taskDate =>
      (Calendar.daysBefore host now 7 <=? taskDate)
      && (taskDate <=? Calendar.daysBefore host now (-7))
  | None => false
  end.

Definition getRollingWindowTasks (now : Z) (ts : list Task) : list Task :=
  filter (fun task => inWindow now task = true) ts.

(** [isTaskOverdue]. *)
Definition isTaskOverdue (now : Z) (task : Task) : bool :=
  if completed task then false
  else
    match dateParse (date task +:+ "T" +:+ endTime task)%string with
    | Some taskEnd => taskEnd <? now
    | None => false
    end.

End Handlers.

Definition getFilteredTasks : M App (list Task) :=
  ts <- onStorage getTasks ;;
  flt <- gets currentFilter ;;
  let ts1 :=
    if bool_decide (filterPriority flt = "all"%string) then ts
    else filter (fun task => priority task = filterPriority flt) ts in
  let ts2 :=
    if bool_decide (filterStatus flt = "all"%string) then ts1
    else if bool_decide (filterStatus flt = "completed"%string) then
      filter (fun task => completed task = true) ts1
    else if bool_decide (filterStatus flt = "pending"%string) then
      filter (fun task => completed task = false) ts1
    else ts1 in
  ret ts2.

(** The two keys that [setFilter] is called with. *)
Inductive FilterType :=
| Priority
| Status.

Definition setFilter (filterType : FilterType) (value : string) : M App unit :=
  modify (fun app =>
    {| storage := storage app; shown := shown app; scheduled := scheduled app;
       pending := pending app; next := next app;
       currentFilter :=
         match filterType with
         | Priority => {| filterPriority := value;
                          filterStatus := filterStatus (currentFilter app) |}
         | Status => {| filterPriority := filterPriority (currentFilter app);
                        filterStatus := value |}
         end |}).

(** The page over a storage that holds [d], with nothing shown, nothing
    scheduled and no filter set. *)
Definition pageOf (full : bool) (d : Document) : App :=
  {| storage := storeOf full d; shown := []; scheduled := ∅; pending := ∅; next := 0;
     currentFilter := {| filterPriority := "all"; filterStatus := "all" |} |}.

(** The stored document, when the item is one. *)
Definition documentOf (app : App) : option Document :=
  match item (storage app) with
  | Some (Json (Doc d)) => Some d
  | _ => None
  end.

End TaskManager.

(** ** The streak scan of the specification *)

Module StreakSpec.

(** The calendar day [i] days before today, today being the day of
    [now] that [toISOString] prints, written as the page dates its
    tasks. *)
Definition dayBack (now : Z) (i : nat) : string :=
  Calendar.dateText (now / Calendar.msPerDay - Z.of_nat i).

Section Scan.

Variable now : Z.
Variable tasks : list Task.
Variable requiredDays : Z.

(** The tasks dated the [i]-th day back from today. *)
Definition dayTasks (i : nat) : list Task :=
  filter (fun task => date task = dayBack now i) tasks.

(** The scan in the words of the specification: [scan i streak r] says
    that, standing at the [i]-th day back with the counter at [streak],
    the scan ends with the answer [r].  It ends with [true] as soon as
    the counter has reached [requiredDays].  Until then it walks back
    one calendar day at a time, 365 days at most: a day without tasks is
    skipped, a day with an incomplete task ends it with [false], and a
    day whose tasks are all completed adds one to the counter. *)
Inductive scan : nat -> Z -> bool -> Prop :=
| scan_reached i streak :
    requiredDays <= streak -> scan i streak true
| scan_exhausted i streak :
    streak < requiredDays -> (365 <= i)%nat -> scan i streak false
| scan_skip i streak r :
    streak < requiredDays -> (i < 365)%nat -> dayTasks i = [] ->
    scan (S i) streak r -> scan i streak r
| scan_incomplete i streak :
    streak < requiredDays -> (i < 365)%nat ->
    Exists (fun task => completed task = false) (dayTasks i) ->
    scan i streak false
| scan_counted i streak r :
    streak < requiredDays -> (i < 365)%nat -> dayTasks i <> [] ->
    Forall (fun task => completed task = true) (dayTasks i) ->
    scan (S i) (streak + 1) r -> scan i streak r.

End Scan.

End StreakSpec.

(** ** What the scheduler leaves *)

Module NotificationSpec.
Import NotificationManager.

(** The reminder of kind [k] for a task that starts at [start] is still
    ahead at [now]; never, when the start is an invalid date. *)
Definition due (now : Z) (start : option Z) (k : ReminderKind) : bool :=
  match start with
  | Some s => now <? s - lead k
  | None => false
  end.

(** The state after [cancelKey name]. *)
Definition afterCancelKey (name : string) (st : State) : State :=
  {| storage := storage st;
     scheduledNotifications := delete name (scheduledNotifications st);
     timers :=
       match scheduledNotifications st !! name with
       | Some handle => delete handle (timers st)
       | None => timers st
       end;
     nextTimer := nextTimer st |}.

Definition afterCancel (taskId : string) (st : State) : State :=
  afterCancelKey (key taskId AtStart)
    (afterCancelKey (key taskId FiveMinutes)
       (afterCancelKey (key taskId OneHour) st)).

(** The state after the block of [scheduleTaskNotifications] for the
    kind [k]. *)
Definition afterReminder (now : Z) (task : Task) (start : option Z) (k : ReminderKind)
    (st : State) : State :=
  match start with
  | Some s =>
      if due now start k then
        {| storage := storage st;
           scheduledNotifications :=
             <[key (id task) k := nextTimer st]> (scheduledNotifications st);
           timers :=
             <[nextTimer st := {| delay := s - lead k - now; kind := k; about := task |}]>
               (timers st);
           nextTimer := S (nextTimer st) |}
      else st
  | None => st
  end.

Definition afterSchedule (now : Z) (task : Task) (start : option Z) (st : State) : State :=
  afterReminder now task start AtStart
    (afterReminder now task start FiveMinutes
       (afterReminder now task start OneHour
          (afterCancel (id task) st))).

(** Every key of [scheduledNotifications] is the key of a reminder of a
    task of [ts]. *)
Definition keysAmong (ts : list Task) (st : State) : Prop :=
  forall name handle,
    scheduledNotifications st !! name = Some handle ->
    exists task k, task ∈ ts /\ name = key (id task) k.

(** The books of the scheduler are in order: every key leads to a
    pending timer of the host, two keys never to the same one, every
    pending timer is under some key, and no handle in use is one that
    [setTimeout] has yet to give out. *)
Definition tidy (st : State) : Prop :=
  (forall name handle,
      scheduledNotifications st !! name = Some handle ->
      is_Some (timers st !! handle) /\ (handle < nextTimer st)%nat)
  /\ (forall name name' handle,
        scheduledNotifications st !! name = Some handle ->
        scheduledNotifications st !! name' = Some handle -> name = name')
  /\ (forall handle,
        is_Some (timers st !! handle) ->
        exists name, scheduledNotifications st !! name = Some handle).

(** A scheduler with nothing scheduled, over a storage that holds [d]. *)
Definition idle (d : Document) : State :=
  {| storage := StorageManager.storeOf false d; scheduledNotifications := ∅;
     timers := ∅; nextTimer := 0 |}.

End NotificationSpec.

(** ** Counting badges *)

Module BadgeSpec.
Import StorageManager BadgeManager.

(** The badge manager over a storage that holds [d]; [present] tells
    whether the notification manager of the page is set. *)
Definition badgeStateOn (present full : bool) (d : Document) (notices : list Notice) :
    State :=
  {| storage := storeOf full d; shown := notices; notifier := present |}.

(** The badge manager of the page once it is loaded. *)
Definition badgeState (full : bool) (d : Document) (notices : list Notice) : State :=
  badgeStateOn true full d notices.

(** The number of badges that [owner] holds under the id [bid]. *)
Definition owned (bid : string) (owner : option string) (bs : list Badge) : nat :=
  length (filter (fun b => badgeId b = bid /\ badgeUserId b = owner) bs).

(** The badge that [addBadge] stores for a definition. *)
Definition granted (now : Z) (owner : option string) (def : BadgeDefinition) : Badge :=
  {| badgeId := defId def; badgeTitle := defTitle def;
     badgeDescription := defDescription def; badgeCategory := defCategory def;
     badgeUserId := owner; earnedAt := Calendar.toISOString now |}.

(** The tasks of the current user dated the day of [now]. *)
Definition todayTasks (now : Z) (d : Document) : list Task :=
  filter (fun task => date task = Calendar.isoDate now)
         (filter (fun task => userId task = currentUser d) (tasks d)).

(** The badge of the current user that [checkDailyCompletionBadge] takes
    for today's. *)
Definition todayBadge (now : Z) (d : Document) : option Badge :=
  find (fun badge => bool_decide (badgeId badge = "dailyCompletion"%string)
                     && bool_decide (Js.beforeT (earnedAt badge) = Calendar.isoDate now))
       (filter (fun badge => badgeUserId badge = currentUser d) (badges d)).

(** From [d] to [d'] no holder has gained a badge under an id he held
    one under, and none has gained two under one id. *)
Definition keepsBadges (d d' : Document) : Prop :=
  forall bid owner,
    owned bid owner (badges d') = owned bid owner (badges d)
    \/ (owned bid owner (badges d) = 0%nat /\ owned bid owner (badges d') = 1%nat).

(** The ids of the badges that the current user holds:
    [currentBadgeIds] of [checkAllBadges]. *)
Definition heldIds (d : Document) : list string :=
  map badgeId (filter (fun badge => badgeUserId badge = currentUser d) (badges d)).

(** The definitions of [defs] that a run of [checkAllBadges] grants:
    those not held whose condition holds. *)
Definition toGrant (now : Z) (stats : Stats) (d : Document) (defs : list BadgeDefinition) :
    list BadgeDefinition :=
  filter (fun def =>
            (defId def ∉ heldIds d)
            /\ condition def now stats
                 (filter (fun task => userId task = currentUser d) (tasks d)) = true)
         defs.

Section Rerun.

Variable host : Calendar.Host.
Variable dateParse : string -> option Z.

(** [rerun d d']: the document [d'] is what some number of runs of
    [checkAllBadges] leave of [d], whatever happens between two runs to
    everything in the document but its badges. *)
Inductive rerun : Document -> Document -> Prop :=
| rerun_none d : rerun d d
| rerun_again d d1 d2 d3 now present full notices notices' :
    rerun d d1 ->
    badges d2 = badges d1 ->
    checkAllBadges host dateParse now (badgeStateOn present full d2 notices)
    = (Return tt, badgeStateOn present full d3 notices') ->
    rerun d d3.

End Rerun.

End BadgeSpec.

(** ** Task forms *)

Module PageSpec.
Import StorageManager TaskManager.


(** The object [updates] that [handleEditTask] hands to the storage. *)
Definition formUpdates (form : TaskForm) : TaskUpdates :=
  {| upId := None; upUserId := None; upCreatedAt := None;
     upTitle := Some (Js.trim (formTitle form));
     upDescription := Some (Js.trim (formDescription form));
     upPriority := Some (formPriority form); upDate := Some (formDate form);
     upStartTime := Some (formStartTime form); upEndTime := Some (formEndTime form);
     upCompleted := None; upCompletedAt := None |}.

(** A form that passes the checks of the handlers: a title that is not
    blank, a date, a start, an end, and the start before the end in the
    order of strings. *)
Definition accepted (form : TaskForm) : Prop :=
  Js.trim (formTitle form) <> ""%string
  /\ formDate form <> ""%string
  /\ formStartTime form <> ""%string
  /\ formEndTime form <> ""%string
  /\ String.ltb (formStartTime form) (formEndTime form) = true.

End PageSpec.

(** ** Sample data *)

Module Samples.
Import StorageManager AuthManager.

(** The text [{}] in a storage that accepts writes. *)
Definition emptyObjectStore : Store :=
  {| item := Some (Json (Other (JObject []))); quotaExceeded := false |}.

(** A document with one pending task of the user logged in. *)
Definition writeReport : Task :=
  {| id := "ltlm3n9fk2x9"; userId := Some "alice"%string; title := "Write report";
     description := ""; priority := "high"; date := "2024-03-10";
     startTime := "15:00"; endTime := "16:00";
     createdAt := "2024-03-10T14:30:45.123Z"; completed := false;
     completedAt := None |}.

(** Updates that give a task another id and touch nothing else. *)
Definition renamed : TaskUpdates :=
  {| upId := Some "r1"%string; upUserId := None; upCreatedAt := None;
     upTitle := None; upDescription := None; upPriority := None; upDate := None;
     upStartTime := None; upEndTime := None; upCompleted := None; upCompletedAt := None |}.

Definition aliceDocument : Document :=
  {| users := ∅; currentUser := Some "alice"%string; tasks := [writeReport];
     badges := []; settings := settings initialData |}.

(** A document in which alice is logged in and has no task yet. *)
Definition aliceAlone : Document :=
  {| users := ∅; currentUser := Some "alice"%string; tasks := [];
     badges := []; settings := settings initialData |}.

Definition report : TaskInput :=
  {| inTitle := "Write report"; inDescription := ""; inPriority := "high";
     inDate := "2024-03-10"; inStartTime := "15:00"; inEndTime := "16:00" |}.

Definition review : TaskInput :=
  {| inTitle := "Review budget"; inDescription := ""; inPriority := "low";
     inDate := "2024-03-11"; inStartTime := "09:00"; inEndTime := "10:00" |}.

(** A document in which bob has an account, with password "hunter22". *)
Definition bob : User :=
  {| username := "bob"; displayName := "Bob"; passwordHash := hashPassword "hunter22";
     userCreatedAt := "2024-03-01T08:00:00.000Z" |}.

Definition bobDocument : Document :=
  withUsers initialData {[ "bob"%string := bob ]}.

(** Eve has an account, with the password "secretAa". *)
Definition eve : User :=
  {| username := "eve"; displayName := "Eve";
     passwordHash := AuthManager.hashPassword "secretAa";
     userCreatedAt := "2024-03-01T08:00:00.000Z" |}.

Definition eveDocument : Document :=
  withUsers initialData {[ "eve"%string := eve ]}.

(** A task of [owner] dated [day], completed at noon of that day when
    [done]. *)
Definition taskOn (taskId owner day : string) (done : bool) : Task :=
  {| id := taskId; userId := Some owner; title := "Task"; description := "";
     priority := "medium"; date := day; startTime := "09:00"; endTime := "10:00";
     createdAt := (day +:+ "T08:00:00.000Z")%string; completed := done;
     completedAt := if done then Some (day +:+ "T12:00:00.000Z")%string else None |}.

(** Carol earned the daily badge on 10 March 2024 and has completed the
    one task of 11 March. *)
Definition carolDocument : Document :=
  {| users := ∅; currentUser := Some "carol"%string;
     tasks := [taskOn "t1" "carol" "2024-03-10" true; taskOn "t2" "carol" "2024-03-11" true];
     badges := [ {| badgeId := "dailyCompletion"; badgeTitle := "Daily Champion";
                    badgeDescription := "Complete all tasks in a single day";
                    badgeCategory := "daily"; badgeUserId := Some "carol"%string;
                    earnedAt := "2024-03-10T18:00:00.000Z" |} ];
     settings := settings initialData |}.

(** 11 March 2024, 18:00. *)
Definition march11Evening : Z := 1710180000000.

(** Dana holds the first-task badge and has completed the one task of
    10 March 2024. *)
Definition danaDocument : Document :=
  {| users := ∅; currentUser := Some "dana"%string;
     tasks := [taskOn "t1" "dana" "2024-03-10" true];
     badges := [ {| badgeId := "firstTask"; badgeTitle := "Getting Started";
                    badgeDescription := "Complete your first task";
                    badgeCategory := "milestone"; badgeUserId := Some "dana"%string;
                    earnedAt := "2024-03-10T12:00:01.000Z" |} ];
     settings := settings initialData |}.

(** 10 March 2024, 14:30:45.123. *)
Definition march10Afternoon : Z := 1710081045123.

(** What a run of [checkAllBadges] in the afternoon leaves of Dana's
    document. *)
Definition danaAfterRun : Document :=
  match
    BadgeManager.checkAllBadges Calendar.utcHost Calendar.parseISO march10Afternoon
      (BadgeSpec.badgeState false danaDocument [])
  with
  | (_, st) =>
      match item (BadgeManager.storage st) with
      | Some (Json (Doc d)) => d
      | _ => danaDocument
      end
  end.

(** The spec's first streak example, seen on 10 March 2024: the tasks of
    8, 9 and 10 March completed, none on 7 March. *)
Definition threeDays : list Task :=
  [taskOn "a" "erin" "2024-03-10" true; taskOn "b" "erin" "2024-03-09" true;
   taskOn "c" "erin" "2024-03-08" true; taskOn "d" "erin" "2024-03-06" true].

(** The same with nothing on 9 March: the days counted are 10, 8 and 6
    March. *)
Definition threeDaysWithGaps : list Task :=
  [taskOn "a" "erin" "2024-03-10" true; taskOn "c" "erin" "2024-03-08" true;
   taskOn "d" "erin" "2024-03-06" true].

(** The spec's second example: 9 and 8 March completed, an incomplete
    task on 7 March, 6 March completed. *)
Definition brokenStreak : list Task :=
  [taskOn "b" "erin" "2024-03-09" true; taskOn "c" "erin" "2024-03-08" true;
   taskOn "e" "erin" "2024-03-07" false; taskOn "d" "erin" "2024-03-06" true].

(** A host on central European time in the spring of 2024: one hour
    ahead of UTC until 31 March, 01:00 UTC, and two hours from then on;
    a local time is read with the later offset from 03:00 of that day
    on, the hour that the change skips with the earlier one. *)
Definition berlin : Calendar.Host :=
  {| Calendar.localTZA := fun t isUTC =>
       if isUTC then (if t <? 1711846800000 then 3600000 else 7200000)
       else (if t <? 1711854000000 then 3600000 else 7200000) |}.

(** 1 April 2024, 23:30 UTC: half past one in the night of 2 April in
    Berlin. *)
Definition aprilNight : Z := 1712014200000.

(** The tasks of 1 April and of 31 March, completed. *)
Definition twoDays : list Task :=
  [taskOn "a" "erin" "2024-04-01" true; taskOn "b" "erin" "2024-03-31" true].

(** A task of 11 March 2024 that is not done, seen from 10 March. *)
Definition tomorrowTask : Task := taskOn "z" "erin" "2024-03-11" false.

(** A pending task of alice that starts on 10 March 2024 at 15:00, and a
    completed one that starts at 17:00. *)
Definition standup : Task :=
  {| id := "ltlm3n9fk2x9"; userId := Some "alice"%string; title := "Stand-up";
     description := ""; priority := "high"; date := "2024-03-10";
     startTime := "15:00"; endTime := "15:15";
     createdAt := "2024-03-10T08:00:00.000Z"; completed := false;
     completedAt := None |}.

Definition retrospective : Task :=
  {| id := "ltlm3n9fq7p1"; userId := Some "alice"%string; title := "Retrospective";
     description := ""; priority := "low"; date := "2024-03-10";
     startTime := "17:00"; endTime := "18:00";
     createdAt := "2024-03-10T08:00:00.000Z"; completed := true;
     completedAt := Some "2024-03-10T13:00:00.000Z"%string |}.

Definition aliceDay : Document :=
  {| users := ∅; currentUser := Some "alice"%string; tasks := [standup; retrospective];
     badges := []; settings := settings initialData |}.

(** 10 March 2024, 14:30. *)
Definition halfPastTwo : Z := 1710081000000.

(** The record of a user who signs up as frank. *)
Definition frankData : UserData :=
  {| newUsername := "frank"; newDisplayName := "Frank"; newPasswordHash := "1" |}.

(** The form of a task for 10 March 2024 from 16:00 to 16:30, the title
    typed with spaces around it. *)
Definition callForm : TaskManager.TaskForm :=
  {| TaskManager.formTitle := "  Call the bank "; TaskManager.formDescription := "";
     TaskManager.formPriority := "medium"; TaskManager.formDate := "2024-03-10";
     TaskManager.formStartTime := "16:00"; TaskManager.formEndTime := "16:30" |}.

End Samples.
(** ** Running the storage manager on a stored document *)

Module StorageFacts.
Import StorageManager Samples.

Lemma getDataFuel_enough (n : nat) (s : Store) :
  getDataFuel (2 + n) s = Some (getData s).
Proof.
  destruct s as [[[raw | v] | ] full]; try reflexivity.
  destruct full; reflexivity.
Qed.

Lemma getData_storeOf full d : getData (storeOf full d) = (Return (Doc d), storeOf full d).
Proof. reflexivity. Qed.

Lemma getDocument_storeOf full d :
  getDocument (storeOf full d) = (Return d, storeOf full d).
Proof. reflexivity. Qed.

Lemma saveData_accepted d d' :
  saveData d' (storeOf false d) = (Return true, storeOf false d').
Proof. reflexivity. Qed.

Lemma saveData_refused d d' :
  saveData d' (storeOf true d) = (Return false, storeOf true d).
Proof. reflexivity. Qed.

Lemma saveData_storeOf full d d' :
  saveData d' (storeOf full d)
  = (Return (negb full), storeOf full (if full then d else d')).
Proof. destruct full; reflexivity. Qed.

Lemma bind_getDocument {A} full d (k : Document -> M Store A) :
  bind getDocument k (storeOf full d) = k d (storeOf full d).
Proof. reflexivity. Qed.

Lemma bind_saveData {A} full d d' (k : bool -> M Store A) :
  bind (saveData d') k (storeOf full d)
  = k (negb full) (storeOf full (if full then d else d')).
Proof. destruct full; reflexivity. Qed.

Lemma getTasks_storeOf full d :
  getTasks (storeOf full d)
  = (Return (filter (fun task => userId task = currentUser d) (tasks d)), storeOf full d).
Proof. reflexivity. Qed.

Lemma getBadges_storeOf full d :
  getBadges (storeOf full d)
  = (Return (filter (fun badge => badgeUserId badge = currentUser d) (badges d)),
     storeOf full d).
Proof. reflexivity. Qed.

Lemma list_alter_twice {A} (f g : A -> A) (l : list A) (i : nat) :
  alter g i (alter f i l) = alter (g ∘ f) i l.
Proof.
  revert i. induction l as [| x l IH]; intros [| i]; try reflexivity.
  simpl. f_equal. apply IH.
Qed.

Lemma list_alter_at {A} (f : A -> A) (l : list A) (i : nat) (x : A) :
  l !! i = Some x -> alter f i l = <[i := f x]> l.
Proof.
  revert i. induction l as [| y l IH]; intros [| i]; simpl; try discriminate.
  - intros [= ->]. reflexivity.
  - intros H. f_equal. apply IH. assumption.
Qed.

Lemma findIndex_lookup taskId ts i :
  findIndex taskId ts = Some i ->
  exists task, ts !! i = Some task /\ id task = taskId.
Proof.
  revert i. induction ts as [| t ts IH]; intros i; simpl; [discriminate |].
  case_bool_decide as Hid.
  - intros [= <-]. exists t. split; [reflexivity | assumption].
  - destruct (findIndex taskId ts) as [j |]; simpl; [| discriminate].
    intros [= <-]. apply IH. reflexivity.
Qed.

Lemma findIndex_alter taskId f ts i :
  (forall task, id (f task) = id task) ->
  findIndex taskId (alter f i ts) = findIndex taskId ts.
Proof.
  intros Hf. revert i. induction ts as [| t ts IH]; intros i; [reflexivity |].
  destruct i as [| i]; simpl.
  - rewrite Hf. reflexivity.
  - specialize (IH i). unfold alter in IH. rewrite IH. reflexivity.
Qed.

Lemma findIndex_None taskId ts :
  findIndex taskId ts = None <-> Forall (fun task => id task <> taskId) ts.
Proof.
  induction ts as [| t ts IH]; simpl.
  - split; [constructor | reflexivity].
  - case_bool_decide as Hid.
    + split; [discriminate |]. intros H. inversion H; subst. contradiction.
    + destruct (findIndex taskId ts) as [j |]; simpl.
      * split; [discriminate |]. intros H. inversion H; subst.
        apply IH in H3. discriminate.
      * split; [| reflexivity]. intros _. constructor; [assumption |].
        apply IH. reflexivity.
Qed.

(** *** Loading *)

(** [getData] on the text [{}], which parses and is no document: the
    parsed object is returned and the storage stays as it is. *)
Lemma getData_keeps_empty_object :
  ~ wellFormed emptyObjectStore
  /\ getData emptyObjectStore = (Return (Other (JObject [])), emptyObjectStore)
  /\ getData emptyObjectStore
     <> (Return (Doc initialData), storeOf false initialData).
Proof.
  split; [| split].
  - intros [d Hd]. discriminate Hd.
  - reflexivity.
  - discriminate.
Qed.

(** With nothing stored, or the text [null], the answer is [{}]. *)
Lemma getData_nothing_stored full :
  getData {| item := None; quotaExceeded := full |}
  = (Return (Other (JObject [])), {| item := None; quotaExceeded := full |}).
Proof. reflexivity. Qed.

(** C7, as the code has it: on text that [JSON.parse] rejects, [getData]
    writes the initial document back and returns it (the storage
    accepting the write); on text that parses it returns the parsed
    value, or [{}] when that value is falsy, and leaves the storage as
    it is. *)
Theorem getData_recovers_unparseable (s : Store) :
  (forall raw,
      item s = Some (Unparseable raw) -> quotaExceeded s = false ->
      getData s = (Return (Doc initialData), storeOf false initialData))
  /\ (forall v,
        item s = Some (Json v) ->
        getData s = (Return (if truthy v then v else Other (JObject [])), s)).
Proof.
  destruct s as [it full]; simpl. split.
  - intros raw -> ->. reflexivity.
  - intros v ->. reflexivity.
Qed.

Lemma getData_recovers_unparseable_witness :
  getData (corrupted false "{users:")
  = (Return (Doc initialData), storeOf false initialData).
Proof.
  apply (proj1 (getData_recovers_unparseable (corrupted false "{users:")) "{users:"%string);
    reflexivity.
Defined.

(** When the host refuses the write, the reinitialisation throws. *)
Lemma getData_unparseable_full raw :
  getData (corrupted true raw) = (Throw QuotaExceededError, corrupted true raw).
Proof. reflexivity. Qed.

(** *** Completing a task *)

Lemma updateTask_found full d taskId updates i :
  findIndex taskId (tasks d) = Some i ->
  updateTask taskId updates (storeOf full d)
  = (Return (alter (fun old => merge old updates) i (tasks d) !! i),
     storeOf full
       (if full then d
        else withTasks d (alter (fun old => merge old updates) i (tasks d)))).
Proof.
  intros Hi. unfold updateTask. rewrite bind_getDocument, Hi.
  rewrite bind_saveData. reflexivity.
Qed.

Lemma updateTask_missing full d taskId updates :
  findIndex taskId (tasks d) = None ->
  updateTask taskId updates (storeOf full d) = (Return None, storeOf full d).
Proof.
  intros Hi. unfold updateTask. rewrite bind_getDocument, Hi. reflexivity.
Qed.

Lemma merge_id task updates : upId updates = None -> id (merge task updates) = id task.
Proof. intros Hid. cbn [id merge]. rewrite Hid. reflexivity. Qed.

Lemma merge_completion_twice task now1 now2 :
  merge (merge task (completion now1)) (completion now2) = merge task (completion now2).
Proof. reflexivity. Qed.

(** The task is completed at 15:30:45.123 and again a minute later: the
    second call of [completeTask] replaces the [completedAt] of the
    first. *)
Lemma completeTask_again_overwrites :
  exists first s1 second s2,
    completeTask 1710084645123 "ltlm3n9fk2x9" (storeOf false aliceDocument)
    = (Return (Some first), s1)
    /\ completeTask 1710084705123 "ltlm3n9fk2x9" s1 = (Return (Some second), s2)
    /\ completedAt first = Some "2024-03-10T15:30:45.123Z"%string
    /\ completedAt second = Some "2024-03-10T15:31:45.123Z"%string
    /\ completedAt second <> completedAt first
    /\ tasks <$> (match item s2 with Some (Json (Doc d)) => Some d | _ => None end)
       = Some [second].
Proof.
  eexists _, _, _, _. split; [vm_compute; reflexivity |].
  split; [vm_compute; reflexivity |].
  split; [reflexivity |]. split; [reflexivity |]. split; [discriminate | reflexivity].
Qed.

Lemma completeTask_twice_run full d taskId i old now1 now2 :
  findIndex taskId (tasks d) = Some i ->
  tasks d !! i = Some old ->
  (completeTask now1 taskId ;;; completeTask now2 taskId) (storeOf full d)
  = (Return (Some (merge old (completion now2))),
     storeOf full
       (if full then d
        else withTasks d (<[i := merge old (completion now2)]> (tasks d)))).
Proof.
  intros Hi Hold.
  assert (i < length (tasks d))%nat as Hlt by (eapply lookup_lt_Some; eassumption).
  unfold completeTask, bind at 1.
  rewrite (updateTask_found full d taskId (completion now1) i Hi).
  destruct full.
  - rewrite (updateTask_found true d taskId (completion now2) i Hi).
    rewrite (list_alter_at _ _ _ old Hold), list_lookup_insert_eq by assumption.
    reflexivity.
  - rewrite (updateTask_found false _ taskId (completion now2) i).
    2:{ cbn [tasks withTasks]. rewrite findIndex_alter; [assumption | reflexivity]. }
    cbn [tasks withTasks]. rewrite list_alter_twice.
    rewrite (list_alter_at _ _ _ old Hold), list_lookup_insert_eq by assumption.
    reflexivity.
Qed.

(** C3, as the code has it: the second of two calls of [completeTask] on
    a stored task returns the task completed with the timestamp of the
    second call, whatever the first call has written.  On a storage
    that takes the writes that is what is stored afterwards, nothing
    else having changed; when the host refuses the writes the document
    stays as it was before the first call. *)
Theorem completeTask_twice (full : bool) (d : Document) (taskId : string) (i : nat)
    (now1 now2 : Z) :
  findIndex taskId (tasks d) = Some i ->
  exists old,
    tasks d !! i = Some old
    /\ (completeTask now1 taskId ;;; completeTask now2 taskId) (storeOf full d)
       = (Return (Some (merge old (completion now2))),
          storeOf full
            (if full then d
             else withTasks d (<[i := merge old (completion now2)]> (tasks d))))
    /\ completed (merge old (completion now2)) = true
    /\ completedAt (merge old (completion now2)) = Some (Calendar.toISOString now2).
Proof.
  intros Hi. destruct (findIndex_lookup _ _ _ Hi) as (old & Hold & Hid).
  exists old. split; [assumption |].
  split; [apply completeTask_twice_run; assumption | split; reflexivity].
Qed.

Lemma completeTask_twice_witness :
  exists old,
    tasks aliceDocument !! 0%nat = Some old
    /\ (completeTask 1710084645123 "ltlm3n9fk2x9" ;;;
        completeTask 1710084705123 "ltlm3n9fk2x9") (storeOf false aliceDocument)
       = (Return (Some (merge old (completion 1710084705123))),
          storeOf false
            (withTasks aliceDocument
               (<[0%nat := merge old (completion 1710084705123)]> (tasks aliceDocument))))
    /\ completed (merge old (completion 1710084705123)) = true
    /\ completedAt (merge old (completion 1710084705123))
       = Some (Calendar.toISOString 1710084705123).
Proof.
  apply (completeTask_twice false aliceDocument "ltlm3n9fk2x9" 0 1710084645123
           1710084705123).
  reflexivity.
Defined.

(** The same two calls when the host refuses the writes: each returns
    the task as completed, and the stored task is still pending. *)
Example completeTask_twice_refused :
  (completeTask 1710084645123 "ltlm3n9fk2x9" ;;;
   completeTask 1710084705123 "ltlm3n9fk2x9") (storeOf true aliceDocument)
  = (Return (Some (merge writeReport (completion 1710084705123))),
     storeOf true aliceDocument)
  /\ (completed <$> tasks aliceDocument !! 0%nat, completedAt <$> tasks aliceDocument !! 0%nat)
     = (Some false, Some None).
Proof. split; reflexivity. Qed.

(** When both calls read the same instant, the second changes nothing. *)
Corollary completeTask_same_instant d taskId i now :
  findIndex taskId (tasks d) = Some i ->
  (completeTask now taskId ;;; completeTask now taskId) (storeOf false d)
  = (completeTask now taskId) (storeOf false d).
Proof.
  intros Hi. destruct (findIndex_lookup _ _ _ Hi) as (old & Hold & _).
  rewrite (completeTask_twice_run false d taskId i old now now Hi Hold).
  unfold completeTask. rewrite (updateTask_found false d taskId (completion now) i Hi).
  rewrite (list_alter_at _ _ _ old Hold).
  rewrite list_lookup_insert_eq by (eapply lookup_lt_Some; eassumption).
  reflexivity.
Qed.

(** *** Adding a task *)

Lemma addTask_storeOf full d now random input :
  addTask now random input (storeOf full d)
  = (Return (stampTask now random (currentUser d) input),
     storeOf full
       (if full then d
        else withTasks d (tasks d ++ [stampTask now random (currentUser d) input]))).
Proof.
  unfold addTask. rewrite bind_getDocument. cbv zeta. rewrite bind_saveData. reflexivity.
Qed.

(** Two tasks added in the same millisecond, the random generator giving
    the same digits both times: the second id is the first one again,
    and [getTasks] lists two tasks under it. *)
Lemma addTask_repeats_id :
  exists first s1 second s2 listed,
    addTask 1710081045123 "k2x9" report (storeOf false aliceAlone) = (Return first, s1)
    /\ addTask 1710081045123 "k2x9" review s1 = (Return second, s2)
    /\ getTasks s2 = (Return listed, s2)
    /\ id second = id first
    /\ first ∈ listed
    /\ filter (fun task => id task = id second) listed = [first; second].
Proof.
  eexists _, _, _, _, _.
  split; [vm_compute; reflexivity |]. split; [vm_compute; reflexivity |].
  split; [vm_compute; reflexivity |]. split; [reflexivity |].
  split; [left | vm_compute; reflexivity].
Qed.

Lemma filter_id_fresh taskId (ts : list Task) :
  Forall (fun task => id task <> taskId) ts ->
  filter (fun task => id task = taskId) ts = [].
Proof.
  induction 1 as [| t ts Ht _ IH]; [reflexivity |].
  rewrite filter_cons_False by assumption. assumption.
Qed.

(** C6, as the code has it: [addTask] gives the new task the id that
    [generateId] makes of the clock and the random digits, the stored
    current user as owner, [completed = false] and the fields of the
    input, appends it and returns it; when that id is not the id of a
    stored task, [getTasks] then lists exactly one task under it, the
    one returned. *)
Theorem addTask_then_getTasks (d : Document) (now : Z) (random : string)
    (input : TaskInput) :
  let newTask := stampTask now random (currentUser d) input in
  let s' := storeOf false (withTasks d (tasks d ++ [newTask])) in
  addTask now random input (storeOf false d) = (Return newTask, s')
  /\ id newTask = generateId now random
  /\ userId newTask = currentUser d
  /\ completed newTask = false
  /\ (title newTask, description newTask, priority newTask,
      date newTask, startTime newTask, endTime newTask)
     = (inTitle input, inDescription input, inPriority input,
        inDate input, inStartTime input, inEndTime input)
  /\ (Forall (fun task => id task <> generateId now random) (tasks d) ->
      exists listed,
        getTasks s' = (Return listed, s')
        /\ filter (fun task => id task = generateId now random) listed = [newTask]).
Proof.
  intros newTask s'. split; [apply addTask_storeOf |].
  do 4 (split; [reflexivity |]).
  intros Hfresh. eexists. split; [apply getTasks_storeOf |].
  simpl. rewrite !filter_app.
  rewrite (filter_id_fresh (generateId now random)
             (filter (fun task => userId task = currentUser d) (tasks d))).
  - rewrite (filter_cons_True (fun task => userId task = currentUser d)) by reflexivity.
    rewrite filter_nil, filter_cons_True by reflexivity. reflexivity.
  - apply Forall_forall. intros task Hin.
    apply list_elem_of_filter in Hin as [_ Hin].
    rewrite Forall_forall in Hfresh. apply Hfresh. assumption.
Qed.

Lemma addTask_then_getTasks_witness :
  let newTask := stampTask 1710081045123 "k2x9" (Some "alice"%string) report in
  exists listed,
    getTasks (storeOf false (withTasks aliceAlone [newTask]))
    = (Return listed, storeOf false (withTasks aliceAlone [newTask]))
    /\ filter (fun task => id task = generateId 1710081045123 "k2x9") listed = [newTask].
Proof.
  apply (addTask_then_getTasks aliceAlone 1710081045123 "k2x9" report).
  constructor.
Defined.

End StorageFacts.

Example toISOString_epoch : Calendar.toISOString 0 = "1970-01-01T00:00:00.000Z"%string.
Proof. reflexivity. Qed.

Example toISOString_2024 :
  Calendar.toISOString 1710081045123 = "2024-03-10T14:30:45.123Z"%string.
Proof. vm_compute. reflexivity. Qed.

Example isoDate_leap_day : Calendar.isoDate 1709164800000 = "2024-02-29"%string.
Proof. vm_compute. reflexivity. Qed.

Example toString36_sample : Js.toStringRadix 36 1710081045123 = "ltlm3n9f"%string.
Proof. vm_compute. reflexivity. Qed.


(** ** Accounts *)

Module AuthFacts.
Import StorageManager AuthManager Samples StorageFacts.

Lemma isEmpty_false s : s <> ""%string -> isEmpty s = false.
Proof. intros H. unfold isEmpty. apply bool_decide_eq_false. assumption. Qed.

Lemma bind_getUser {A} full d session name (k : Property User -> M Auth A) :
  bind (onStorage (getUser name)) k (authOf full d session)
  = k (getProperty (users d) name) (authOf full d session).
Proof. reflexivity. Qed.

Lemma getProperty_own {A} (obj : gmap string A) name a :
  obj !! name = Some a -> getProperty obj name = Own a.
Proof. intros H. unfold getProperty. rewrite H. reflexivity. Qed.

Lemma getProperty_missing {A} (obj : gmap string A) name :
  obj !! name = None ->
  getProperty obj name = Inherited \/ getProperty obj name = Undefined.
Proof.
  intros H. unfold getProperty. rewrite H. case_bool_decide; [left | right]; reflexivity.
Qed.

Lemma getProperty_undefined {A} (obj : gmap string A) name :
  obj !! name = None -> name ∉ Js.inheritedNames -> getProperty obj name = Undefined.
Proof.
  intros H Hn. unfold getProperty. rewrite H. rewrite bool_decide_eq_false_2 by assumption.
  reflexivity.
Qed.

(** What [login] does with credentials that are not empty. *)
Lemma login_checked name password full d session :
  name <> ""%string -> password <> ""%string ->
  login name password (authOf full d session)
  = match users d !! name with
    | Some u =>
        if bool_decide (passwordHash u = hashPassword password) then
          (Return true,
           authOf full (if full then d else withCurrentUser d (Some name)) (Some name))
        else (Throw (Error "Invalid username or password"), authOf full d session)
    | None => (Throw (Error "Invalid username or password"), authOf full d session)
    end.
Proof.
  intros Hn Hp. unfold login.
  rewrite (isEmpty_false _ Hn), (isEmpty_false _ Hp). cbn [orb].
  rewrite bind_getUser.
  destruct (users d !! name) as [u |] eqn:Hu.
  - rewrite (getProperty_own _ _ _ Hu). simpl.
    case_bool_decide as Hh.
    + rewrite bool_decide_eq_true_2 by congruence. destruct full; reflexivity.
    + rewrite bool_decide_eq_false_2 by congruence. reflexivity.
  - destruct (getProperty_missing _ _ Hu) as [-> | ->]; reflexivity.
Qed.

(** With an empty name or password [login] fails before it looks at the
    stored users. *)
Lemma login_empty_credentials name password (a : Auth) :
  name = ""%string \/ password = ""%string ->
  login name password a = (Throw (Error "Username and password are required"), a).
Proof.
  intros H. unfold login.
  assert (isEmpty name || isEmpty password = true) as ->; [| reflexivity].
  unfold isEmpty. destruct H as [-> | ->]; [reflexivity |].
  destruct (bool_decide (name = ""%string)); reflexivity.
Qed.

(** A login as "ghost", who has no account, with an empty password: the
    error is not the one of bad credentials. *)
Lemma login_absent_user_empty_password :
  users initialData !! "ghost"%string = None
  /\ login "ghost" "" (authOf false initialData None)
     = (Throw (Error "Username and password are required"), authOf false initialData None)
  /\ ~ AuthError (Error "Username and password are required").
Proof.
  split; [reflexivity |]. split; [reflexivity |]. unfold AuthError. discriminate.
Qed.

(** C9, as the code has it: with a name and a password that are not
    empty, [login] throws the same error, with the same message, when no
    user is stored under the name and when the stored hash differs from
    the hash of the password, and leaves storage and session as they
    were; when the hashes agree it returns [true], the session is the
    name, and so is the stored current user if the storage takes the
    write. *)
Theorem login_outcomes (name password : string) (full : bool) (d : Document)
    (session : option string) :
  name <> ""%string -> password <> ""%string ->
  let generic := Error "Invalid username or password" in
  AuthError generic
  /\ (users d !! name = None ->
      login name password (authOf full d session) = (Throw generic, authOf full d session))
  /\ (forall u, users d !! name = Some u ->
                passwordHash u <> hashPassword password ->
      login name password (authOf full d session) = (Throw generic, authOf full d session))
  /\ (forall u, users d !! name = Some u ->
                passwordHash u = hashPassword password ->
      login name password (authOf full d session)
      = (Return true,
         authOf full (if full then d else withCurrentUser d (Some name)) (Some name))).
Proof.
  intros Hn Hp generic. split; [reflexivity |].
  rewrite (login_checked name password full d session Hn Hp).
  split; [| split].
  - intros ->. reflexivity.
  - intros u -> Hh. rewrite bool_decide_eq_false_2 by assumption. reflexivity.
  - intros u -> Hh. rewrite bool_decide_eq_true_2 by assumption. reflexivity.
Qed.

Lemma login_outcomes_witness :
  login "ghost" "hunter22" (authOf false bobDocument None)
  = (Throw (Error "Invalid username or password"), authOf false bobDocument None)
  /\ login "bob" "hunter23" (authOf false bobDocument None)
     = (Throw (Error "Invalid username or password"), authOf false bobDocument None)
  /\ login "bob" "hunter22" (authOf false bobDocument None)
     = (Return true,
        authOf false (withCurrentUser bobDocument (Some "bob"%string)) (Some "bob"%string)).
Proof.
  split; [| split].
  - apply (login_outcomes "ghost" "hunter22" false bobDocument None);
      [discriminate | discriminate | reflexivity].
  - apply (login_outcomes "bob" "hunter23" false bobDocument None) with (u := bob);
      [discriminate | discriminate | reflexivity | vm_compute; discriminate].
  - apply (login_outcomes "bob" "hunter22" false bobDocument None) with (u := bob);
      [discriminate | discriminate | reflexivity | reflexivity].
Defined.

Example hashPassword_sample : hashPassword "hunter22" = "586851776"%string.
Proof. vm_compute. reflexivity. Qed.

(** *** Registration *)

Lemma bind_addUser {A} now userData full d session (k : bool -> M Auth A) :
  bind (onStorage (addUser now userData)) k (authOf full d session)
  = if isTruthy (getProperty (users d) (newUsername userData)) then
      k false (authOf full d session)
    else
      k (negb full)
        (authOf full
           (if full then d
            else withUsers d
                   (<[newUsername userData :=
                        {| username := newUsername userData;
                           displayName := newDisplayName userData;
                           passwordHash := newPasswordHash userData;
                           userCreatedAt := Calendar.toISOString now |}]> (users d)))
           session).
Proof.
  unfold bind at 1, onStorage, addUser. unfold authOf at 1. cbn [storage].
  rewrite bind_getDocument.
  destruct (isTruthy (getProperty (users d) (newUsername userData))); [reflexivity |].
  rewrite saveData_storeOf. destruct full; reflexivity.
Qed.

Lemma register_invalid now name password display (a : Auth) :
  ~ validFields name password display ->
  exists e, register now name password display a = (Throw e, a) /\ ValidationError e.
Proof.
  intros Hinvalid. unfold register, isEmpty.
  repeat case_bool_decide; cbn [orb];
    try (eexists; split; [reflexivity | left; reflexivity]).
  destruct (String.length name <? 3)%nat eqn:Hlen;
    [eexists; split; [reflexivity | right; left; reflexivity] |].
  destruct (String.length password <? 6)%nat eqn:Hlen';
    [eexists; split; [reflexivity | right; right; reflexivity] |].
  exfalso. apply Hinvalid. unfold validFields.
  apply Nat.ltb_ge in Hlen, Hlen'. tauto.
Qed.

Lemma register_checked now name password display full d session :
  validFields name password display ->
  register now name password display (authOf full d session)
  = if isTruthy (getProperty (users d) name) then
      (Throw (Error "Username already exists"), authOf full d session)
    else if full then
      (Throw (Error "Failed to create account"), authOf full d session)
    else
      (Return true,
       authOf false
         (withCurrentUser
            (withUsers d (<[name := newUser now name password display]> (users d)))
            (Some name))
         (Some name)).
Proof.
  intros (Hn & Hp & Hd & Hlen & Hlen'). unfold register.
  rewrite !isEmpty_false by assumption. cbn [orb].
  apply Nat.ltb_ge in Hlen, Hlen'. rewrite Hlen, Hlen'.
  rewrite bind_getUser.
  destruct (isTruthy (getProperty (users d) name)) eqn:Hexists; [reflexivity |].
  rewrite bind_addUser. cbn [newUsername]. rewrite Hexists.
  destruct full; [reflexivity |]. cbn [negb].
  rewrite login_checked by assumption.
  cbn [users withUsers newDisplayName newPasswordHash].
  rewrite lookup_insert_eq. cbn [passwordHash].
  rewrite bool_decide_eq_true_2 by reflexivity. reflexivity.
Qed.

(** A name already stored is refused, nothing changing. *)
Lemma register_conflict now name password display full d session u :
  validFields name password display ->
  users d !! name = Some u ->
  exists e,
    register now name password display (authOf full d session)
    = (Throw e, authOf full d session)
    /\ ConflictError e.
Proof.
  intros Hvalid Hu. rewrite register_checked by assumption.
  rewrite (getProperty_own _ _ _ Hu). eexists. split; reflexivity.
Qed.

(** A name that is neither stored nor inherited is stored with the hash
    of the password, and logged in. *)
Lemma register_stores_and_logs_in now name password display d session :
  validFields name password display ->
  users d !! name = None ->
  name ∉ Js.inheritedNames ->
  register now name password display (authOf false d session)
  = (Return true,
     authOf false
       (withCurrentUser
          (withUsers d (<[name := newUser now name password display]> (users d)))
          (Some name))
       (Some name)).
Proof.
  intros Hvalid Hu Hname. rewrite register_checked by assumption.
  rewrite (getProperty_undefined _ _ Hu Hname). reflexivity.
Qed.

(** A name that every object inherits is taken for a stored user. *)
Lemma register_inherited now name password display full d session :
  validFields name password display ->
  users d !! name = None ->
  name ∈ Js.inheritedNames ->
  register now name password display (authOf full d session)
  = (Throw (Error "Username already exists"), authOf full d session).
Proof.
  intros Hvalid Hu Hname. rewrite register_checked by assumption.
  unfold getProperty. rewrite Hu, bool_decide_eq_true_2 by assumption. reflexivity.
Qed.

(** C8 at the name "constructor", on the initial document: no user is
    stored under it and the fields are valid, yet [register] throws
    "Username already exists" and stores nothing. *)
Theorem register_constructor_refused :
  validFields "constructor" "secret12" "Connie"
  /\ users initialData !! "constructor"%string = None
  /\ register 1710081045123 "constructor" "secret12" "Connie" (authOf false initialData None)
     = (Throw (Error "Username already exists"), authOf false initialData None).
Proof.
  split; [| split; reflexivity].
  unfold validFields. repeat split; try discriminate; simpl; lia.
Qed.

End AuthFacts.

(** ** Streaks *)

Module StreakFacts.
Import BadgeManager StreakSpec Samples.

Lemma forallb_completed (ts : list Task) :
  forallb completed ts = true <-> Forall (fun task => completed task = true) ts.
Proof.
  rewrite forallb_forall, Forall_forall. split; intros H t Ht; apply H.
  - apply list_elem_of_In. assumption.
  - apply list_elem_of_In. assumption.
Qed.

Lemma forallb_incomplete (ts : list Task) :
  forallb completed ts = false <-> Exists (fun task => completed task = false) ts.
Proof.
  induction ts as [| t ts IH]; simpl.
  - split; [discriminate | intros H; inversion H].
  - rewrite andb_false_iff, Exists_cons, IH. reflexivity.
Qed.


(** *** The days that the loop inspects *)

Lemma beforeT_app (s rest : string) :
  Forall (fun c => Ascii.eqb c "T" = false) (list_ascii_of_string s) ->
  Js.beforeT (s +:+ rest) = (s +:+ Js.beforeT rest)%string.
Proof.
  induction s as [| c s IH]; intros Hs; [reflexivity |].
  cbn [list_ascii_of_string] in Hs. apply Forall_cons in Hs as [Hc Hs].
  simpl. rewrite Hc.
  change (String c s +:+ Js.beforeT rest)%string
    with (String c (s +:+ Js.beforeT rest)%string).
  f_equal. apply IH. assumption.
Qed.

Lemma digitChar_no_T (n : Z) : Ascii.eqb (Js.digitChar (n mod 10)) "T" = false.
Proof.
  pose proof (Z.mod_pos_bound n 10 ltac:(lia)) as Hr.
  assert (n mod 10 = 0 \/ n mod 10 = 1 \/ n mod 10 = 2 \/ n mod 10 = 3 \/ n mod 10 = 4
          \/ n mod 10 = 5 \/ n mod 10 = 6 \/ n mod 10 = 7 \/ n mod 10 = 8 \/ n mod 10 = 9)
    as Hcases by lia.
  repeat destruct Hcases as [-> | Hcases]; try reflexivity.
  rewrite Hcases. reflexivity.
Qed.

Lemma padDigits_no_T (width : nat) (n : Z) (acc : string) :
  Forall (fun c => Ascii.eqb c "T" = false) (list_ascii_of_string acc) ->
  Forall (fun c => Ascii.eqb c "T" = false)
         (list_ascii_of_string (Js.padDigits width n acc)).
Proof.
  revert n acc. induction width as [| width IH]; intros n acc Hacc; [exact Hacc |].
  cbn [Js.padDigits]. apply IH. cbn [list_ascii_of_string].
  constructor; [apply digitChar_no_T | exact Hacc].
Qed.

Lemma pad_no_T (width : nat) (n : Z) :
  Forall (fun c => Ascii.eqb c "T" = false) (list_ascii_of_string (Js.pad width n)).
Proof. apply padDigits_no_T. constructor. Qed.

Lemma yearText_no_T (y : Z) :
  Forall (fun c => Ascii.eqb c "T" = false) (list_ascii_of_string (Calendar.yearText y)).
Proof.
  unfold Calendar.yearText. destruct (_ && _); [apply pad_no_T |].
  cbn [list_ascii_of_string]. constructor; [destruct (y <? 0); reflexivity | apply pad_no_T].
Qed.

(** The day that [toISOString] prints is the day number of the instant,
    written as a date. *)
Lemma isoDate_dateText (t : Z) :
  Calendar.isoDate t = Calendar.dateText (t / Calendar.msPerDay).
Proof.
  unfold Calendar.isoDate, Calendar.toISOString, Calendar.dateText.
  destruct (Calendar.civilFromDays (t / Calendar.msPerDay)) as [[y m] d].
  rewrite beforeT_app by apply yearText_no_T.
  rewrite (beforeT_app "-") by (repeat constructor).
  rewrite beforeT_app by apply pad_no_T.
  rewrite (beforeT_app "-") by (repeat constructor).
  rewrite beforeT_app by apply pad_no_T.
  reflexivity.
Qed.

(** Without a change of the clock in between, [setDate] moves the
    instant by whole days. *)
Lemma daysBefore_sameOffset host now i :
  Calendar.sameOffset host now i ->
  Calendar.daysBefore host now i = now - i * Calendar.msPerDay.
Proof.
  unfold Calendar.sameOffset, Calendar.daysBefore, Calendar.utc. intros ->.
  unfold Calendar.localTime. lia.
Qed.

Lemma checkDate_dayBack host now (i : nat) :
  Calendar.sameOffset host now (Z.of_nat i) ->
  checkDate host now i = dayBack now i.
Proof.
  intros Hsame. unfold checkDate, dayBack.
  rewrite daysBefore_sameOffset, isoDate_dateText by assumption.
  f_equal. change Calendar.msPerDay with 86400000.
  replace (now - Z.of_nat i * 86400000) with (now + - Z.of_nat i * 86400000) by lia.
  rewrite Z.div_add by lia. lia.
Qed.

Lemma sameOffset_fixed host now i : Calendar.fixedOffset host -> Calendar.sameOffset host now i.
Proof. intros [offset Hfixed]. unfold Calendar.sameOffset. rewrite !Hfixed. reflexivity. Qed.


Section Loop.

Variable now : Z.
Variable tasks : list Task.
Variable requiredDays : Z.

(** The loop answers as the scan does, from any day on at which the
    counter has not reached [requiredDays]. *)
Lemma streakLoop_scan (remaining i : nat) (streak : Z) :
  (i + remaining = 365)%nat ->
  streak < requiredDays ->
  scan now tasks requiredDays i streak
       (streakLoop (dayBack now) tasks requiredDays remaining i streak).
Proof.
  revert i streak. induction remaining as [| remaining IH]; intros i streak Hi Hshort.
  - apply scan_exhausted; lia.
  - cbn [streakLoop]. fold (dayTasks now tasks i).
    destruct (Nat.eqb_spec (length (dayTasks now tasks i)) 0) as [Hempty | Hsome].
    + apply scan_skip; [lia | lia | | apply IH; lia].
      apply length_zero_iff_nil. assumption.
    + assert (dayTasks now tasks i <> []) as Hne.
      { intros Hnil. apply Hsome. rewrite Hnil. reflexivity. }
      destruct (forallb completed (dayTasks now tasks i)) eqn:Hall.
      * apply forallb_completed in Hall.
        destruct (Z.geb_spec (streak + 1) requiredDays) as [Hreach | Hless].
        -- apply scan_counted; [lia | lia | assumption | assumption |].
           apply scan_reached. lia.
        -- apply scan_counted; [lia | lia | assumption | assumption | apply IH; lia].
      * apply scan_incomplete; [lia | lia |]. apply forallb_incomplete. assumption.
Qed.


End Loop.



(** Across a change of the clock the loop leaves the calendar: in
    Berlin in the night of 2 April 2024 it inspects 1 April, then
    31 March twice, and counts the tasks of 31 March as two days; the
    scan, which walks 1 April, 31 March, 30 March, finds two days. *)
Example checkDate_across_clock_change :
  map (checkDate berlin aprilNight) [0; 1; 2; 3]%nat
  = ["2024-04-01"; "2024-03-31"; "2024-03-31"; "2024-03-30"]%string
  /\ map (dayBack aprilNight) [0; 1; 2; 3]%nat
     = ["2024-04-01"; "2024-03-31"; "2024-03-30"; "2024-03-29"]%string.
Proof. split; vm_compute; reflexivity. Qed.

Example streak_counts_a_day_twice :
  checkCompletionStreak berlin aprilNight twoDays 3 = true
  /\ scan aprilNight twoDays 3 0 0 false
  /\ checkCompletionStreak Calendar.utcHost aprilNight twoDays 3 = false.
Proof.
  split; [vm_compute; reflexivity |]. split; [| vm_compute; reflexivity].
  assert (streakLoop (dayBack aprilNight) twoDays 3 365 0 0 = false) as <-
    by (vm_compute; reflexivity).
  apply streakLoop_scan; [reflexivity | lia].
Qed.


Example checkDate_three_days_back :
  checkDate Calendar.utcHost march10Afternoon 3 = "2024-03-07"%string.
Proof. vm_compute. reflexivity. Qed.

Example streak_three_days :
  checkCompletionStreak Calendar.utcHost march10Afternoon threeDays 3 = true.
Proof. vm_compute. reflexivity. Qed.

Example streak_empty_day_is_neutral :
  checkCompletionStreak Calendar.utcHost march10Afternoon threeDaysWithGaps 3 = true.
Proof. vm_compute. reflexivity. Qed.

Example streak_stops_at_incomplete_day :
  checkCompletionStreak Calendar.utcHost march10Afternoon brokenStreak 2 = true
  /\ checkCompletionStreak Calendar.utcHost march10Afternoon brokenStreak 3 = false.
Proof. split; vm_compute; reflexivity. Qed.

(** With no task at all the answer is [false], whatever is required. *)
Lemma checkCompletionStreak_no_tasks host now requiredDays :
  checkCompletionStreak host now [] requiredDays = false.
Proof. reflexivity. Qed.

End StreakFacts.

(** ** Badges *)

Module BadgeFacts.
Import StorageManager BadgeManager BadgeSpec Samples StorageFacts.

Lemma find_owned bid owner (bs : list Badge) :
  find (fun b => bool_decide (badgeId b = bid) && bool_decide (badgeUserId b = owner)) bs = None
  <-> owned bid owner bs = 0%nat.
Proof.
  unfold owned. induction bs as [| b bs IH]; simpl; [split; reflexivity |].
  destruct (decide (badgeId b = bid /\ badgeUserId b = owner)) as [[H1 H2] | Hno].
  - rewrite !bool_decide_eq_true_2 by assumption. simpl.
    rewrite filter_cons_True by tauto. simpl. split; discriminate.
  - rewrite filter_cons_False by assumption.
    assert (bool_decide (badgeId b = bid) && bool_decide (badgeUserId b = owner) = false) as ->.
    { apply andb_false_iff. rewrite !bool_decide_eq_false.
      destruct (decide (badgeId b = bid)); [right; intros ?; apply Hno; tauto | left; assumption]. }
    assumption.
Qed.

Lemma owned_snoc bid owner (bs : list Badge) (b : Badge) :
  owned bid owner (bs ++ [b])
  = (owned bid owner bs
     + if decide (badgeId b = bid /\ badgeUserId b = owner) then 1 else 0)%nat.
Proof.
  unfold owned. rewrite filter_app, length_app. f_equal.
  destruct (decide (badgeId b = bid /\ badgeUserId b = owner)).
  - rewrite filter_cons_True by assumption. reflexivity.
  - rewrite filter_cons_False by assumption. reflexivity.
Qed.

(** [awardBadge], with the notification manager set or not: the badge is
    stored either way, and announced only when it is set. *)
Lemma awardBadge_run_on present now def full d notices :
  awardBadge now def (badgeStateOn present full d notices)
  = match owned (defId def) (currentUser d) (badges d) with
    | O =>
        (Return tt,
         badgeStateOn present full
           (if full then d
            else withBadges d (badges d ++ [granted now (currentUser d) def]))
           (notices ++ if present then [BadgeEarned (defTitle def)] else []))
    | S _ => (Return tt, badgeStateOn present full d notices)
    end.
Proof.
  unfold awardBadge, bind at 1, onStorage, addBadge. unfold badgeStateOn at 1.
  cbn [storage shown notifier badgeId]. rewrite bind_getDocument.
  destruct (find _ (badges d)) as [b |] eqn:Hfind.
  - destruct (owned (defId def) (currentUser d) (badges d)) eqn:Hown; [| reflexivity].
    apply find_owned in Hown. congruence.
  - apply find_owned in Hfind as ->.
    rewrite bind_saveData. destruct full, present; cbn; rewrite ?app_nil_r; reflexivity.
Qed.

Lemma awardBadge_run now def full d notices :
  awardBadge now def (badgeState full d notices)
  = match owned (defId def) (currentUser d) (badges d) with
    | O =>
        (Return tt,
         badgeState full
           (if full then d
            else withBadges d (badges d ++ [granted now (currentUser d) def]))
           (notices ++ [BadgeEarned (defTitle def)]))
    | S _ => (Return tt, badgeState full d notices)
    end.
Proof. apply (awardBadge_run_on true). Qed.

Lemma keepsBadges_refl d : keepsBadges d d.
Proof. intros bid owner. left. reflexivity. Qed.

Lemma keepsBadges_trans d1 d2 d3 :
  keepsBadges d1 d2 -> keepsBadges d2 d3 -> keepsBadges d1 d3.
Proof.
  intros H12 H23 bid owner.
  destruct (H12 bid owner) as [E12 | [Z1 O2]], (H23 bid owner) as [E23 | [Z2 O3]].
  - left. congruence.
  - right. split; congruence.
  - right. split; congruence.
  - congruence.
Qed.

Lemma keepsBadges_same_badges d d' :
  badges d' = badges d -> keepsBadges d d'.
Proof. intros H bid owner. left. rewrite H. reflexivity. Qed.

Lemma awardBadge_keeps now def present full d notices :
  exists d' notices',
    awardBadge now def (badgeStateOn present full d notices)
    = (Return tt, badgeStateOn present full d' notices')
    /\ keepsBadges d d'.
Proof.
  rewrite awardBadge_run_on.
  destruct (owned (defId def) (currentUser d) (badges d)) eqn:Hown.
  - eexists _, _. split; [reflexivity |].
    destruct full; [apply keepsBadges_refl |].
    intros bid owner. cbn [badges withBadges]. rewrite owned_snoc.
    destruct (decide _) as [[<- <-] | Hother]; [right | left; lia].
    cbn [badgeId badgeUserId granted]. split; [assumption | lia].
  - eexists _, _. split; [reflexivity | apply keepsBadges_refl].
Qed.

Lemma checkBadge_keeps now userStats tasks currentBadgeIds def present full d notices :
  exists d' notices',
    checkBadge now userStats tasks currentBadgeIds def (badgeStateOn present full d notices)
    = (Return tt, badgeStateOn present full d' notices')
    /\ keepsBadges d d'.
Proof.
  unfold checkBadge. case_bool_decide.
  - eexists _, _. split; [reflexivity | apply keepsBadges_refl].
  - destruct (condition def now userStats tasks).
    + apply awardBadge_keeps.
    + eexists _, _. split; [reflexivity | apply keepsBadges_refl].
Qed.

Lemma forEach_checkBadge_keeps now userStats tasks currentBadgeIds defs present full d
    notices :
  exists d' notices',
    forEach (checkBadge now userStats tasks currentBadgeIds) defs
      (badgeStateOn present full d notices)
    = (Return tt, badgeStateOn present full d' notices')
    /\ keepsBadges d d'.
Proof.
  revert d notices. induction defs as [| def defs IH]; intros d notices.
  - eexists _, _. split; [reflexivity | apply keepsBadges_refl].
  - destruct (checkBadge_keeps now userStats tasks currentBadgeIds def present full d notices)
      as (d1 & n1 & Hrun & Hkeep).
    destruct (IH d1 n1) as (d2 & n2 & Hrest & Hkeep').
    exists d2, n2. split; [| eapply keepsBadges_trans; eassumption].
    cbn [forEach]. unfold bind. rewrite Hrun. exact Hrest.
Qed.

(** On a stored document [checkAllBadges] returns, and what it leaves is
    a document again. *)
Lemma checkAllBadges_keeps host dateParse now present full d notices :
  exists d' notices',
    checkAllBadges host dateParse now (badgeStateOn present full d notices)
    = (Return tt, badgeStateOn present full d' notices')
    /\ keepsBadges d d'.
Proof.
  unfold checkAllBadges.
  apply (forEach_checkBadge_keeps now _ _ _ (badgeDefinitions host dateParse) present full d
           notices).
Qed.

Lemma rerun_keeps host dateParse d d' : rerun host dateParse d d' -> keepsBadges d d'.
Proof.
  induction 1 as [d | d d1 d2 d3 now present full notices notices' _ IH Hsame Hrun].
  - apply keepsBadges_refl.
  - destruct (checkAllBadges_keeps host dateParse now present full d2 notices)
      as (d' & n' & Hrun' & Hkeep).
    rewrite Hrun in Hrun'. injection Hrun' as -> _.
    eapply keepsBadges_trans; [exact IH |].
    eapply keepsBadges_trans; [apply keepsBadges_same_badges; exact Hsame | exact Hkeep].
Qed.

(** C5: once a holder has a badge under an id, no number of runs of
    [checkAllBadges] changes how many he has under it, whatever becomes
    of the tasks in between; and a holder with at most one badge under
    an id never comes to have two. *)
Theorem checkAllBadges_never_duplicates host dateParse (d d' : Document)
    (bid : string) (owner : option string) :
  rerun host dateParse d d' ->
  ((1 <= owned bid owner (badges d))%nat ->
   owned bid owner (badges d') = owned bid owner (badges d))
  /\ ((owned bid owner (badges d) <= 1)%nat -> (owned bid owner (badges d') <= 1)%nat).
Proof.
  intros Hrerun. apply rerun_keeps in Hrerun.
  destruct (Hrerun bid owner) as [Heq | [Hzero Hone]]; split; intros; lia.
Qed.

Example danaAfterRun_badges :
  map badgeId (badges danaAfterRun) = ["firstTask"; "dailyCompletion"]%string.
Proof. vm_compute. reflexivity. Qed.

Lemma checkAllBadges_never_duplicates_witness :
  owned "firstTask" (Some "dana"%string) (badges danaAfterRun)
  = owned "firstTask" (Some "dana"%string) (badges danaDocument).
Proof.
  apply (checkAllBadges_never_duplicates Calendar.utcHost Calendar.parseISO danaDocument
           danaAfterRun).
  - apply (rerun_again Calendar.utcHost Calendar.parseISO danaDocument danaDocument
             danaDocument danaAfterRun march10Afternoon true false []
             [BadgeEarned "Daily Champion"]).
    + apply rerun_none.
    + reflexivity.
    + vm_compute. reflexivity.
  - vm_compute. lia.
Defined.

(** *** The daily badge *)

Lemma owned_cons bid owner (b : Badge) (bs : list Badge) :
  owned bid owner (b :: bs)
  = ((if decide (badgeId b = bid /\ badgeUserId b = owner) then 1 else 0)
     + owned bid owner bs)%nat.
Proof.
  unfold owned. destruct (decide _).
  - rewrite filter_cons_True by assumption. reflexivity.
  - rewrite filter_cons_False by assumption. reflexivity.
Qed.

Lemma find_unowned bid owner (also : Badge -> bool) (bs : list Badge) :
  owned bid owner bs = 0%nat ->
  find (fun b => bool_decide (badgeId b = bid) && also b)
       (filter (fun b => badgeUserId b = owner) bs) = None.
Proof.
  induction bs as [| b bs IH]; [reflexivity |].
  rewrite owned_cons. destruct (decide _) as [Hb | Hb]; [discriminate |].
  intros Hrest. destruct (decide (badgeUserId b = owner)) as [Ho | Ho].
  - rewrite filter_cons_True by assumption. cbn [find].
    rewrite bool_decide_eq_false_2 by tauto. apply IH. assumption.
  - rewrite filter_cons_False by assumption. apply IH. assumption.
Qed.

Lemma checkDailyCompletionBadge_run now full d notices :
  checkDailyCompletionBadge now (badgeState full d notices)
  = if (0 <? length (todayTasks now d))%nat && forallb completed (todayTasks now d) then
      match todayBadge now d with
      | None =>
          (awardBadge now dailyCompletion ;;; showNotice DailyGoalsAchieved)
            (badgeState full d notices)
      | Some _ => (Return tt, badgeState full d notices)
      end
    else (Return tt, badgeState full d notices).
Proof.
  unfold checkDailyCompletionBadge, todayBadge, todayTasks.
  unfold bind at 1. unfold onStorage at 1. unfold badgeState, badgeStateOn at 1.
  cbn [storage shown notifier].
  rewrite getTasks_storeOf.
  destruct (_ && _); [| reflexivity].
  unfold bind at 1. unfold onStorage at 1. cbn [storage shown notifier].
  rewrite getBadges_storeOf.
  destruct (find _ _); reflexivity.
Qed.

(** A user without a daily badge who has completed all of today's tasks
    is granted one. *)
Lemma checkDailyCompletionBadge_first now d notices :
  todayTasks now d <> [] ->
  Forall (fun task => completed task = true) (todayTasks now d) ->
  owned "dailyCompletion" (currentUser d) (badges d) = 0%nat ->
  checkDailyCompletionBadge now (badgeState false d notices)
  = (Return tt,
     badgeState false
       (withBadges d (badges d ++ [granted now (currentUser d) dailyCompletion]))
       (notices ++ [BadgeEarned "Daily Champion"; DailyGoalsAchieved])).
Proof.
  intros Hsome Hall Hnone. rewrite checkDailyCompletionBadge_run.
  assert ((0 <? length (todayTasks now d))%nat = true) as ->.
  { apply Nat.ltb_lt. destruct (todayTasks now d); [contradiction | simpl; lia]. }
  apply StreakFacts.forallb_completed in Hall as ->. cbn [andb].
  assert (todayBadge now d = None) as ->.
  { unfold todayBadge. apply find_unowned. assumption. }
  unfold bind. rewrite awardBadge_run. cbn [defId dailyCompletion]. rewrite Hnone.
  unfold showNotice, modify, badgeState, badgeStateOn.
  cbn [storage shown notifier defTitle dailyCompletion].
  rewrite <- app_assoc. reflexivity.
Qed.

(** A user who holds a daily badge, of whatever day, is never granted
    another: the storage stays as it is. *)
Lemma checkDailyCompletionBadge_holder now full d notices :
  (1 <= owned "dailyCompletion" (currentUser d) (badges d))%nat ->
  exists notices',
    checkDailyCompletionBadge now (badgeState full d notices)
    = (Return tt, badgeState full d notices').
Proof.
  intros Hholds. rewrite checkDailyCompletionBadge_run.
  destruct (_ && _); [| eexists; reflexivity].
  destruct (todayBadge now d); [eexists; reflexivity |].
  unfold bind. rewrite awardBadge_run. cbn [defId dailyCompletion].
  destruct (owned "dailyCompletion" (currentUser d) (badges d)); [lia |].
  eexists. reflexivity.
Qed.

(** C1 on the day after Carol's first daily badge: all the tasks dated
    11 March are completed and no badge was earned on 11 March, yet
    [checkDailyCompletionBadge] leaves the stored badges as they were,
    the badge of 10 March alone, and announces the daily goal all the
    same. *)
Theorem checkDailyCompletionBadge_second_day :
  todayTasks march11Evening carolDocument = [taskOn "t2" "carol" "2024-03-11" true]
  /\ todayBadge march11Evening carolDocument = None
  /\ checkDailyCompletionBadge march11Evening (badgeState false carolDocument [])
     = (Return tt, badgeState false carolDocument [DailyGoalsAchieved])
  /\ map earnedAt (badges carolDocument) = ["2024-03-10T18:00:00.000Z"%string].
Proof.
  split; [vm_compute; reflexivity |]. split; [vm_compute; reflexivity |].
  split; [vm_compute; reflexivity | reflexivity].
Qed.

End BadgeFacts.

(** ** Reminders *)

Module NotificationFacts.
Import StorageManager NotificationManager NotificationSpec Samples StorageFacts.

Lemma append_inv_head (p s1 s2 : string) : (p +:+ s1 = p +:+ s2)%string -> s1 = s2.
Proof.
  induction p as [| c p IH]; simpl; intros H; [assumption |].
  injection H as H. apply IH. assumption.
Qed.

Lemma key_kind_inj taskId k k' : key taskId k = key taskId k' -> k = k'.
Proof.
  unfold key. intros H. apply append_inv_head in H.
  destruct k, k'; (reflexivity || discriminate).
Qed.

Lemma cancelKey_run name st : cancelKey name st = (Return tt, afterCancelKey name st).
Proof.
  unfold cancelKey, afterCancelKey, bind, gets.
  destruct (scheduledNotifications st !! name) as [handle |] eqn:Hname.
  - reflexivity.
  - rewrite delete_id by assumption. destruct st; reflexivity.
Qed.

Lemma cancelTaskNotifications_run taskId st :
  cancelTaskNotifications taskId st = (Return tt, afterCancel taskId st).
Proof.
  unfold cancelTaskNotifications, afterCancel. cbn [forEach]. unfold bind.
  rewrite !cancelKey_run. reflexivity.
Qed.

Lemma scheduleReminder_run now task start k st :
  scheduleReminder now task start k st = (Return tt, afterReminder now task start k st).
Proof.
  unfold scheduleReminder, afterReminder, due.
  destruct start as [s |]; [| reflexivity].
  destruct (now <? s - lead k); reflexivity.
Qed.

Lemma scheduleTaskNotifications_run dateParse now task st :
  completed task = false ->
  scheduleTaskNotifications dateParse now (Some task) st
  = (Return tt,
     afterSchedule now task (dateParse (date task +:+ "T" +:+ startTime task)%string) st).
Proof.
  intros Hpending. unfold scheduleTaskNotifications, afterSchedule. rewrite Hpending.
  unfold bind. rewrite cancelTaskNotifications_run, !scheduleReminder_run. reflexivity.
Qed.

(** *** The keys of one task *)

Lemma lookup_afterCancel taskId k st :
  scheduledNotifications (afterCancel taskId st) !! key taskId k = None.
Proof.
  unfold afterCancel, afterCancelKey. cbn [scheduledNotifications].
  destruct k;
    repeat first
      [ apply lookup_delete_eq
      | rewrite lookup_delete_ne by (intros H; apply key_kind_inj in H; discriminate) ].
Qed.

Lemma nextTimer_afterCancel taskId st : nextTimer (afterCancel taskId st) = nextTimer st.
Proof. reflexivity. Qed.

Lemma afterReminder_due now task s k st :
  due now (Some s) k = true ->
  scheduledNotifications (afterReminder now task (Some s) k st) !! key (id task) k
  = Some (nextTimer st)
  /\ timers (afterReminder now task (Some s) k st) !! nextTimer st
     = Some {| delay := s - lead k - now; kind := k; about := task |}
  /\ nextTimer (afterReminder now task (Some s) k st) = S (nextTimer st).
Proof.
  intros Hdue. unfold afterReminder. rewrite Hdue.
  cbn [scheduledNotifications timers nextTimer].
  rewrite !lookup_insert_eq. repeat split.
Qed.

Lemma afterReminder_not_due now task start k st :
  due now start k = false -> afterReminder now task start k st = st.
Proof.
  intros Hdue. unfold afterReminder. rewrite Hdue. destruct start; reflexivity.
Qed.

Lemma afterReminder_other_key now task start k k' st :
  k' <> k ->
  scheduledNotifications (afterReminder now task start k st) !! key (id task) k'
  = scheduledNotifications st !! key (id task) k'.
Proof.
  intros Hk. unfold afterReminder. destruct start as [s |]; [| reflexivity].
  destruct (due now (Some s) k); [| reflexivity].
  cbn [scheduledNotifications]. apply lookup_insert_ne.
  intros H. apply key_kind_inj in H. congruence.
Qed.

Lemma afterReminder_earlier_timer now task start k st handle :
  (handle < nextTimer st)%nat ->
  timers (afterReminder now task start k st) !! handle = timers st !! handle.
Proof.
  intros Hlt. unfold afterReminder. destruct start as [s |]; [| reflexivity].
  destruct (due now (Some s) k); [| reflexivity].
  cbn [timers]. apply lookup_insert_ne. lia.
Qed.

Lemma nextTimer_afterReminder now task start k st :
  nextTimer (afterReminder now task start k st)
  = (nextTimer st + if due now start k then 1 else 0)%nat.
Proof.
  unfold afterReminder. destruct start as [s |]; [| simpl; lia].
  destruct (due now (Some s) k); cbn [nextTimer]; lia.
Qed.

(** After [scheduleTaskNotifications], a kind has a key exactly when its
    reminder was still ahead, and the key leads to a pending timer with
    the delay that is left. *)
Lemma afterSchedule_reminder now task s st k :
  let st' := afterSchedule now task (Some s) st in
  (due now (Some s) k = true ->
   exists handle,
     scheduledNotifications st' !! key (id task) k = Some handle
     /\ timers st' !! handle
        = Some {| delay := s - lead k - now; kind := k; about := task |})
  /\ (due now (Some s) k = false ->
      scheduledNotifications st' !! key (id task) k = None).
Proof.
  intros st'. subst st'. unfold afterSchedule.
  pose proof (nextTimer_afterReminder now task (Some s) OneHour (afterCancel (id task) st))
    as N1.
  pose proof (nextTimer_afterReminder now task (Some s) FiveMinutes
                (afterReminder now task (Some s) OneHour (afterCancel (id task) st)))
    as N2.
  split.
  - intros Hdue. destruct k.
    + destruct (afterReminder_due now task s OneHour (afterCancel (id task) st) Hdue)
        as (Hkey & Htimer & Hnext).
      eexists. split.
      * rewrite !afterReminder_other_key by discriminate. exact Hkey.
      * rewrite !afterReminder_earlier_timer by lia. exact Htimer.
    + destruct (afterReminder_due now task s FiveMinutes
                  (afterReminder now task (Some s) OneHour (afterCancel (id task) st)) Hdue)
        as (Hkey & Htimer & Hnext).
      eexists. split.
      * rewrite !afterReminder_other_key by discriminate. exact Hkey.
      * rewrite !afterReminder_earlier_timer by lia. exact Htimer.
    + destruct (afterReminder_due now task s AtStart
                  (afterReminder now task (Some s) FiveMinutes
                     (afterReminder now task (Some s) OneHour (afterCancel (id task) st)))
                  Hdue)
        as (Hkey & Htimer & Hnext).
      eexists. split; eassumption.
  - intros Hdue. destruct k.
    + rewrite !afterReminder_other_key by discriminate.
      rewrite afterReminder_not_due by assumption. apply lookup_afterCancel.
    + rewrite afterReminder_other_key by discriminate.
      rewrite afterReminder_not_due by assumption.
      rewrite afterReminder_other_key by discriminate. apply lookup_afterCancel.
    + rewrite afterReminder_not_due by assumption.
      rewrite !afterReminder_other_key by discriminate.
      apply lookup_afterCancel.
Qed.

Lemma remindersOf_afterSchedule now task start st :
  remindersOf (afterSchedule now task start st) (id task)
  = filter (fun k => due now start k = true) [OneHour; FiveMinutes; AtStart].
Proof.
  unfold remindersOf. apply list_filter_iff. intros k.
  destruct start as [s |].
  - destruct (afterSchedule_reminder now task s st k) as [Hyes Hno].
    destruct (due now (Some s) k) eqn:Hdue.
    + destruct (Hyes eq_refl) as (handle & -> & _). split; [reflexivity | eauto].
    + rewrite (Hno eq_refl). split; [intros [? ?] | ]; discriminate.
  - unfold afterSchedule, afterReminder. cbn [due].
    rewrite lookup_afterCancel. split; [intros [? ?] | ]; discriminate.
Qed.

Lemma nextTimer_afterSchedule now task start st :
  nextTimer (afterSchedule now task start st)
  = (nextTimer st
     + length (filter (fun k => due now start k = true) [OneHour; FiveMinutes; AtStart]))%nat.
Proof.
  unfold afterSchedule. rewrite !nextTimer_afterReminder, nextTimer_afterCancel.
  rewrite !filter_cons, filter_nil.
  destruct (due now start OneHour), (due now start FiveMinutes), (due now start AtStart);
    repeat case_decide; try congruence; simpl; lia.
Qed.

(** *** One task *)

Lemma due_spec now s k : due now (Some s) k = true <-> now < s - lead k.
Proof. unfold due. apply Z.ltb_lt. Qed.

Lemma filter_due now start (a b c : bool) :
  due now start OneHour = a -> due now start FiveMinutes = b -> due now start AtStart = c ->
  filter (fun k => due now start k = true) [OneHour; FiveMinutes; AtStart]
  = (if a then [OneHour] else []) ++ (if b then [FiveMinutes] else [])
    ++ (if c then [AtStart] else []).
Proof.
  intros <- <- <-. rewrite !filter_cons, filter_nil.
  destruct (due now start OneHour), (due now start FiveMinutes), (due now start AtStart);
    repeat case_decide; try reflexivity; congruence.
Qed.

(** A completed task that starts in two and a half hours gets no timer. *)
Lemma scheduleTaskNotifications_completed_future :
  completed retrospective = true
  /\ Calendar.parseISO (date retrospective +:+ "T" +:+ startTime retrospective)%string
     = Some 1710090000000
  /\ halfPastTwo + 60 * 60 * 1000 < 1710090000000
  /\ scheduleTaskNotifications Calendar.parseISO halfPastTwo (Some retrospective)
       (idle aliceDay)
     = (Return tt, idle aliceDay)
  /\ remindersOf (idle aliceDay) (id retrospective) = [].
Proof.
  split; [reflexivity |]. split; [vm_compute; reflexivity |]. split; [reflexivity |].
  split; [reflexivity | vm_compute; reflexivity].
Qed.

(** C4, as the code has it: for a task that is not completed and whose
    date and start time the host reads as the instant [start],
    [scheduleTaskNotifications] leaves one pending timer for each
    reminder kind whose instant ([start] less 60 minutes, 5 minutes or
    nothing) is after [now], with the delay that is left, and none for
    the others: three when the task starts more than 60 minutes from
    now, two (five minutes and start) when it starts within the hour
    and more than five minutes from now, none when the start is not
    after now. *)
Theorem scheduleTaskNotifications_reminders (dateParse : string -> option Z) (now : Z)
    (task : Task) (start : Z) (st : State) :
  completed task = false ->
  dateParse (date task +:+ "T" +:+ startTime task)%string = Some start ->
  let st' := afterSchedule now task (Some start) st in
  scheduleTaskNotifications dateParse now (Some task) st = (Return tt, st')
  /\ (forall k,
        now < start - lead k
        <-> exists handle,
              scheduledNotifications st' !! key (id task) k = Some handle
              /\ timers st' !! handle
                 = Some {| delay := start - lead k - now; kind := k; about := task |})
  /\ (now + 60 * 60 * 1000 < start ->
      remindersOf st' (id task) = [OneHour; FiveMinutes; AtStart]
      /\ nextTimer st' = (nextTimer st + 3)%nat)
  /\ (now + 5 * 60 * 1000 < start <= now + 60 * 60 * 1000 ->
      remindersOf st' (id task) = [FiveMinutes; AtStart]
      /\ nextTimer st' = (nextTimer st + 2)%nat)
  /\ (start <= now ->
      remindersOf st' (id task) = [] /\ nextTimer st' = nextTimer st).
Proof.
  intros Hpending Hstart st'. subst st'.
  split; [rewrite scheduleTaskNotifications_run, Hstart by assumption; reflexivity |].
  split.
  { intros k. destruct (afterSchedule_reminder now task start st k) as [Hyes Hno].
    rewrite <- due_spec. split.
    - exact Hyes.
    - intros (handle & Hkey & _). destruct (due now (Some start) k) eqn:Hdue; [reflexivity |].
      rewrite (Hno eq_refl) in Hkey. discriminate. }
  rewrite remindersOf_afterSchedule, nextTimer_afterSchedule.
  split; [| split]; intros Hwhen.
  - rewrite (filter_due now (Some start) true true true);
      [split; [reflexivity | simpl; lia] | | |]; apply Z.ltb_lt; simpl; lia.
  - rewrite (filter_due now (Some start) false true true);
      [split; [reflexivity | simpl; lia] | | |];
      first [apply Z.ltb_lt | apply Z.ltb_ge]; simpl; lia.
  - rewrite (filter_due now (Some start) false false false);
      [split; [reflexivity | simpl; lia] | | |]; apply Z.ltb_ge; simpl; lia.
Qed.

(** The stand-up of 15:00, scheduled at 14:30: the five-minute reminder
    and the one at the start. *)
Lemma scheduleTaskNotifications_reminders_witness :
  remindersOf (afterSchedule halfPastTwo standup (Some 1710082800000) (idle aliceDay))
              (id standup)
  = [FiveMinutes; AtStart]
  /\ nextTimer (afterSchedule halfPastTwo standup (Some 1710082800000) (idle aliceDay))
     = (nextTimer (idle aliceDay) + 2)%nat.
Proof.
  apply (scheduleTaskNotifications_reminders Calendar.parseISO halfPastTwo standup
           1710082800000 (idle aliceDay)).
  - reflexivity.
  - vm_compute. reflexivity.
  - unfold halfPastTwo. lia.
Defined.

(** A date that the host cannot read leaves the task without timers. *)
Lemma scheduleTaskNotifications_invalid_date dateParse now task st :
  completed task = false ->
  dateParse (date task +:+ "T" +:+ startTime task)%string = None ->
  scheduleTaskNotifications dateParse now (Some task) st
  = (Return tt, afterCancel (id task) st)
  /\ remindersOf (afterCancel (id task) st) (id task) = [].
Proof.
  intros Hpending Hstart. rewrite scheduleTaskNotifications_run, Hstart by assumption.
  split; [reflexivity |].
  change (afterCancel (id task) st) with (afterSchedule now task None st).
  rewrite remindersOf_afterSchedule. reflexivity.
Qed.

(** *** All tasks *)

Lemma keysAmong_afterCancelKey ts name st :
  keysAmong ts st -> keysAmong ts (afterCancelKey name st).
Proof.
  intros Hkeys other handle. unfold afterCancelKey. cbn [scheduledNotifications].
  rewrite lookup_delete_Some. intros [_ Hother]. eapply Hkeys. eassumption.
Qed.

Lemma keysAmong_afterReminder ts now task start k st :
  task ∈ ts -> keysAmong ts st -> keysAmong ts (afterReminder now task start k st).
Proof.
  intros Hin Hkeys. unfold afterReminder. destruct start as [s |]; [| assumption].
  destruct (due now (Some s) k); [| assumption].
  intros other handle. cbn [scheduledNotifications]. rewrite lookup_insert_Some.
  intros [[<- _] | [_ Hother]]; [exists task, k; split; [assumption | reflexivity] |].
  eapply Hkeys. eassumption.
Qed.

Lemma keysAmong_afterSchedule ts now task start st :
  task ∈ ts -> keysAmong ts st -> keysAmong ts (afterSchedule now task start st).
Proof.
  intros Hin Hkeys. unfold afterSchedule, afterCancel.
  repeat apply keysAmong_afterReminder; try assumption.
  repeat apply keysAmong_afterCancelKey. assumption.
Qed.

Lemma forEach_schedule_keys dateParse now (all ts : list Task) st :
  Forall (fun task => task ∈ all /\ completed task = false) ts ->
  keysAmong all st ->
  exists st',
    forEach (fun task => scheduleTaskNotifications dateParse now (Some task)) ts st
    = (Return tt, st')
    /\ keysAmong all st'.
Proof.
  intros Hts. revert st. induction Hts as [| task ts [Hin Hpending] _ IH]; intros st Hkeys.
  - exists st. split; [reflexivity | assumption].
  - destruct (IH (afterSchedule now task
                    (dateParse (date task +:+ "T" +:+ startTime task)%string) st))
      as (st' & Hrun & Hkeys').
    { apply keysAmong_afterSchedule; assumption. }
    exists st'. split; [| assumption].
    cbn [forEach]. unfold bind. rewrite scheduleTaskNotifications_run by assumption.
    exact Hrun.
Qed.

(** C10: on a completed task, and on [null], [scheduleTaskNotifications]
    returns with the scheduler as it was: no timer is made and no
    reminder of any task is touched.  And after
    [scheduleAllTaskNotifications] every reminder that is scheduled
    belongs to a task of the current user that is not completed. *)
Theorem scheduleTaskNotifications_only_pending (dateParse : string -> option Z) (now : Z) :
  (forall st, scheduleTaskNotifications dateParse now None st = (Return tt, st))
  /\ (forall st task,
        completed task = true ->
        scheduleTaskNotifications dateParse now (Some task) st = (Return tt, st))
  /\ (forall full d scheduled pending next,
        exists st',
          scheduleAllTaskNotifications dateParse now
            {| storage := storeOf full d; scheduledNotifications := scheduled;
               timers := pending; nextTimer := next |}
          = (Return tt, st')
          /\ keysAmong
               (filter (fun task => completed task = false)
                  (filter (fun task => userId task = currentUser d) (tasks d)))
               st').
Proof.
  split; [reflexivity |]. split.
  - intros st task Hdone. unfold scheduleTaskNotifications. rewrite Hdone. reflexivity.
  - intros full d scheduled pending next.
    unfold scheduleAllTaskNotifications.
    unfold bind at 1. unfold onStorage. cbn [storage]. rewrite getTasks_storeOf.
    unfold bind at 1. unfold clearAllNotifications, modify.
    apply forEach_schedule_keys.
    + apply Forall_forall. intros task Hin.
      split; [assumption |]. apply list_elem_of_filter in Hin. tauto.
    + intros name handle. cbn [scheduledNotifications]. rewrite lookup_empty. discriminate.
Qed.

Lemma scheduleTaskNotifications_only_pending_witness :
  scheduleTaskNotifications Calendar.parseISO halfPastTwo (Some retrospective) (idle aliceDay)
  = (Return tt, idle aliceDay).
Proof.
  apply (scheduleTaskNotifications_only_pending Calendar.parseISO halfPastTwo).
  reflexivity.
Defined.

End NotificationFacts.

Example parseISO_date_and_time : Calendar.parseISO "2024-03-10T15:00" = Some 1710082800000.
Proof. vm_compute. reflexivity. Qed.

Example parseISO_date_alone : Calendar.parseISO "2024-03-10" = Some 1710028800000.
Proof. vm_compute. reflexivity. Qed.

Example parseISO_of_toISOString :
  Calendar.parseISO (Calendar.toISOString 1710081045123) = Some 1710081045123.
Proof. vm_compute. reflexivity. Qed.

Example parseISO_invalid :
  Calendar.parseISO "2023-02-29" = None /\ Calendar.parseISO "T15:00" = None.
Proof. split; vm_compute; reflexivity. Qed.

Example getDay_sunday : Calendar.getDay Calendar.utcHost 1710028800000 = 0.
Proof. reflexivity. Qed.

(** ** More of the storage manager *)

Module LedgerFacts.
Import StorageManager Samples StorageFacts.

(** *** Saving and loading *)

(** X1: [saveData] never throws.  It answers [true] exactly when the
    host takes the write, and then [getData] returns the saved document;
    when it answers [false] the storage is as it was. *)
Theorem saveData_then_getData (s : Store) (d : Document) :
  exists s',
    saveData d s = (Return (negb (quotaExceeded s)), s')
    /\ (quotaExceeded s = false -> getData s' = (Return (Doc d), s'))
    /\ (quotaExceeded s = true -> s' = s).
Proof.
  destruct s as [it [|]].
  - exists {| item := it; quotaExceeded := true |}. repeat split. discriminate.
  - exists (storeOf false d). repeat split. discriminate.
Qed.

(** X2: loading is stable: what [getData] has returned once it returns
    again, without touching the storage any more. *)
Theorem getData_stable (s s' : Store) (v : JsValue) :
  getData s = (Return v, s') -> getData s' = (Return v, s').
Proof.
  destruct s as [[[raw | w] |] full]; unfold getData; simpl.
  - destruct full; simpl; [discriminate |]. intros [= <- <-]. reflexivity.
  - intros [= <- <-]. reflexivity.
  - intros [= <- <-]. reflexivity.
Qed.

Lemma getData_stable_witness :
  getData (storeOf false initialData) = (Return (Doc initialData), storeOf false initialData).
Proof.
  apply (getData_stable (corrupted false "{users:") (storeOf false initialData)).
  reflexivity.
Defined.

(** *** Statistics *)

Lemma length_filter_completed (ts : list Task) :
  (length (filter isCompleted ts) + length (filter isPending ts))%nat = length ts.
Proof.
  unfold isCompleted, isPending. induction ts as [| t ts IH]; [reflexivity |].
  rewrite !filter_cons. destruct (completed t) eqn:Hc; repeat case_decide;
    try congruence; simpl; lia.
Qed.

Lemma length_filter_le {A} (P : A -> Prop) `{forall x, Decision (P x)} (l : list A) :
  (length (filter P l) <= length l)%nat.
Proof.
  induction l as [| x l IH]; [reflexivity |].
  rewrite filter_cons. case_decide; simpl; lia.
Qed.

Lemma length_filter_priorities (ts : list Task) :
  (length (filter (fun task => priority task = "high"%string) ts)
   + length (filter (fun task => priority task = "medium"%string) ts)
   + length (filter (fun task => priority task = "low"%string) ts)
   <= length ts)%nat.
Proof.
  induction ts as [| t ts IH]; [reflexivity |].
  rewrite !filter_cons. repeat case_decide; simpl; try lia; congruence.
Qed.

(** X3: the counts of [getTaskStats] add up: every task of the user is
    completed or pending, over all days and over today; today's tasks
    are among all; and the three priority counts together never exceed
    the total (a task of another priority is in none of them). *)
Theorem getTaskStats_adds_up (now : Z) (full : bool) (d : Document) :
  exists stats,
    getTaskStats now (storeOf full d) = (Return stats, storeOf full d)
    /\ total stats = (completedCount stats + pending stats)%nat
    /\ completedTasks stats = completedCount stats
    /\ dayTotal (today stats) = (dayCompleted (today stats) + dayPending (today stats))%nat
    /\ (dayTotal (today stats) <= total stats)%nat
    /\ (high (byPriority stats) + medium (byPriority stats) + low (byPriority stats)
        <= total stats)%nat.
Proof.
  eexists. split; [reflexivity |]. cbn.
  split; [symmetry; apply length_filter_completed |].
  split; [reflexivity |].
  split; [symmetry; apply length_filter_completed |].
  split; [apply length_filter_le | apply length_filter_priorities].
Qed.

(** *** Deleting and updating *)

Lemma findIndex_split taskId ts i :
  findIndex taskId ts = Some i ->
  exists before task after,
    ts = before ++ task :: after
    /\ length before = i
    /\ id task = taskId
    /\ Forall (fun other => id other <> taskId) before.
Proof.
  revert i. induction ts as [| t ts IH]; intros i; simpl; [discriminate |].
  case_bool_decide as Hid.
  - intros [= <-]. exists [], t, ts. repeat split; [assumption | constructor].
  - destruct (findIndex taskId ts) as [j |]; simpl; [| discriminate].
    intros [= <-]. destruct (IH j eq_refl) as (before & task & after & -> & Hlen & Htask & Hbefore).
    exists (t :: before), task, after. repeat split; simpl; [lia | assumption |].
    constructor; assumption.
Qed.

Lemma delete_middle {A} (before after : list A) (x : A) :
  delete (length before) (before ++ x :: after) = before ++ after.
Proof. induction before as [| y before IH]; simpl; [reflexivity | f_equal; exact IH]. Qed.

(** X4: [deleteTask] on an id that no stored task has answers [false]
    and changes nothing; otherwise it removes the first stored task with
    that id, whoever owns it, and nothing else, and answers whether the
    write was taken. *)
Theorem deleteTask_removes_first (full : bool) (d : Document) (taskId : string) :
  (Forall (fun task => id task <> taskId) (tasks d) ->
   deleteTask taskId (storeOf full d) = (Return false, storeOf full d))
  /\ (forall before task after,
        tasks d = before ++ task :: after ->
        id task = taskId ->
        Forall (fun other => id other <> taskId) before ->
        deleteTask taskId (storeOf full d)
        = (Return (negb full),
           storeOf full (if full then d else withTasks d (before ++ after)))).
Proof.
  split.
  - intros Hnone. apply findIndex_None in Hnone.
    unfold deleteTask. rewrite bind_getDocument, Hnone. reflexivity.
  - intros before task after Htasks Hid Hbefore.
    assert (findIndex taskId (tasks d) = Some (length before)) as Hi.
    { rewrite Htasks. clear Htasks. induction Hbefore as [| t before Ht _ IH]; simpl.
      - rewrite bool_decide_eq_true_2 by assumption. reflexivity.
      - rewrite bool_decide_eq_false_2 by assumption. rewrite IH. reflexivity. }
    unfold deleteTask. rewrite bind_getDocument, Hi, saveData_storeOf.
    rewrite Htasks, delete_middle. reflexivity.
Qed.

Lemma deleteTask_removes_first_witness :
  deleteTask "ltlm3n9fk2x9" (storeOf false aliceDocument)
  = (Return true, storeOf false (withTasks aliceDocument [])).
Proof.
  apply (proj2 (deleteTask_removes_first false aliceDocument "ltlm3n9fk2x9")
           [] writeReport []);
    [reflexivity | reflexivity | constructor].
Defined.

(** X5: [updateTask] changes the first stored task with the id, whoever
    owns it, and no other task, and returns it as changed.  Every field
    that the updates name takes their value, the id, the owner and the
    creation time like the rest, and every other field stays; unless
    the updates name another id the task is still found under its own.
    The list keeps its length and everything else in the document
    stays.  When the host refuses the write the changed task is
    returned all the same and the document stays as it was. *)
Theorem updateTask_frame (full : bool) (d : Document) (taskId : string)
    (updates : TaskUpdates) (i : nat) :
  findIndex taskId (tasks d) = Some i ->
  exists old d',
    tasks d !! i = Some old
    /\ updateTask taskId updates (storeOf full d)
       = (Return (Some (merge old updates)), storeOf full d')
    /\ tasks d' !! i = Some (if full then old else merge old updates)
    /\ (forall j, j <> i -> tasks d' !! j = tasks d !! j)
    /\ length (tasks d') = length (tasks d)
    /\ (id (merge old updates), userId (merge old updates), createdAt (merge old updates))
       = (default taskId (upId updates), default (userId old) (upUserId updates),
          default (createdAt old) (upCreatedAt updates))
    /\ (upId updates = None -> findIndex taskId (tasks d') = Some i)
    /\ (users d', currentUser d', badges d', settings d')
       = (users d, currentUser d, badges d, settings d).
Proof.
  intros Hi. destruct (findIndex_lookup _ _ _ Hi) as (old & Hold & Hid).
  exists old, (if full then d else withTasks d (<[i := merge old updates]> (tasks d))).
  split; [assumption |].
  assert (i < length (tasks d))%nat as Hlt by (eapply lookup_lt_Some; eassumption).
  split.
  { rewrite (updateTask_found full d taskId updates i Hi).
    rewrite (list_alter_at _ _ _ old Hold), list_lookup_insert_eq by assumption.
    reflexivity. }
  split; [destruct full; [assumption | apply list_lookup_insert_eq; assumption] |].
  split.
  { intros j Hj. destruct full; [reflexivity |].
    apply list_lookup_insert_ne. congruence. }
  split; [destruct full; [reflexivity | apply length_insert] |].
  split; [cbn [id userId createdAt merge]; rewrite Hid; reflexivity |].
  split; [| destruct full; reflexivity].
  intros Hsame. destruct full; [assumption |]. cbn [tasks withTasks].
  rewrite <- (list_alter_at (fun task => merge task updates) _ _ old Hold).
  rewrite findIndex_alter; [assumption |]. intros task. apply merge_id. assumption.
Qed.

Lemma updateTask_frame_witness :
  exists old d',
    tasks aliceDocument !! 0%nat = Some old
    /\ updateTask "ltlm3n9fk2x9" renamed (storeOf false aliceDocument)
       = (Return (Some (merge old renamed)), storeOf false d')
    /\ tasks d' !! 0%nat = Some (merge old renamed)
    /\ (forall j, j <> 0%nat -> tasks d' !! j = tasks aliceDocument !! j)
    /\ length (tasks d') = length (tasks aliceDocument)
    /\ (id (merge old renamed), userId (merge old renamed), createdAt (merge old renamed))
       = (default "ltlm3n9fk2x9"%string (upId renamed),
          default (userId old) (upUserId renamed),
          default (createdAt old) (upCreatedAt renamed))
    /\ (upId renamed = None -> findIndex "ltlm3n9fk2x9" (tasks d') = Some 0%nat)
    /\ (users d', currentUser d', badges d', settings d')
       = (users aliceDocument, currentUser aliceDocument, badges aliceDocument,
          settings aliceDocument).
Proof.
  apply (updateTask_frame false aliceDocument "ltlm3n9fk2x9" renamed 0).
  reflexivity.
Defined.

(** Updates that name an id move the task to it: the report is no
    longer found under the id it had. *)
Example updateTask_renames :
  exists d',
    updateTask "ltlm3n9fk2x9" renamed (storeOf false aliceDocument)
    = (Return (Some (merge writeReport renamed)), storeOf false d')
    /\ findIndex "ltlm3n9fk2x9" (tasks d') = None
    /\ findIndex "r1" (tasks d') = Some 0%nat
    /\ userId (merge writeReport renamed) = userId writeReport.
Proof. eexists. split; [vm_compute; reflexivity |]. repeat split. Qed.

(** X6: when the host refuses the write, [addTask], [updateTask] and
    [addBadge] still return the new task, the updated task and the new
    badge, and the storage holds none of them. *)
Theorem refused_writes_are_reported_as_done (d : Document) (now : Z) (random : string)
    (input : TaskInput) (taskId : string) (updates : TaskUpdates) (i : nat) (old : Task)
    (badge : Badge) :
  findIndex taskId (tasks d) = Some i ->
  tasks d !! i = Some old ->
  find (fun b => bool_decide (badgeId b = badgeId badge)
                 && bool_decide (badgeUserId b = currentUser d)) (badges d) = None ->
  addTask now random input (storeOf true d)
  = (Return (stampTask now random (currentUser d) input), storeOf true d)
  /\ updateTask taskId updates (storeOf true d)
     = (Return (Some (merge old updates)), storeOf true d)
  /\ exists newBadge,
       addBadge now badge (storeOf true d) = (Return (Some newBadge), storeOf true d).
Proof.
  intros Hi Hold Hfind. split; [apply addTask_storeOf |]. split.
  - rewrite (updateTask_found true d taskId updates i Hi).
    rewrite list_lookup_alter_eq, Hold. reflexivity.
  - unfold addBadge. rewrite bind_getDocument, Hfind, bind_saveData.
    eexists. reflexivity.
Qed.

Lemma refused_writes_are_reported_as_done_witness :
  addTask 1710081045123 "k2x9" report (storeOf true aliceDocument)
  = (Return (stampTask 1710081045123 "k2x9" (currentUser aliceDocument) report),
     storeOf true aliceDocument).
Proof.
  apply (refused_writes_are_reported_as_done aliceDocument 1710081045123 "k2x9" report
           "ltlm3n9fk2x9" (completion 1710084645123) 0 writeReport
           {| badgeId := "firstTask"; badgeTitle := "Getting Started";
              badgeDescription := "Complete your first task"; badgeCategory := "milestone";
              badgeUserId := None; earnedAt := "" |});
    reflexivity.
Defined.

(** *** Users *)

(** X7: [addUser] never replaces a stored user: under a name that is
    taken it answers [false] and changes nothing.  Under a free name
    (and one that is not inherited) it answers whether the host took
    the write: if it did, the record is stored, [getUser] returns it and
    every other name reads as before; if the host refused, nothing is
    stored and [getUser] still finds no user. *)
Theorem addUser_then_getUser (now : Z) (full : bool) (d : Document) (userData : UserData) :
  (forall u, users d !! newUsername userData = Some u ->
             addUser now userData (storeOf full d) = (Return false, storeOf full d))
  /\ (users d !! newUsername userData = None ->
      newUsername userData ∉ Js.inheritedNames ->
      exists d' u,
        addUser now userData (storeOf full d) = (Return (negb full), storeOf full d')
        /\ d' = (if full then d
                 else withUsers d (<[newUsername userData := u]> (users d)))
        /\ getUser (newUsername userData) (storeOf full d')
           = (Return (if full then Undefined else Own u), storeOf full d')
        /\ (username u, displayName u, passwordHash u)
           = (newUsername userData, newDisplayName userData, newPasswordHash userData)
        /\ (forall other, other <> newUsername userData ->
                          users d' !! other = users d !! other)
        /\ (currentUser d', tasks d', badges d', settings d')
           = (currentUser d, tasks d, badges d, settings d)).
Proof.
  split.
  - intros u Hu. unfold addUser. rewrite bind_getDocument.
    unfold getProperty. rewrite Hu. reflexivity.
  - intros Hfree Hname. eexists _, _. split.
    + unfold addUser. rewrite bind_getDocument.
      unfold getProperty. rewrite Hfree, bool_decide_eq_false_2 by assumption.
      cbn [isTruthy]. apply saveData_storeOf.
    + split; [reflexivity |]. split.
      * unfold getUser. rewrite bind_getDocument. unfold ret, getProperty.
        destruct full.
        -- rewrite Hfree, bool_decide_eq_false_2 by assumption. reflexivity.
        -- cbn [users withUsers]. rewrite lookup_insert_eq. reflexivity.
      * split; [reflexivity |]. split; [| destruct full; reflexivity].
        intros other Hother. destruct full; [reflexivity |].
        cbn [users withUsers]. apply lookup_insert_ne. congruence.
Qed.

Lemma addUser_then_getUser_witness :
  exists d' u,
    addUser 1710081045123 frankData (storeOf false bobDocument)
    = (Return (negb false), storeOf false d')
    /\ d' = withUsers bobDocument (<[newUsername frankData := u]> (users bobDocument))
    /\ getUser (newUsername frankData) (storeOf false d') = (Return (Own u), storeOf false d')
    /\ (username u, displayName u, passwordHash u)
       = (newUsername frankData, newDisplayName frankData, newPasswordHash frankData)
    /\ (forall other, other <> newUsername frankData ->
                      users d' !! other = users bobDocument !! other)
    /\ (currentUser d', tasks d', badges d', settings d')
       = (currentUser bobDocument, tasks bobDocument, badges bobDocument,
          settings bobDocument).
Proof.
  apply (proj2 (addUser_then_getUser 1710081045123 false bobDocument frankData)).
  - reflexivity.
  - apply (proj1 (bool_decide_eq_false _)). vm_compute. reflexivity.
Defined.

(** *** Export and import *)

Lemma ownTask_same (task : Task) : ownTask (userId task) task = task.
Proof. destruct task; reflexivity. Qed.

Lemma ownBadge_same (badge : Badge) : ownBadge (badgeUserId badge) badge = badge.
Proof. destruct badge; reflexivity. Qed.

Lemma map_ownTask_filter owner (ts : list Task) :
  map (ownTask owner) (filter (fun task => userId task = owner) ts)
  = filter (fun task => userId task = owner) ts.
Proof.
  induction ts as [| t ts IH]; [reflexivity |].
  rewrite filter_cons. case_decide as Ho; [| assumption].
  simpl. rewrite IH. f_equal. subst owner. apply ownTask_same.
Qed.

Lemma map_ownBadge_filter owner (bs : list Badge) :
  map (ownBadge owner) (filter (fun badge => badgeUserId badge = owner) bs)
  = filter (fun badge => badgeUserId badge = owner) bs.
Proof.
  induction bs as [| b bs IH]; [reflexivity |].
  rewrite filter_cons. case_decide as Ho; [| assumption].
  simpl. rewrite IH. f_equal. subst owner. apply ownBadge_same.
Qed.

Lemma filter_all {A} (P : A -> Prop) `{forall x, Decision (P x)} (l : list A) :
  Forall P l -> filter P l = l.
Proof.
  induction 1 as [| x l Hx _ IH]; [reflexivity |].
  rewrite filter_cons_True by assumption. f_equal. assumption.
Qed.

Lemma filter_none {A} (P : A -> Prop) `{forall x, Decision (P x)} (l : list A) :
  Forall (fun x => ~ P x) l -> filter P l = [].
Proof.
  induction 1 as [| x l Hx _ IH]; [reflexivity |].
  rewrite filter_cons_False by assumption. assumption.
Qed.

Lemma filter_owned_app {A} (P : A -> Prop) `{forall x, Decision (P x)}
    (others own : list A) :
  Forall (fun x => ~ P x) others -> Forall P own ->
  filter P (others ++ own) = own /\ filter (fun x => ~ P x) (others ++ own) = others.
Proof.
  intros Hothers Hown. rewrite !filter_app. split.
  - rewrite (filter_none P others), (filter_all P own) by assumption. reflexivity.
  - rewrite (filter_all (fun x => ~ P x) others) by assumption.
    rewrite (filter_none (fun x => ~ P x) own); [apply app_nil_r |].
    eapply Forall_impl; [exact Hown |]. tauto.
Qed.

Lemma Forall_filter_holds {A} (P : A -> Prop) `{forall x, Decision (P x)} (l : list A) :
  Forall P (filter P l).
Proof.
  apply Forall_forall. intros x Hx. apply list_elem_of_filter in Hx. tauto.
Qed.




(** X9: importing what [exportUserData] has just returned changes
    nothing that can be seen, whether the host takes the write or not:
    [getTasks], [getBadges] and the settings are as before, and so are
    the tasks and badges of the other users.  When the write is taken
    the user's own entries have moved behind the others' in the stored
    lists; when it is refused the document is as it was. *)
Theorem import_of_export (full : bool) (d : Document) :
  exists e d',
    exportUserData (storeOf full d) = (Return e, storeOf full d)
    /\ importUserData (asImport e) (storeOf full d) = (Return (negb full), storeOf full d')
    /\ getTasks (storeOf full d') = (fst (getTasks (storeOf full d)), storeOf full d')
    /\ getBadges (storeOf full d') = (fst (getBadges (storeOf full d)), storeOf full d')
    /\ tasks d'
       = (if full then tasks d
          else filter (fun task => userId task <> currentUser d) (tasks d)
               ++ filter (fun task => userId task = currentUser d) (tasks d))
    /\ badges d'
       = (if full then badges d
          else filter (fun badge => badgeUserId badge <> currentUser d) (badges d)
               ++ filter (fun badge => badgeUserId badge = currentUser d) (badges d))
    /\ (users d', currentUser d', settings d') = (users d, currentUser d, settings d).
Proof.
  eexists _, _. split; [reflexivity |].
  split; [unfold importUserData; rewrite bind_getDocument; apply saveData_storeOf |].
  destruct full; [repeat split |].
  cbn [asImport imTasks imBadges imSettings exTasks exBadges exSettings].
  rewrite !getTasks_storeOf, !getBadges_storeOf.
  cbn [tasks badges currentUser settings users withTasks withBadges withSettings fst].
  rewrite map_ownTask_filter, map_ownBadge_filter.
  destruct (filter_owned_app (fun task => userId task = currentUser d)
              (filter (fun task => userId task <> currentUser d) (tasks d))
              (filter (fun task => userId task = currentUser d) (tasks d)))
    as [Hown _]; [apply Forall_filter_holds | apply Forall_filter_holds |].
  destruct (filter_owned_app (fun badge => badgeUserId badge = currentUser d)
              (filter (fun badge => badgeUserId badge <> currentUser d) (badges d))
              (filter (fun badge => badgeUserId badge = currentUser d) (badges d)))
    as [Hown' _]; [apply Forall_filter_holds | apply Forall_filter_holds |].
  rewrite Hown, Hown'. repeat split.
  destruct (settings d); reflexivity.
Qed.

(** *** Cleanup *)

Lemma filter_filter_pending (keep : Task -> bool) (ts : list Task) :
  (forall task, completed task = false -> keep task = true) ->
  filter (fun task => completed task = false) (filter (fun task => keep task = true) ts)
  = filter (fun task => completed task = false) ts.
Proof.
  intros Hkeep. induction ts as [| t ts IH]; [reflexivity |].
  rewrite (filter_cons (fun task => keep task = true)).
  rewrite (filter_cons (fun task => completed task = false) t ts).
  case_decide as Hk; case_decide as Hc.
  - rewrite filter_cons_True by assumption. f_equal. assumption.
  - rewrite filter_cons_False by assumption. assumption.
  - rewrite Hkeep in Hk by assumption. congruence.
  - assumption.
Qed.

(** X10: [cleanupOldData] answers whether the host took the write.  If
    it did, every pending task is kept, and of the completed tasks, of
    whatever user, exactly those whose completion time (the creation
    time when there is none) reads as an instant later than the cutoff,
    which is what the host's [setDate] makes of now, [daysToKeep] local
    days back; a completed task whose time cannot be read is dropped,
    and the tasks kept stay in order.  If the host refused, every task
    stays. *)
Theorem cleanupOldData_keeps (host : Calendar.Host) (dateParse : string -> option Z)
    (now daysToKeep : Z) (full : bool) (d : Document) :
  exists d',
    cleanupOldData host dateParse now daysToKeep (storeOf full d)
    = (Return (negb full), storeOf full d')
    /\ (full = true -> d' = d)
    /\ filter (fun task => completed task = false) (tasks d')
       = filter (fun task => completed task = false) (tasks d)
    /\ (full = false ->
        forall task,
          completed task = true ->
          (task ∈ tasks d'
           <-> task ∈ tasks d
               /\ exists t, dateParse (lastTouched task) = Some t
                            /\ Calendar.daysBefore host now daysToKeep < t))
    /\ sublist (tasks d') (tasks d)
    /\ (users d', currentUser d', badges d', settings d')
       = (users d, currentUser d, badges d, settings d).
Proof.
  eexists. split; [unfold cleanupOldData; rewrite bind_getDocument; apply saveData_storeOf |].
  destruct full; [repeat split; intros; (discriminate || reflexivity) |].
  split; [discriminate |].
  cbn [tasks withTasks]. split.
  { apply filter_filter_pending. intros task Hp. unfold keptByCleanup. rewrite Hp. reflexivity. }
  split.
  { intros _ task Hdone. rewrite list_elem_of_filter. unfold keptByCleanup.
    rewrite Hdone. cbn [negb].
    destruct (dateParse (lastTouched task)) as [t |].
    - rewrite Z.ltb_lt. split.
      + intros [Hlt Hin]. split; [assumption | eauto].
      + intros [Hin (t' & [= <-] & Hlt)]. split; assumption.
    - split; [intros [? _]; discriminate | intros [_ (t' & ? & _)]; discriminate]. }
  split; [apply sublist_filter | reflexivity].
Qed.

(** *** One user's tasks and another's *)

(** X11: a task added under one session is not listed under another:
    after [addTask] and a change of the current user on a storage that
    takes the writes, [getTasks] returns the tasks the new user had
    before, and nothing else.  When the host refuses the writes neither
    the task nor the change of user is stored, and [getTasks] returns
    the tasks that the first user had before. *)
Theorem addTask_invisible_to_others (full : bool) (d : Document) (now : Z)
    (random : string) (input : TaskInput) (other : option string) :
  other <> currentUser d ->
  exists s',
    (addTask now random input ;;; setCurrentUser other ;;; getTasks) (storeOf full d)
    = (Return (filter (fun task => userId task = if full then currentUser d else other)
                      (tasks d)), s').
Proof.
  intros Hother. destruct full; eexists; unfold bind at 1; rewrite addTask_storeOf;
    unfold bind at 1, setCurrentUser; rewrite bind_getDocument, saveData_storeOf;
    rewrite getTasks_storeOf; [reflexivity |].
  cbn [tasks currentUser withTasks withCurrentUser].
  rewrite filter_app, filter_cons_False, filter_nil, app_nil_r; [reflexivity |].
  simpl. congruence.
Qed.

Lemma addTask_invisible_to_others_witness :
  exists s',
    (addTask 1710081045123 "k2x9" report ;;; setCurrentUser (Some "bob"%string) ;;; getTasks)
      (storeOf false aliceDocument)
    = (Return (filter (fun task => userId task = Some "bob"%string) (tasks aliceDocument)), s').
Proof.
  apply (addTask_invisible_to_others false aliceDocument 1710081045123 "k2x9" report
           (Some "bob"%string)).
  discriminate.
Defined.

End LedgerFacts.

(** ** More of the account manager *)

Module AccountFacts.
Import StorageManager AuthManager Samples StorageFacts AuthFacts.

(** *** The password hash *)

Lemma toInt32_range z : - 2 ^ 31 <= Js.toInt32 z < 2 ^ 31.
Proof.
  unfold Js.toInt32.
  pose proof (Z.mod_pos_bound (z + 2 ^ 31) (2 ^ 32) eq_refl). lia.
Qed.

Lemma toInt32_mod z : Js.toInt32 z mod 2 ^ 32 = z mod 2 ^ 32.
Proof.
  unfold Js.toInt32. rewrite Zminus_mod_idemp_l. f_equal. lia.
Qed.

Lemma toInt32_congruent a b : a mod 2 ^ 32 = b mod 2 ^ 32 -> Js.toInt32 a = Js.toInt32 b.
Proof.
  intros H. unfold Js.toInt32. f_equal.
  rewrite <- (Zplus_mod_idemp_l a), <- (Zplus_mod_idemp_l b), H. reflexivity.
Qed.

(** One round of the loop is [hash * 31 + char], wrapped to 32 bits. *)
Lemma hashStep_31 hash char : hashStep hash char = Js.toInt32 (31 * hash + char).
Proof.
  unfold hashStep. apply toInt32_congruent.
  rewrite <- Zplus_mod_idemp_l, <- Zminus_mod_idemp_l, toInt32_mod.
  rewrite Zminus_mod_idemp_l, Zplus_mod_idemp_l. f_equal. lia.
Qed.

Lemma hashStep_congruent h1 h2 char :
  h1 mod 2 ^ 32 = h2 mod 2 ^ 32 -> hashStep h1 char = hashStep h2 char.
Proof.
  intros H. rewrite !hashStep_31. apply toInt32_congruent.
  rewrite <- Zplus_mod_idemp_l, <- Zmult_mod_idemp_r, H.
  rewrite Zmult_mod_idemp_r, Zplus_mod_idemp_l. reflexivity.
Qed.

Lemma hashStep_Aa_BB hash :
  hashStep (hashStep hash 65) 97 = hashStep (hashStep hash 66) 66.
Proof.
  rewrite !hashStep_31. apply toInt32_congruent.
  rewrite <- Zplus_mod_idemp_l, <- Zmult_mod_idemp_r, toInt32_mod.
  rewrite Zmult_mod_idemp_r, Zplus_mod_idemp_l.
  rewrite <- (Zplus_mod_idemp_l (31 * Js.toInt32 _)), <- (Zmult_mod_idemp_r (Js.toInt32 _)),
    toInt32_mod.
  rewrite Zmult_mod_idemp_r, Zplus_mod_idemp_l. f_equal. lia.
Qed.

Lemma charCodes_app s1 s2 :
  Js.charCodes (s1 +:+ s2) = Js.charCodes s1 ++ Js.charCodes s2.
Proof. induction s1 as [| c s1 IH]; simpl; [reflexivity | f_equal; exact IH]. Qed.

(** Passwords that differ in an "Aa" for a "BB" have the same
    [hashPassword]. *)
Lemma hashPassword_collides (before after : string) :
  hashPassword (before +:+ "Aa" +:+ after) = hashPassword (before +:+ "BB" +:+ after).
Proof.
  unfold hashPassword. f_equal.
  rewrite !charCodes_app, !fold_left_app. f_equal. simpl. apply hashStep_Aa_BB.
Qed.

Lemma hashValue_range (codes : list Z) (h : Z) :
  - 2 ^ 31 <= h < 2 ^ 31 -> - 2 ^ 31 <= fold_left hashStep codes h < 2 ^ 31.
Proof.
  revert h. induction codes as [| c codes IH]; intros h Hh; [exact Hh |].
  simpl. apply IH. unfold hashStep. apply toInt32_range.
Qed.

Lemma toInt32_fixed z : - 2 ^ 31 <= z < 2 ^ 31 -> Js.toInt32 z = z.
Proof. intros Hz. unfold Js.toInt32. rewrite Z.mod_small by lia. lia. Qed.

Lemma hashValue_horner (codes : list Z) (h h' : Z) :
  h mod 2 ^ 32 = h' mod 2 ^ 32 ->
  fold_left hashStep codes h mod 2 ^ 32
  = fold_left (fun acc c => 31 * acc + c) codes h' mod 2 ^ 32.
Proof.
  revert h h'. induction codes as [| c codes IH]; intros h h' Hh; [exact Hh |].
  simpl. apply IH. rewrite hashStep_31, toInt32_mod.
  rewrite <- Zplus_mod_idemp_l, <- Zmult_mod_idemp_r, Hh.
  rewrite Zmult_mod_idemp_r, Zplus_mod_idemp_l. reflexivity.
Qed.

(** X12: [hashPassword] prints the number that Horner's rule with the
    multiplier 31 makes of the character codes, wrapped to 32 bits,
    signed. *)
Theorem hashPassword_is_horner (password : string) :
  hashPassword password
  = Js.toStringRadix 10
      (Js.toInt32 (fold_left (fun acc c => 31 * acc + c) (Js.charCodes password) 0))
  /\ - 2 ^ 31 <= fold_left hashStep (Js.charCodes password) 0 < 2 ^ 31.
Proof.
  assert (- 2 ^ 31 <= fold_left hashStep (Js.charCodes password) 0 < 2 ^ 31) as Hrange
    by (apply hashValue_range; lia).
  split; [| exact Hrange].
  unfold hashPassword. f_equal.
  rewrite <- (toInt32_fixed _ Hrange). apply toInt32_congruent.
  apply hashValue_horner. reflexivity.
Qed.

Lemma append_not_empty (s1 s2 s3 : string) :
  s2 <> ""%string -> (s1 +:+ s2 +:+ s3)%string <> ""%string.
Proof.
  intros H2. destruct s1; simpl; [| discriminate].
  destruct s2; [contradiction | discriminate].
Qed.

(** X13: [login] takes either for the other: a user whose stored
    hash is that of a password with "Aa" in it is logged in with the
    password that has "BB" there. *)
Theorem login_accepts_colliding_password (name before after : string) (d : Document)
    (session : option string) (u : User) :
  name <> ""%string ->
  users d !! name = Some u ->
  passwordHash u = hashPassword (before +:+ "Aa" +:+ after) ->
  login name (before +:+ "BB" +:+ after) (authOf false d session)
  = (Return true, authOf false (withCurrentUser d (Some name)) (Some name)).
Proof.
  intros Hname Hu Hhash.
  rewrite login_checked by (try assumption; apply append_not_empty; discriminate).
  rewrite Hu, bool_decide_eq_true_2; [reflexivity |].
  rewrite Hhash. apply hashPassword_collides.
Qed.

Lemma login_accepts_colliding_password_witness :
  login "eve" ("secret" +:+ "BB" +:+ "") (authOf false eveDocument None)
  = (Return true,
     authOf false (withCurrentUser eveDocument (Some "eve"%string)) (Some "eve"%string)).
Proof.
  apply (login_accepts_colliding_password "eve" "secret" "" eveDocument None eve);
    [discriminate | reflexivity | reflexivity].
Defined.

(** *** Sessions *)

Lemma logout_run full d session :
  logout (authOf full d session)
  = (Return true, authOf full (if full then d else withCurrentUser d None) None).
Proof. destruct full; reflexivity. Qed.

(** X14: a user who has registered can log out and log in again with
    the same password: the three calls in a row end with [true] and the
    session is the user's. *)
Theorem register_logout_login (now : Z) (name password display : string) (d : Document)
    (session : option string) :
  validFields name password display ->
  users d !! name = None ->
  name ∉ Js.inheritedNames ->
  (register now name password display ;;; logout ;;; login name password)
    (authOf false d session)
  = (Return true,
     authOf false
       (withCurrentUser
          (withUsers d (<[name := newUser now name password display]> (users d)))
          (Some name))
       (Some name)).
Proof.
  intros Hvalid Hfree Hname. unfold bind at 1.
  rewrite register_stores_and_logs_in by assumption.
  unfold bind at 1. rewrite logout_run.
  destruct Hvalid as (Hn & Hp & _).
  rewrite login_checked by assumption.
  cbn [users withUsers withCurrentUser]. rewrite lookup_insert_eq.
  cbn [passwordHash newUser]. rewrite bool_decide_eq_true_2 by reflexivity. reflexivity.
Qed.

Lemma register_logout_login_witness :
  (register 1710081045123 "frank" "hunter22" "Frank" ;;; logout ;;; login "frank" "hunter22")
    (authOf false initialData None)
  = (Return true,
     authOf false
       (withCurrentUser
          (withUsers initialData
             (<["frank"%string := newUser 1710081045123 "frank" "hunter22" "Frank"]>
                (users initialData)))
          (Some "frank"%string))
       (Some "frank"%string)).
Proof.
  apply (register_logout_login 1710081045123 "frank" "hunter22" "Frank" initialData None).
  - unfold validFields. repeat split; try discriminate; simpl; lia.
  - reflexivity.
  - apply (proj1 (bool_decide_eq_false _)). vm_compute. reflexivity.
Defined.

(** What [init] makes of the stored current user. *)
Lemma construct_storeOf full d :
  construct (storeOf full d)
  = (Return tt,
     authOf full d
       (match currentUser d with
        | Some name => if isEmpty name then None else Some name
        | None => None
        end)).
Proof.
  unfold construct, init, bind, onStorage. cbn [storage].
  unfold getCurrentUser. rewrite bind_getDocument. unfold ret.
  destruct (currentUser d) as [name |]; [| reflexivity].
  destruct (isEmpty name); reflexivity.
Qed.

(** X15: a login is still there after the page is loaded again, if the
    storage took the write; if it refused, [login] has returned [true]
    all the same and the session is lost with the page. *)
Theorem login_and_reload (name password : string) (d : Document) (session : option string)
    (u : User) :
  name <> ""%string -> password <> ""%string ->
  users d !! name = Some u ->
  passwordHash u = hashPassword password ->
  (exists a,
      login name password (authOf false d session) = (Return true, a)
      /\ construct (storage a) = (Return tt, a)
      /\ currentSession a = Some name)
  /\ (currentUser d = None ->
      exists a a',
        login name password (authOf true d session) = (Return true, a)
        /\ isLoggedIn a = true
        /\ construct (storage a) = (Return tt, a')
        /\ isLoggedIn a' = false).
Proof.
  intros Hn Hp Hu Hhash. split.
  - eexists. rewrite login_checked, Hu, bool_decide_eq_true_2 by assumption.
    split; [reflexivity |]. cbn [storage authOf currentSession].
    rewrite construct_storeOf. cbn [currentUser withCurrentUser].
    rewrite (isEmpty_false _ Hn). repeat split.
  - intros Hnone. eexists _, _.
    rewrite login_checked, Hu, bool_decide_eq_true_2 by assumption.
    split; [reflexivity |]. split; [reflexivity |].
    cbn [storage authOf]. rewrite construct_storeOf, Hnone. split; reflexivity.
Qed.

Lemma login_and_reload_witness :
  exists a,
    login "bob" "hunter22" (authOf false bobDocument None) = (Return true, a)
    /\ construct (storage a) = (Return tt, a)
    /\ currentSession a = Some "bob"%string.
Proof.
  apply (login_and_reload "bob" "hunter22" bobDocument None bob);
    [discriminate | discriminate | reflexivity | reflexivity].
Defined.

(** X16: [logout] clears the session and answers [true]; when the
    storage refuses the write the stored current user stays, and the
    next load of the page logs that user in again. *)
Theorem logout_and_reload (name : string) (d : Document) (session : option string) :
  currentUser d = Some name ->
  name <> ""%string ->
  (exists a,
      logout (authOf false d session) = (Return true, a)
      /\ currentSession a = None
      /\ construct (storage a) = (Return tt, a))
  /\ (exists a a',
        logout (authOf true d session) = (Return true, a)
        /\ currentSession a = None
        /\ construct (storage a) = (Return tt, a')
        /\ currentSession a' = Some name).
Proof.
  intros Hcu Hn. split.
  - eexists. rewrite logout_run. split; [reflexivity |]. split; [reflexivity |].
    cbn [storage authOf]. rewrite construct_storeOf. reflexivity.
  - eexists _, _. rewrite logout_run. split; [reflexivity |]. split; [reflexivity |].
    cbn [storage authOf]. rewrite construct_storeOf, Hcu, (isEmpty_false _ Hn).
    split; reflexivity.
Qed.

Lemma logout_and_reload_witness :
  exists a a',
    logout (authOf true aliceDocument (Some "alice"%string)) = (Return true, a)
    /\ currentSession a = None
    /\ construct (storage a) = (Return tt, a')
    /\ currentSession a' = Some "alice"%string.
Proof.
  apply (logout_and_reload "alice" aliceDocument (Some "alice"%string));
    [reflexivity | discriminate].
Defined.

End AccountFacts.

(** ** More of the badge manager *)

Module AchievementFacts.
Import StorageManager BadgeManager BadgeSpec StreakSpec Samples.
Import StorageFacts StreakFacts BadgeFacts.

(** *** Streaks *)

(** X17: a streak of more days is a streak of fewer: whenever
    [checkCompletionStreak] answers [true] for some number of days it
    does so for every smaller number (so "Unstoppable" is never earned
    without the condition of "On Fire" holding too). *)
Theorem checkCompletionStreak_monotone (host : Calendar.Host) (now : Z) (tasks : list Task)
    (fewer more : Z) :
  fewer <= more ->
  checkCompletionStreak host now tasks more = true ->
  checkCompletionStreak host now tasks fewer = true.
Proof.
  intros Hle. unfold checkCompletionStreak.
  assert (forall remaining i streak,
             streakLoop (checkDate host now) tasks more remaining i streak = true ->
             streakLoop (checkDate host now) tasks fewer remaining i streak = true) as Hloop.
  { induction remaining as [| remaining IH]; intros i streak; [discriminate |].
    cbn [streakLoop].
    destruct (length _ =? 0)%nat; [apply IH |].
    destruct (forallb completed _); [| discriminate].
    destruct (Z.geb_spec (streak + 1) more) as [Hmore | Hmore].
    - intros _. destruct (Z.geb_spec (streak + 1) fewer); [reflexivity | lia].
    - intros Hrest. destruct (Z.geb_spec (streak + 1) fewer); [reflexivity |].
      apply IH. assumption. }
  apply Hloop.
Qed.

Lemma checkCompletionStreak_monotone_witness :
  checkCompletionStreak Calendar.utcHost march10Afternoon threeDays 2 = true.
Proof.
  apply (checkCompletionStreak_monotone Calendar.utcHost march10Afternoon threeDays 2 3);
    [lia | vm_compute; reflexivity].
Defined.

Lemma streakLoop_others (day : nat -> string) (tasks others : list Task) requiredDays
    remaining i streak :
  (forall task j, task ∈ others -> (i <= j < i + remaining)%nat -> date task <> day j) ->
  streakLoop day (tasks ++ others) requiredDays remaining i streak
  = streakLoop day tasks requiredDays remaining i streak.
Proof.
  revert i streak. induction remaining as [| remaining IH]; intros i streak Hout;
    [reflexivity |].
  cbn [streakLoop]. rewrite filter_app.
  rewrite (LedgerFacts.filter_none (fun task => date task = day i) others).
  - rewrite app_nil_r, !IH by (intros task j Hin Hj; apply Hout; [assumption | lia]).
    reflexivity.
  - apply Forall_forall. intros task Hin. apply Hout; [assumption | lia].
Qed.

(** X18: the year that counts.  On a host without a change of its clock
    in the 365 days before now, and whose [Date] reads the date of each
    of the 365 calendar days up to today as the midnight of that day,
    the tasks whose date reads as an instant after the midnight of
    today, or before the midnight of the day 364 days back, change
    nothing in the answer of [checkCompletionStreak]. *)
Theorem checkCompletionStreak_window (host : Calendar.Host)
    (dateParse : string -> option Z) (now : Z) (tasks others : list Task)
    (requiredDays : Z) :
  (forall i, (i < 365)%nat -> Calendar.sameOffset host now (Z.of_nat i)) ->
  (forall i, (i < 365)%nat ->
             dateParse (dayBack now i)
             = Some ((now / Calendar.msPerDay - Z.of_nat i) * Calendar.msPerDay)) ->
  (forall task t,
      task ∈ others -> dateParse (date task) = Some t ->
      now / Calendar.msPerDay * Calendar.msPerDay < t
      \/ t < (now / Calendar.msPerDay - 364) * Calendar.msPerDay) ->
  checkCompletionStreak host now (tasks ++ others) requiredDays
  = checkCompletionStreak host now tasks requiredDays.
Proof.
  intros Hsteady Hreads Hout. unfold checkCompletionStreak.
  apply streakLoop_others. intros task j Hin Hj Hdate.
  rewrite checkDate_dayBack in Hdate by (apply Hsteady; lia).
  specialize (Hreads j ltac:(lia)). rewrite <- Hdate in Hreads.
  specialize (Hout task _ Hin Hreads).
  change Calendar.msPerDay with 86400000 in Hout. lia.
Qed.

Lemma window_reads now :
  forallb (fun i => bool_decide
                      (Calendar.parseISO (dayBack now i)
                       = Some ((now / Calendar.msPerDay - Z.of_nat i) * Calendar.msPerDay)))
          (seq 0 365) = true ->
  forall i, (i < 365)%nat ->
            Calendar.parseISO (dayBack now i)
            = Some ((now / Calendar.msPerDay - Z.of_nat i) * Calendar.msPerDay).
Proof.
  intros Hall i Hi. rewrite forallb_forall in Hall.
  specialize (Hall i). rewrite bool_decide_eq_true in Hall.
  apply Hall. apply in_seq. lia.
Qed.

Lemma checkCompletionStreak_window_witness :
  checkCompletionStreak (Calendar.hostAt 19800000) march10Afternoon
    (threeDays ++ [tomorrowTask]) 3
  = checkCompletionStreak (Calendar.hostAt 19800000) march10Afternoon threeDays 3.
Proof.
  apply (checkCompletionStreak_window (Calendar.hostAt 19800000) Calendar.parseISO
           march10Afternoon threeDays [tomorrowTask] 3).
  - intros i _. reflexivity.
  - apply window_reads. vm_compute. reflexivity.
  - intros task t Hin. apply list_elem_of_singleton in Hin. subst task.
    intros [= <-]. left. vm_compute. reflexivity.
Defined.

(** *** What a run grants *)

Lemma owned_not_held (d : Document) (bid : string) :
  bid ∉ heldIds d -> owned bid (currentUser d) (badges d) = 0%nat.
Proof.
  unfold heldIds, owned. induction (badges d) as [| b bs IH]; [reflexivity |].
  rewrite (filter_cons (fun badge => badgeUserId badge = currentUser d)).
  rewrite (filter_cons (fun b0 => badgeId b0 = bid /\ badgeUserId b0 = currentUser d)).
  destruct (decide (badgeUserId b = currentUser d)) as [Ho | Ho].
  - cbn [map]. rewrite not_elem_of_cons. intros [Hb Hrest].
    rewrite decide_False by (intros [? _]; congruence). apply IH. assumption.
  - intros Hrest. rewrite decide_False by tauto. apply IH. assumption.
Qed.

Lemma forEach_checkBadge_grants present now stats ts held (defs : list BadgeDefinition) :
  NoDup (map defId defs) ->
  forall d notices,
    (forall def, def ∈ defs -> defId def ∉ held ->
                 owned (defId def) (currentUser d) (badges d) = 0%nat) ->
    let due := filter (fun def => (defId def ∉ held) /\ condition def now stats ts = true)
                      defs in
    forEach (checkBadge now stats ts held) defs (badgeStateOn present false d notices)
    = (Return tt,
       badgeStateOn present false
         (withBadges d (badges d ++ map (granted now (currentUser d)) due))
         (notices ++ if present then map (fun def => BadgeEarned (defTitle def)) due
                     else [])).
Proof.
  induction defs as [| def defs IH]; intros Hnodup d notices Hfree due; subst due.
  - cbn. destruct present; rewrite !app_nil_r; destruct d; reflexivity.
  - cbn [map] in Hnodup. apply NoDup_cons in Hnodup as [Hfresh Hnodup].
    cbn [forEach]. unfold bind at 1, checkBadge at 1.
    rewrite filter_cons.
    destruct (decide (defId def ∈ held)) as [Hheld | Hheld].
    + rewrite bool_decide_eq_true_2 by assumption.
      rewrite decide_False by tauto. unfold ret.
      apply IH; [assumption |]. intros def' Hin. apply Hfree. right. assumption.
    + rewrite bool_decide_eq_false_2 by assumption.
      destruct (condition def now stats ts) eqn:Hcond.
      * rewrite decide_True by tauto.
        rewrite awardBadge_run_on, (Hfree def) by (try left; assumption).
        rewrite IH; [| assumption |].
        -- cbn [badges withBadges currentUser map].
           destruct present; rewrite <- !app_assoc; reflexivity.
        -- intros def' Hin Hnot. cbn [badges withBadges currentUser].
           rewrite owned_snoc, (Hfree def') by (try right; assumption).
           rewrite decide_False; [reflexivity |].
           cbn [badgeId granted]. intros [Heq _]. apply Hfresh.
           rewrite Heq. apply list_elem_of_fmap. exists def'. split; [reflexivity | assumption].
      * rewrite decide_False by (intros [_ ?]; congruence). unfold ret.
        apply IH; [assumption |]. intros def' Hin. apply Hfree. right. assumption.
Qed.

Lemma badgeDefinitions_ids host dateParse :
  map defId (badgeDefinitions host dateParse)
  = ["firstTask"; "dailyCompletion"; "streak3"; "streak7"; "earlyBird"; "nightOwl";
     "taskMaster"; "prioritizer"; "organizer"; "weekendWarrior"]%string.
Proof. reflexivity. Qed.

Lemma badgeDefinitions_NoDup host dateParse :
  NoDup (map defId (badgeDefinitions host dateParse)).
Proof.
  rewrite badgeDefinitions_ids. apply (bool_decide_unpack _). vm_compute. exact I.
Qed.

(** X19: a run of [checkAllBadges] on a storage that takes writes grants
    exactly the badges of the catalogue that the current user does not
    hold and whose condition holds, in the order of the catalogue, each
    owned by the current user and earned now; the badges stored before
    stay, in front.  Each badge granted is announced when the
    notification manager of the page is set, and none is when it is
    not, as in the run that the constructor of the badge manager
    makes. *)
Theorem checkAllBadges_grants (host : Calendar.Host) (dateParse : string -> option Z)
    (now : Z) (present : bool) (d : Document) (notices : list Notice) :
  exists stats,
    getTaskStats now (storeOf false d) = (Return stats, storeOf false d)
    /\ checkAllBadges host dateParse now (badgeStateOn present false d notices)
       = (Return tt,
          badgeStateOn present false
            (withBadges d
               (badges d
                ++ map (granted now (currentUser d))
                       (toGrant now stats d (badgeDefinitions host dateParse))))
            (notices
             ++ if present
                then map (fun def => BadgeEarned (defTitle def))
                         (toGrant now stats d (badgeDefinitions host dateParse))
                else []))
    /\ init host dateParse now (badgeStateOn false false d [])
       = (Return tt,
          badgeStateOn false false
            (withBadges d
               (badges d
                ++ map (granted now (currentUser d))
                       (toGrant now stats d (badgeDefinitions host dateParse))))
            []).
Proof.
  eexists. split; [reflexivity |].
  unfold init, checkAllBadges, toGrant. split.
  - apply (forEach_checkBadge_grants present now _ _ (heldIds d)
             (badgeDefinitions host dateParse) (badgeDefinitions_NoDup host dateParse)
             d notices).
    intros def _ Hnot. apply owned_not_held. assumption.
  - apply (forEach_checkBadge_grants false now _ _ (heldIds d)
             (badgeDefinitions host dateParse) (badgeDefinitions_NoDup host dateParse)
             d []).
    intros def _ Hnot. apply owned_not_held. assumption.
Qed.

(** Dana's page is loaded on the afternoon of 10 March: the constructor
    of the badge manager stores the daily badge and shows nothing. *)
Example init_stores_unannounced :
  init Calendar.utcHost Calendar.parseISO march10Afternoon
    (badgeStateOn false false danaDocument [])
  = (Return tt, badgeStateOn false false danaAfterRun []).
Proof. vm_compute. reflexivity. Qed.

End AchievementFacts.

(** ** More of the reminder scheduler *)

Module SchedulerFacts.
Import StorageManager NotificationManager NotificationSpec Samples StorageFacts
  NotificationFacts.

(** *** Keys *)

Lemma chars_app s1 s2 :
  list_ascii_of_string (s1 +:+ s2) = list_ascii_of_string s1 ++ list_ascii_of_string s2.
Proof. induction s1 as [| c s1 IH]; simpl; [reflexivity | f_equal; exact IH]. Qed.

Lemma chars_inj s1 s2 : list_ascii_of_string s1 = list_ascii_of_string s2 -> s1 = s2.
Proof.
  intros H. rewrite <- (string_of_list_ascii_of_string s1), H.
  apply string_of_list_ascii_of_string.
Qed.

(** A key tells the task and the kind of reminder it stands for. *)
Lemma key_inj taskId taskId' k k' :
  key taskId k = key taskId' k' -> taskId = taskId' /\ k = k'.
Proof.
  unfold key. intros H. apply (f_equal list_ascii_of_string) in H.
  rewrite !chars_app in H.
  apply (f_equal (@rev ascii)) in H. rewrite !rev_app_distr in H.
  destruct k, k'; simpl in H; try discriminate;
    (split; [| reflexivity]);
    apply chars_inj; apply rev_inj;
    repeat (injection H as H); exact H.
Qed.

Lemma key_other taskId other k k' : other <> taskId -> key taskId k <> key other k'.
Proof. intros Hne H. apply key_inj in H as [-> _]. contradiction. Qed.

Lemma remindersOf_ext st1 st2 taskId :
  (forall k, scheduledNotifications st1 !! key taskId k
             = scheduledNotifications st2 !! key taskId k) ->
  remindersOf st1 taskId = remindersOf st2 taskId.
Proof.
  intros Hsame. unfold remindersOf. apply list_filter_iff. intros k. rewrite Hsame. tauto.
Qed.

Lemma remindersOf_none st taskId :
  (forall k, scheduledNotifications st !! key taskId k = None) ->
  remindersOf st taskId = [].
Proof.
  intros Hnone. unfold remindersOf. apply LedgerFacts.filter_none.
  apply Forall_forall. intros k _. rewrite Hnone. intros [? ?]. discriminate.
Qed.

(** *** Cancelling *)

Lemma afterCancel_other_key taskId other k st :
  other <> taskId ->
  scheduledNotifications (afterCancel taskId st) !! key other k
  = scheduledNotifications st !! key other k.
Proof.
  intros Hne. unfold afterCancel, afterCancelKey. cbn [scheduledNotifications].
  rewrite !lookup_delete_ne by (apply key_other; assumption). reflexivity.
Qed.

Lemma timers_afterCancelKey name st handle :
  timers (afterCancelKey name st) !! handle
  = if bool_decide (scheduledNotifications st !! name = Some handle) then None
    else timers st !! handle.
Proof.
  unfold afterCancelKey. cbn [timers].
  destruct (scheduledNotifications st !! name) as [h |] eqn:Hname.
  - case_bool_decide as Hh.
    + injection Hh as ->. apply lookup_delete_eq.
    + apply lookup_delete_ne. congruence.
  - rewrite bool_decide_eq_false_2 by discriminate. reflexivity.
Qed.

Lemma timers_afterCancel taskId st handle :
  ((exists k, scheduledNotifications st !! key taskId k = Some handle) ->
   timers (afterCancel taskId st) !! handle = None)
  /\ ((forall k, scheduledNotifications st !! key taskId k <> Some handle) ->
      timers (afterCancel taskId st) !! handle = timers st !! handle).
Proof.
  unfold afterCancel. rewrite !timers_afterCancelKey.
  assert (scheduledNotifications (afterCancelKey (key taskId OneHour) st)
            !! key taskId FiveMinutes
          = scheduledNotifications st !! key taskId FiveMinutes) as ->.
  { apply lookup_delete_ne. intros H. apply key_kind_inj in H. discriminate. }
  assert (scheduledNotifications
            (afterCancelKey (key taskId FiveMinutes)
               (afterCancelKey (key taskId OneHour) st))
            !! key taskId AtStart
          = scheduledNotifications st !! key taskId AtStart) as ->.
  { unfold afterCancelKey. cbn [scheduledNotifications].
    rewrite !lookup_delete_ne by (intros H; apply key_kind_inj in H; discriminate).
    reflexivity. }
  split.
  - intros [k Hk]. repeat case_bool_decide; try reflexivity. destruct k; congruence.
  - intros Hnone. rewrite !bool_decide_eq_false_2 by apply Hnone. reflexivity.
Qed.

(** X20: [cancelTaskNotifications] leaves the task without reminders and
    clears the host timers its keys led to; the reminders of every other
    task, and every other timer, are as before. *)
Theorem cancelTaskNotifications_only_own (taskId : string) (st : State) :
  exists st',
    cancelTaskNotifications taskId st = (Return tt, st')
    /\ remindersOf st' taskId = []
    /\ (forall k handle,
          scheduledNotifications st !! key taskId k = Some handle ->
          timers st' !! handle = None)
    /\ (forall other k,
          other <> taskId ->
          scheduledNotifications st' !! key other k
          = scheduledNotifications st !! key other k)
    /\ (forall handle,
          (forall k, scheduledNotifications st !! key taskId k <> Some handle) ->
          timers st' !! handle = timers st !! handle)
    /\ (storage st', nextTimer st') = (storage st, nextTimer st).
Proof.
  exists (afterCancel taskId st). split; [apply cancelTaskNotifications_run |].
  split; [apply remindersOf_none; intros k; apply lookup_afterCancel |].
  split.
  { intros k handle Hk. apply timers_afterCancel. eauto. }
  split; [intros other k Hne; apply afterCancel_other_key; assumption |].
  split; [| reflexivity].
  intros handle Hnone. apply timers_afterCancel. assumption.
Qed.

(** *** Scheduling one task among others *)

Lemma afterReminder_foreign_key now task start k other k' st :
  other <> id task ->
  scheduledNotifications (afterReminder now task start k st) !! key other k'
  = scheduledNotifications st !! key other k'.
Proof.
  intros Hne. unfold afterReminder. destruct start as [s |]; [| reflexivity].
  destruct (due now (Some s) k); [| reflexivity].
  cbn [scheduledNotifications]. apply lookup_insert_ne. apply key_other. assumption.
Qed.

Lemma afterSchedule_foreign_key now task start other k st :
  other <> id task ->
  scheduledNotifications (afterSchedule now task start st) !! key other k
  = scheduledNotifications st !! key other k.
Proof.
  intros Hne. unfold afterSchedule.
  rewrite !afterReminder_foreign_key by assumption.
  apply afterCancel_other_key. assumption.
Qed.

Lemma storage_afterReminder now task start k st :
  storage (afterReminder now task start k st) = storage st.
Proof.
  unfold afterReminder. destruct start as [s |]; [| reflexivity].
  destruct (due now (Some s) k); reflexivity.
Qed.

Lemma storage_afterSchedule now task start st :
  storage (afterSchedule now task start st) = storage st.
Proof. unfold afterSchedule. rewrite !storage_afterReminder. reflexivity. Qed.

(** X21: scheduling the reminders of one task touches no key of
    another: whatever reminders the other tasks have, they have after
    [scheduleTaskNotifications] too. *)
Theorem scheduleTaskNotifications_frame (dateParse : string -> option Z) (now : Z)
    (task : option Task) (st : State) :
  exists st',
    scheduleTaskNotifications dateParse now task st = (Return tt, st')
    /\ (forall other,
          Some other <> id <$> task -> remindersOf st' other = remindersOf st other)
    /\ storage st' = storage st.
Proof.
  destruct task as [task |]; [| exists st; repeat split].
  destruct (completed task) eqn:Hdone.
  - exists st. unfold scheduleTaskNotifications. rewrite Hdone. repeat split.
  - eexists. split; [apply scheduleTaskNotifications_run; assumption |].
    split; [| apply storage_afterSchedule].
    intros other Hother. apply remindersOf_ext. intros k.
    apply afterSchedule_foreign_key. simpl in Hother. congruence.
Qed.

(** *** The books of the scheduler *)

Lemma idle_tidy d : tidy (idle d).
Proof.
  unfold tidy, idle. cbn. repeat split.
  - rewrite lookup_empty in H. discriminate.
  - rewrite lookup_empty in H. discriminate.
  - intros name name' handle H. rewrite lookup_empty in H. discriminate.
  - intros handle [t H]. rewrite lookup_empty in H. discriminate.
Qed.

Lemma tidy_afterCancelKey name st : tidy st -> tidy (afterCancelKey name st).
Proof.
  intros (Hlive & Hinj & Hkeyed). unfold tidy, afterCancelKey.
  cbn [scheduledNotifications timers nextTimer].
  split; [| split].
  - intros name' handle. rewrite lookup_delete_Some. intros [Hne Hname'].
    destruct (Hlive _ _ Hname') as [Hsome Hlt]. split; [| assumption].
    destruct (scheduledNotifications st !! name) as [h0 |] eqn:Hname; [| assumption].
    rewrite lookup_delete_ne; [assumption |].
    intros ->. apply Hne. eapply Hinj; eassumption.
  - intros n1 n2 handle. rewrite !lookup_delete_Some. intros [_ H1] [_ H2].
    eapply Hinj; eassumption.
  - intros handle Hsome.
    destruct (scheduledNotifications st !! name) as [h0 |] eqn:Hname.
    + destruct (decide (h0 = handle)) as [-> | Hh].
      * rewrite lookup_delete_eq in Hsome. destruct Hsome; discriminate.
      * rewrite lookup_delete_ne in Hsome by assumption.
        destruct (Hkeyed _ Hsome) as [name' Hname']. exists name'.
        rewrite lookup_delete_Some. split; [| assumption]. congruence.
    + destruct (Hkeyed _ Hsome) as [name' Hname']. exists name'.
      rewrite lookup_delete_Some. split; [| assumption]. congruence.
Qed.

Lemma tidy_afterCancel taskId st : tidy st -> tidy (afterCancel taskId st).
Proof. intros H. unfold afterCancel. repeat apply tidy_afterCancelKey. assumption. Qed.

Lemma tidy_afterReminder now task start k st :
  scheduledNotifications st !! key (id task) k = None ->
  tidy st -> tidy (afterReminder now task start k st).
Proof.
  intros Hfree (Hlive & Hinj & Hkeyed). unfold afterReminder.
  destruct start as [s |]; [| exact (conj Hlive (conj Hinj Hkeyed))].
  destruct (due now (Some s) k); [| exact (conj Hlive (conj Hinj Hkeyed))].
  unfold tidy. cbn [scheduledNotifications timers nextTimer].
  split; [| split].
  - intros name handle. rewrite lookup_insert_Some.
    intros [[<- <-] | [Hne Hname]].
    + rewrite lookup_insert_eq. split; [eauto | lia].
    + destruct (Hlive _ _ Hname) as [Hsome Hlt].
      rewrite lookup_insert_ne by lia. split; [assumption | lia].
  - intros n1 n2 handle. rewrite !lookup_insert_Some.
    intros [[<- <-] | [Hne1 H1]] [[<- Heq] | [Hne2 H2]].
    + reflexivity.
    + destruct (Hlive _ _ H2). lia.
    + subst handle. destruct (Hlive _ _ H1). lia.
    + eapply Hinj; eassumption.
  - intros handle Hsome. destruct (decide (nextTimer st = handle)) as [<- | Hh].
    + exists (key (id task) k). apply lookup_insert_eq.
    + rewrite lookup_insert_ne in Hsome by assumption.
      destruct (Hkeyed _ Hsome) as [name Hname]. exists name.
      rewrite lookup_insert_ne; [assumption |]. congruence.
Qed.

Lemma tidy_afterSchedule now task start st :
  tidy st -> tidy (afterSchedule now task start st).
Proof.
  intros Htidy. unfold afterSchedule.
  apply tidy_afterReminder.
  { rewrite !afterReminder_other_key by discriminate. apply lookup_afterCancel. }
  apply tidy_afterReminder.
  { rewrite afterReminder_other_key by discriminate. apply lookup_afterCancel. }
  apply tidy_afterReminder; [apply lookup_afterCancel |].
  apply tidy_afterCancel. assumption.
Qed.

Lemma lookup_cleared (entries : list (string * nat)) (pending : gmap nat Timer) (handle : nat) :
  foldr (fun entry ts => delete entry.2 ts) pending entries !! handle
  = if bool_decide (handle ∈ entries.*2) then None else pending !! handle.
Proof.
  induction entries as [| [name h] entries IH]; [reflexivity |].
  cbn [foldr fmap list_fmap snd].
  destruct (decide (h = handle)) as [-> | Hh].
  - rewrite lookup_delete_eq, bool_decide_eq_true_2 by (left). reflexivity.
  - rewrite lookup_delete_ne, IH by assumption.
    rewrite (bool_decide_ext (handle ∈ entries.*2) (handle ∈ h :: entries.*2));
      [reflexivity |].
    rewrite elem_of_cons. split; [tauto |].
    intros [? | ?]; [congruence | assumption].
Qed.

Lemma clearAllNotifications_run st :
  clearAllNotifications st
  = (Return tt,
     {| storage := storage st; scheduledNotifications := ∅;
        timers := foldr (fun entry ts => delete entry.2 ts) (timers st)
                        (map_to_list (scheduledNotifications st));
        nextTimer := nextTimer st |}).
Proof. reflexivity. Qed.

Lemma forEach_schedule_tidy dateParse now (ts : list Task) st :
  tidy st ->
  exists st',
    forEach (fun task => scheduleTaskNotifications dateParse now (Some task)) ts st
    = (Return tt, st')
    /\ tidy st'.
Proof.
  revert st. induction ts as [| task ts IH]; intros st Htidy.
  - exists st. split; [reflexivity | assumption].
  - cbn [forEach]. unfold bind.
    destruct (completed task) eqn:Hdone.
    + unfold scheduleTaskNotifications at 1. rewrite Hdone. unfold ret. apply IH. assumption.
    + rewrite scheduleTaskNotifications_run by assumption.
      apply IH. apply tidy_afterSchedule. assumption.
Qed.

(** X22: the scheduler keeps its books in order.  From a state in which
    every key leads to a pending timer of its own and every pending
    timer is under a key, scheduling a task, cancelling one, clearing
    all and scheduling all lead to such a state again: no timer is left
    pending without a key to cancel it by.  Clearing all leaves no
    timer at all. *)
Theorem scheduler_stays_tidy (dateParse : string -> option Z) (now : Z) (st : State) :
  tidy st ->
  (forall task, exists st',
      scheduleTaskNotifications dateParse now task st = (Return tt, st') /\ tidy st')
  /\ (forall taskId, exists st',
        cancelTaskNotifications taskId st = (Return tt, st') /\ tidy st')
  /\ (exists st',
        clearAllNotifications st = (Return tt, st')
        /\ tidy st' /\ timers st' = ∅ /\ scheduledNotifications st' = ∅)
  /\ (forall full d,
        storage st = storeOf full d ->
        exists st', scheduleAllTaskNotifications dateParse now st = (Return tt, st')
                    /\ tidy st').
Proof.
  intros Htidy.
  assert (timers (snd (clearAllNotifications st)) = ∅) as Hnone.
  { apply map_eq. intros handle. rewrite clearAllNotifications_run. cbn [snd timers].
    rewrite lookup_cleared, lookup_empty. case_bool_decide as Hin; [reflexivity |].
    destruct (timers st !! handle) as [t |] eqn:Ht; [| reflexivity].
    exfalso. apply Hin. destruct Htidy as (_ & _ & Hkeyed).
    destruct (Hkeyed handle) as [name Hname]; [eauto |].
    apply list_elem_of_fmap. exists (name, handle). split; [reflexivity |].
    apply elem_of_map_to_list. assumption. }
  assert (tidy (snd (clearAllNotifications st))) as Hcleared.
  { unfold tidy. rewrite Hnone. rewrite clearAllNotifications_run.
    cbn [snd scheduledNotifications nextTimer]. repeat split.
    - rewrite lookup_empty in H. discriminate.
    - rewrite lookup_empty in H. discriminate.
    - intros name name' handle H. rewrite lookup_empty in H. discriminate.
    - intros handle [t H]. rewrite lookup_empty in H. discriminate. }
  split; [| split; [| split]].
  - intros [task |]; [| exists st; split; [reflexivity | assumption]].
    destruct (completed task) eqn:Hdone.
    + exists st. unfold scheduleTaskNotifications. rewrite Hdone.
      split; [reflexivity | assumption].
    + eexists. split; [apply scheduleTaskNotifications_run; assumption |].
      apply tidy_afterSchedule. assumption.
  - intros taskId. eexists. split; [apply cancelTaskNotifications_run |].
    apply tidy_afterCancel. assumption.
  - eexists. split; [apply clearAllNotifications_run |].
    rewrite clearAllNotifications_run in Hnone, Hcleared.
    split; [exact Hcleared | split; [exact Hnone | reflexivity]].
  - intros full d Hstorage. unfold scheduleAllTaskNotifications.
    unfold bind at 1. unfold onStorage. rewrite Hstorage, getTasks_storeOf.
    unfold bind at 1. rewrite clearAllNotifications_run.
    apply forEach_schedule_tidy.
    rewrite clearAllNotifications_run in Hcleared. cbn [snd] in Hcleared.
    destruct st as [sto sch tms nxt]. cbn [storage] in Hstorage. subst sto.
    exact Hcleared.
Qed.

Lemma scheduler_stays_tidy_witness :
  exists st',
    scheduleTaskNotifications Calendar.parseISO halfPastTwo (Some standup) (idle aliceDay)
    = (Return tt, st')
    /\ tidy st'.
Proof.
  apply (scheduler_stays_tidy Calendar.parseISO halfPastTwo (idle aliceDay)).
  apply idle_tidy.
Defined.

(** *** Scheduling all *)

Lemma forEach_schedule_reminders dateParse now (ts : list Task) :
  NoDup (map id ts) ->
  Forall (fun task => completed task = false) ts ->
  forall st,
  exists st',
    forEach (fun task => scheduleTaskNotifications dateParse now (Some task)) ts st
    = (Return tt, st')
    /\ (forall task,
          task ∈ ts ->
          remindersOf st' (id task)
          = filter (fun k => due now (dateParse (date task +:+ "T" +:+ startTime task)%string) k
                             = true)
                   [OneHour; FiveMinutes; AtStart])
    /\ (forall other, other ∉ map id ts -> remindersOf st' other = remindersOf st other).
Proof.
  induction ts as [| task ts IH]; intros Hnodup Hpending st.
  - exists st. split; [reflexivity |]. split; [| reflexivity].
    intros task Hin. apply elem_of_nil in Hin. contradiction.
  - cbn [map] in Hnodup. apply NoDup_cons in Hnodup as [Hfresh Hnodup].
    apply Forall_cons in Hpending as [Htask Hpending].
    set (start := dateParse (date task +:+ "T" +:+ startTime task)%string).
    destruct (IH Hnodup Hpending (afterSchedule now task start st))
      as (st' & Hrun & Hlisted & Hothers).
    exists st'. split.
    { cbn [forEach]. unfold bind. rewrite scheduleTaskNotifications_run by assumption.
      exact Hrun. }
    split.
    + intros task' Hin. apply elem_of_cons in Hin as [-> | Hin]; [| apply Hlisted; assumption].
      rewrite Hothers by assumption. apply remindersOf_afterSchedule.
    + intros other Hother. cbn [map] in Hother. apply not_elem_of_cons in Hother as [Hne Hother].
      rewrite Hothers by assumption. apply remindersOf_ext. intros k.
      apply afterSchedule_foreign_key. assumption.
Qed.

(** X23: when the pending tasks of the current user have ids of their
    own, [scheduleAllTaskNotifications] leaves each of them with
    exactly the reminders that are still ahead for its start, and every
    other id, a completed task's or another user's, with none. *)
Theorem scheduleAllTaskNotifications_reminders (dateParse : string -> option Z) (now : Z)
    (full : bool) (d : Document) (scheduled : gmap string nat) (pending : gmap nat Timer)
    (next : nat) :
  let pendingTasks :=
    filter (fun task => completed task = false)
           (filter (fun task => userId task = currentUser d) (tasks d)) in
  NoDup (map id pendingTasks) ->
  exists st',
    scheduleAllTaskNotifications dateParse now
      {| storage := storeOf full d; scheduledNotifications := scheduled;
         timers := pending; nextTimer := next |}
    = (Return tt, st')
    /\ (forall task,
          task ∈ pendingTasks ->
          remindersOf st' (id task)
          = filter (fun k => due now (dateParse (date task +:+ "T" +:+ startTime task)%string) k
                             = true)
                   [OneHour; FiveMinutes; AtStart])
    /\ (forall other, other ∉ map id pendingTasks -> remindersOf st' other = []).
Proof.
  intros pendingTasks Hnodup.
  unfold scheduleAllTaskNotifications.
  unfold bind at 1. unfold onStorage. cbn [storage]. rewrite getTasks_storeOf.
  unfold bind at 1. rewrite clearAllNotifications_run.
  fold pendingTasks.
  destruct (forEach_schedule_reminders dateParse now pendingTasks Hnodup
              (LedgerFacts.Forall_filter_holds _ _)
              {| storage := storeOf full d; scheduledNotifications := ∅;
                 timers := foldr (fun entry ts => delete entry.2 ts) pending
                                 (map_to_list scheduled);
                 nextTimer := next |})
    as (st' & Hrun & Hlisted & Hothers).
  exists st'. split; [exact Hrun |]. split; [exact Hlisted |].
  intros other Hother. rewrite Hothers by assumption.
  apply remindersOf_none. intros k. apply lookup_empty.
Qed.

Lemma scheduleAllTaskNotifications_reminders_witness :
  exists st',
    scheduleAllTaskNotifications Calendar.parseISO halfPastTwo (idle aliceDay) = (Return tt, st')
    /\ (forall task,
          task ∈ filter (fun task => completed task = false)
                        (filter (fun task => userId task = currentUser aliceDay)
                                (tasks aliceDay)) ->
          remindersOf st' (id task)
          = filter (fun k => due halfPastTwo
                               (Calendar.parseISO
                                  (date task +:+ "T" +:+ startTime task)%string) k = true)
                   [OneHour; FiveMinutes; AtStart])
    /\ (forall other,
          other ∉ map id (filter (fun task => completed task = false)
                                 (filter (fun task => userId task = currentUser aliceDay)
                                         (tasks aliceDay))) ->
          remindersOf st' other = []).
Proof.
  apply (scheduleAllTaskNotifications_reminders Calendar.parseISO halfPastTwo false aliceDay
           ∅ ∅ 0).
  apply (bool_decide_unpack _). vm_compute. exact I.
Defined.

End SchedulerFacts.

(** * The page: the handlers of the task manager *)

Module PageFacts.
Import StorageManager NotificationSpec BadgeSpec PageSpec Samples TaskManager.
Import StorageFacts BadgeFacts NotificationFacts.

(** *** Calls into the managers *)

Lemma onStorage_run {A} (m : M Store A) app r s' :
  m (storage app) = (r, s') -> onStorage m app = (r, withStorage app s').
Proof. intros H. unfold onStorage. rewrite H. reflexivity. Qed.

Lemma onScheduler_run {A} (m : M NotificationManager.State A) app r st' :
  m (schedulerOf app) = (r, st') -> onScheduler m app = (r, withScheduler app st').
Proof. intros H. unfold onScheduler. rewrite H. reflexivity. Qed.

Lemma onBadges_run {A} (m : M BadgeManager.State A) app full d r d' notices :
  storage app = storeOf full d ->
  m (badgeState full d []) = (r, badgeState full d' notices) ->
  onBadges m app
  = (r, withShown (withStorage app (storeOf full d')) (shown app ++ map FromBadges notices)).
Proof.
  intros Hs H. unfold onBadges. rewrite Hs. unfold badgeState, badgeStateOn in H.
  rewrite H. reflexivity.
Qed.

Lemma schedulerOf_withScheduler app st : schedulerOf (withScheduler app st) = st.
Proof. destruct st. reflexivity. Qed.

Lemma withStorage_same app : withStorage app (storage app) = app.
Proof. destruct app. reflexivity. Qed.

(** *** What the badge checks leave alone *)

Lemma awardBadge_frame now def full d notices :
  exists d' notices',
    BadgeManager.awardBadge now def (badgeState full d notices)
    = (Return tt, badgeState full d' notices')
    /\ tasks d' = tasks d /\ currentUser d' = currentUser d /\ (full = true -> d' = d).
Proof.
  rewrite awardBadge_run. destruct (owned _ _ _).
  - eexists _, _. split; [reflexivity |].
    destruct full; cbn; repeat split; auto; discriminate.
  - eexists _, _. split; [reflexivity |]. auto.
Qed.

Lemma forEach_checkBadge_frame now stats ts held (defs : list BadgeManager.BadgeDefinition)
    full d notices :
  exists d' notices',
    forEach (BadgeManager.checkBadge now stats ts held) defs (badgeState full d notices)
    = (Return tt, badgeState full d' notices')
    /\ tasks d' = tasks d /\ currentUser d' = currentUser d /\ (full = true -> d' = d).
Proof.
  revert d notices. induction defs as [| def defs IH]; intros d notices.
  - exists d, notices. cbn. auto.
  - assert (exists d1 notices1,
               BadgeManager.checkBadge now stats ts held def (badgeState full d notices)
               = (Return tt, badgeState full d1 notices1)
               /\ tasks d1 = tasks d /\ currentUser d1 = currentUser d
               /\ (full = true -> d1 = d)) as (d1 & notices1 & Hrun & Ht & Hu & Hf).
    { unfold BadgeManager.checkBadge. case_bool_decide.
      - exists d, notices. auto.
      - destruct (BadgeManager.condition def now stats ts).
        + apply awardBadge_frame.
        + exists d, notices. auto. }
    destruct (IH d1 notices1) as (d2 & notices2 & Hrest & Ht2 & Hu2 & Hf2).
    exists d2, notices2. cbn [forEach]. unfold bind. rewrite Hrun.
    split; [exact Hrest |]. repeat split; try congruence.
    intros Hfull. rewrite Hf2, Hf by assumption. reflexivity.
Qed.

Lemma checkAllBadges_frame host dateParse now full d notices :
  exists d' notices',
    BadgeManager.checkAllBadges host dateParse now (badgeState full d notices)
    = (Return tt, badgeState full d' notices')
    /\ tasks d' = tasks d /\ currentUser d' = currentUser d /\ (full = true -> d' = d).
Proof.
  unfold BadgeManager.checkAllBadges.
  apply (forEach_checkBadge_frame now _ _ _ (BadgeManager.badgeDefinitions host dateParse)
           full d notices).
Qed.

Lemma checkDailyCompletionBadge_frame now full d notices :
  exists d' notices',
    BadgeManager.checkDailyCompletionBadge now (badgeState full d notices)
    = (Return tt, badgeState full d' notices')
    /\ tasks d' = tasks d /\ currentUser d' = currentUser d /\ (full = true -> d' = d).
Proof.
  rewrite checkDailyCompletionBadge_run.
  destruct (_ && _); [| exists d, notices; auto].
  destruct (todayBadge now d); [exists d, notices; auto |].
  unfold bind.
  destruct (awardBadge_frame now BadgeManager.dailyCompletion full d notices)
    as (d' & notices' & -> & Ht & Hu & Hf).
  exists d', (notices' ++ [BadgeManager.DailyGoalsAchieved]). auto.
Qed.

(** *** Completing a task *)

(** X24: [completeTask] of the page, over a stored document.  An id
    that no stored task has changes nothing and shows nothing.  For the
    id of a stored task the first task under that id is completed, the
    page announces its completion, then runs [checkAllBadges] on the
    document so changed and [checkDailyCompletionBadge] on what that
    leaves: what the page holds and has shown in the end is what the
    two checks, run in that order, store and announce.  No reminder is
    left under the id, the reminders of the other ids being as they
    were.  When the host refuses the writes all of this still happens,
    while the stored document stays as it was, the task pending. *)
Theorem completeTask_page (host : Calendar.Host) (dateParse : string -> option Z)
    (done checked daily : Z) (taskId : string) (full : bool) (d : Document) (app : App) :
  storage app = storeOf full d ->
  (findIndex taskId (tasks d) = None ->
   completeTask host dateParse done checked daily taskId app = (Return tt, app))
  /\ (forall i,
        findIndex taskId (tasks d) = Some i ->
        exists app' old d1 notices1 d2 notices2,
          completeTask host dateParse done checked daily taskId app = (Return tt, app')
          /\ tasks d !! i = Some old
          /\ BadgeManager.checkAllBadges host dateParse checked
               (badgeState full
                  (if full then d
                   else withTasks d (<[i := merge old (completion done)]> (tasks d)))
                  [])
             = (Return tt, badgeState full d1 notices1)
          /\ BadgeManager.checkDailyCompletionBadge daily (badgeState full d1 [])
             = (Return tt, badgeState full d2 notices2)
          /\ storage app' = storeOf full d2
          /\ (full = true -> d2 = d)
          /\ tasks d2
             = (if full then tasks d
                else <[i := merge old (completion done)]> (tasks d))
          /\ shown app'
             = shown app
               ++ TaskCompleted (title old) :: map FromBadges (notices1 ++ notices2)
          /\ NotificationManager.remindersOf (schedulerOf app') taskId = []
          /\ (forall other,
                other <> taskId ->
                NotificationManager.remindersOf (schedulerOf app') other
                = NotificationManager.remindersOf (schedulerOf app) other)).
Proof.
  intros Hs. split.
  - intros Hnone. unfold completeTask, bind.
    rewrite (onStorage_run _ app (Return None) (storage app)).
    + rewrite withStorage_same. reflexivity.
    + rewrite Hs. apply updateTask_missing. assumption.
  - intros i Hi.
    destruct (findIndex_lookup _ _ _ Hi) as (old & Hold & Hid).
    set (d0 := if full then d
               else withTasks d (<[i := merge old (completion done)]> (tasks d))).
    assert (StorageManager.completeTask done taskId (storage app)
            = (Return (Some (merge old (completion done))), storeOf full d0)) as Hrun.
    { rewrite Hs. unfold StorageManager.completeTask.
      rewrite (updateTask_found full d taskId _ i Hi), list_lookup_alter, Hold.
      rewrite decide_True by reflexivity.
      rewrite (list_alter_at (fun t => merge t (completion done)) (tasks d) i old Hold).
      reflexivity. }
    unfold completeTask. unfold bind at 1. rewrite (onStorage_run _ _ _ _ Hrun).
    cbn [title merge completion upTitle default].
    unfold bind at 1, show, modify.
    set (app2 := withShown _ _).
    destruct (checkAllBadges_frame host dateParse checked full d0 [])
      as (d1 & n1 & Hcheck & Ht1 & Hu1 & Hf1).
    unfold bind at 1. rewrite (onBadges_run _ app2 full d0 _ d1 n1 eq_refl Hcheck).
    set (app3 := withShown _ _).
    destruct (checkDailyCompletionBadge_frame daily full d1 [])
      as (d2 & n2 & Hdaily & Ht2 & Hu2 & Hf2).
    unfold bind at 1. rewrite (onBadges_run _ app3 full d1 _ d2 n2 eq_refl Hdaily).
    set (app4 := withShown _ _).
    rewrite (onScheduler_run _ app4 _ _ (cancelTaskNotifications_run taskId _)).
    eexists _, old, d1, n1, d2, n2. split; [reflexivity |].
    split; [assumption |].
    split; [exact Hcheck |]. split; [exact Hdaily |].
    split; [reflexivity |].
    split.
    { intros Hfull. rewrite (Hf2 Hfull), (Hf1 Hfull). subst d0. rewrite Hfull. reflexivity. }
    split.
    { rewrite Ht2, Ht1. subst d0. destruct full; reflexivity. }
    split.
    { cbn [shown withScheduler app4 app3 app2 withShown withStorage].
      rewrite map_app, <- !app_assoc. reflexivity. }
    rewrite schedulerOf_withScheduler.
    split.
    + apply SchedulerFacts.remindersOf_none. intros k. apply lookup_afterCancel.
    + intros other Hother. apply SchedulerFacts.remindersOf_ext. intros k.
      rewrite SchedulerFacts.afterCancel_other_key by assumption. reflexivity.
Qed.

Lemma completeTask_page_witness :
  exists app' old d1 notices1 d2 notices2,
    completeTask Calendar.utcHost Calendar.parseISO halfPastTwo halfPastTwo halfPastTwo
      "ltlm3n9fk2x9" (pageOf false aliceDay)
    = (Return tt, app')
    /\ tasks aliceDay !! 0%nat = Some old
    /\ BadgeManager.checkAllBadges Calendar.utcHost Calendar.parseISO halfPastTwo
         (badgeState false
            (withTasks aliceDay
               (<[0%nat := merge old (completion halfPastTwo)]> (tasks aliceDay)))
            [])
       = (Return tt, badgeState false d1 notices1)
    /\ BadgeManager.checkDailyCompletionBadge halfPastTwo (badgeState false d1 [])
       = (Return tt, badgeState false d2 notices2)
    /\ storage app' = storeOf false d2
    /\ (false = true -> d2 = aliceDay)
    /\ tasks d2 = <[0%nat := merge old (completion halfPastTwo)]> (tasks aliceDay)
    /\ shown app'
       = shown (pageOf false aliceDay)
         ++ TaskCompleted (title old) :: map FromBadges (notices1 ++ notices2)
    /\ NotificationManager.remindersOf (schedulerOf app') "ltlm3n9fk2x9" = []
    /\ (forall other,
          other <> "ltlm3n9fk2x9"%string ->
          NotificationManager.remindersOf (schedulerOf app') other
          = NotificationManager.remindersOf (schedulerOf (pageOf false aliceDay)) other).
Proof.
  apply (proj2 (completeTask_page Calendar.utcHost Calendar.parseISO halfPastTwo halfPastTwo
                  halfPastTwo "ltlm3n9fk2x9" false aliceDay (pageOf false aliceDay) eq_refl)
           0%nat).
  reflexivity.
Defined.

(** Alice completes the stand-up: with the retrospective done before, all
    the tasks of the day are completed, and the page announces the
    completion and the two badges that the first check grants; the
    second check finds the daily badge of the first and adds nothing. *)
Example alice_completes_the_stand_up :
  shown (snd (completeTask Calendar.utcHost Calendar.parseISO halfPastTwo halfPastTwo
                halfPastTwo "ltlm3n9fk2x9" (pageOf false aliceDay)))
  = [TaskCompleted "Stand-up"; FromBadges (BadgeManager.BadgeEarned "Getting Started");
     FromBadges (BadgeManager.BadgeEarned "Daily Champion")].
Proof. vm_compute. reflexivity. Qed.

(** *** The announcement of the daily goal *)

Lemma held_owned (d : Document) (bid : string) :
  bid ∈ heldIds d -> owned bid (currentUser d) (badges d) <> 0%nat.
Proof.
  unfold heldIds, owned. intros Hin Hzero.
  apply list_elem_of_fmap in Hin as (b & -> & Hb).
  apply list_elem_of_filter in Hb as [Howner Hb].
  apply nil_length_inv in Hzero.
  apply (filter_nil_not_elem_of _ _ b Hzero); [split; [reflexivity | assumption] | assumption].
Qed.

Lemma checkAllBadges_run host dateParse now d notices :
  exists stats,
    BadgeManager.checkAllBadges host dateParse now (badgeState false d notices)
    = (Return tt,
       badgeState false
         (withBadges d
            (badges d
             ++ map (granted now (currentUser d))
                    (toGrant now stats d (BadgeManager.badgeDefinitions host dateParse))))
         (notices
          ++ map (fun def => BadgeManager.BadgeEarned (BadgeManager.defTitle def))
                 (toGrant now stats d (BadgeManager.badgeDefinitions host dateParse)))).
Proof.
  eexists. unfold BadgeManager.checkAllBadges, toGrant.
  apply (AchievementFacts.forEach_checkBadge_grants true now _ _ (heldIds d)
           (BadgeManager.badgeDefinitions host dateParse)
           (AchievementFacts.badgeDefinitions_NoDup host dateParse) d notices).
  intros def _ Hnot. apply AchievementFacts.owned_not_held. assumption.
Qed.

Lemma no_daily_notice taskTitle (earned : list BadgeManager.BadgeDefinition) :
  FromBadges BadgeManager.DailyGoalsAchieved
  ∉ TaskCompleted taskTitle
    :: map FromBadges
         (map (fun def => BadgeManager.BadgeEarned (BadgeManager.defTitle def)) earned ++ []).
Proof.
  rewrite app_nil_r. intros Hin. apply elem_of_cons in Hin as [Hin | Hin]; [discriminate |].
  apply list_elem_of_fmap in Hin as (notice & [= <-] & Hin).
  apply list_elem_of_fmap in Hin as (def & Hdef & _). discriminate.
Qed.

(** X25: [completeTask] of the page over a storage that takes writes,
    when its two badge checks read the clock on the same day.  It
    returns; and when it shows the notification of the daily goal,
    which tells the user that a new badge was earned, the user held the
    daily badge before the call and the badges stored under the id
    [dailyCompletion] are those stored before: the announcement is made
    only when no daily badge is granted. *)
Theorem daily_goal_announced_without_badge (host : Calendar.Host)
    (dateParse : string -> option Z) (done checked daily : Z) (taskId : string)
    (d : Document) (app : App) :
  storage app = storeOf false d ->
  Calendar.isoDate checked = Calendar.isoDate daily ->
  exists app' d' news,
    completeTask host dateParse done checked daily taskId app = (Return tt, app')
    /\ storage app' = storeOf false d'
    /\ shown app' = shown app ++ news
    /\ (FromBadges BadgeManager.DailyGoalsAchieved ∈ news ->
        (1 <= owned "dailyCompletion" (currentUser d) (badges d))%nat
        /\ filter (fun badge => badgeId badge = "dailyCompletion"%string) (badges d')
           = filter (fun badge => badgeId badge = "dailyCompletion"%string) (badges d)).
Proof.
  intros Hs Hday.
  destruct (findIndex taskId (tasks d)) as [i |] eqn:Hi.
  2:{ exists app, d, []. split.
      - unfold completeTask, bind.
        rewrite (onStorage_run _ app (Return None) (storage app)).
        + rewrite withStorage_same. reflexivity.
        + rewrite Hs. apply updateTask_missing. assumption.
      - split; [assumption |]. split; [rewrite app_nil_r; reflexivity |].
        intros Hin. apply elem_of_nil in Hin. contradiction. }
  destruct (findIndex_lookup _ _ _ Hi) as (old & Hold & Hid).
  set (d1 := withTasks d (alter (fun t => merge t (completion done)) i (tasks d))).
  assert (StorageManager.completeTask done taskId (storage app)
          = (Return (Some (merge old (completion done))), storeOf false d1)) as Hrun.
  { rewrite Hs. unfold StorageManager.completeTask.
    rewrite (updateTask_found false d taskId _ i Hi), list_lookup_alter, Hold.
    rewrite decide_True by reflexivity. reflexivity. }
  unfold completeTask. unfold bind at 1. rewrite (onStorage_run _ _ _ _ Hrun).
  cbn [title merge completion upTitle default].
  unfold bind at 1, show, modify.
  set (app2 := withShown _ _).
  destruct (checkAllBadges_run host dateParse checked d1 []) as (stats & Hcheck).
  set (earned := toGrant checked stats d1 (BadgeManager.badgeDefinitions host dateParse))
    in Hcheck.
  set (d2 := withBadges d1 (badges d1 ++ map (granted checked (currentUser d1)) earned))
    in Hcheck.
  unfold bind at 1. rewrite (onBadges_run _ app2 false d1 _ d2 _ eq_refl Hcheck).
  set (app3 := withShown _ _).
  assert (forall d3 n3,
             BadgeManager.checkDailyCompletionBadge daily (badgeState false d2 [])
             = (Return tt, badgeState false d3 n3) ->
             exists app',
               (onBadges (BadgeManager.checkDailyCompletionBadge daily) ;;;
                onScheduler (NotificationManager.cancelTaskNotifications taskId)) app3
               = (Return tt, app')
               /\ storage app' = storeOf false d3
               /\ shown app'
                  = shown app
                    ++ TaskCompleted (title old)
                       :: map FromBadges
                            (map (fun def => BadgeManager.BadgeEarned
                                               (BadgeManager.defTitle def)) earned
                             ++ n3)) as Hrest.
  { intros d3 n3 Hdaily. unfold bind.
    rewrite (onBadges_run _ app3 false d2 _ d3 n3 eq_refl Hdaily).
    set (app4 := withShown _ _).
    rewrite (onScheduler_run _ app4 _ _ (cancelTaskNotifications_run taskId _)).
    eexists. split; [reflexivity |]. split; [reflexivity |].
    cbn [shown withScheduler app4 app3 app2 withShown withStorage].
    rewrite app_nil_l, map_app, <- !app_assoc. reflexivity. }
  pose proof (checkDailyCompletionBadge_run daily false d2 []) as Hdaily.
  assert (todayTasks daily d2
          = filter (fun task => date task = Calendar.isoDate checked)
                   (filter (fun task => userId task = currentUser d1) (tasks d1))) as Htoday.
  { unfold todayTasks. rewrite Hday. reflexivity. }
  assert ("dailyCompletion"%string ∉ heldIds d1 ->
          (0 <? length (todayTasks daily d2))%nat
          && forallb completed (todayTasks daily d2) = true ->
          BadgeManager.dailyCompletion ∈ earned) as Hgrant.
  { intros Hfree Hall. apply list_elem_of_filter. split.
    - split; [exact Hfree |]. rewrite Htoday in Hall. exact Hall.
    - right. left. }
  destruct ((0 <? length (todayTasks daily d2))%nat
            && forallb completed (todayTasks daily d2)) eqn:Hall.
  2:{ destruct (Hrest d2 [] Hdaily) as (app' & Happ & Hst & Hsh).
      eexists app', d2, _. split; [exact Happ |]. split; [exact Hst |].
      split; [exact Hsh |]. intros Hin. apply no_daily_notice in Hin. contradiction. }
  destruct (todayBadge daily d2) as [badge |] eqn:Hbadge.
  { destruct (Hrest d2 [] Hdaily) as (app' & Happ & Hst & Hsh).
    eexists app', d2, _. split; [exact Happ |]. split; [exact Hst |].
    split; [exact Hsh |]. intros Hin. apply no_daily_notice in Hin. contradiction. }
  assert ("dailyCompletion"%string ∈ heldIds d1) as Hheld.
  { destruct (decide ("dailyCompletion"%string ∈ heldIds d1)) as [Hyes | Hno];
      [assumption | exfalso].
    specialize (Hgrant Hno eq_refl).
    unfold todayBadge in Hbadge.
    pose proof (find_none _ _ Hbadge (granted checked (currentUser d1)
                                        BadgeManager.dailyCompletion)) as Hnone.
    cbn [badgeId earnedAt granted BadgeManager.defId BadgeManager.dailyCompletion] in Hnone.
    rewrite bool_decide_eq_true_2 in Hnone by reflexivity.
    rewrite bool_decide_eq_true_2 in Hnone by exact Hday.
    assert (true && true = false) as Habs; [| discriminate Habs].
    apply Hnone. apply list_elem_of_In. apply list_elem_of_filter. split; [reflexivity |].
    cbn [badges d2 withBadges]. apply elem_of_app. right.
    apply list_elem_of_fmap. exists BadgeManager.dailyCompletion. split; [reflexivity | exact Hgrant]. }
  assert (filter (fun badge => badgeId badge = "dailyCompletion"%string) (badges d2)
          = filter (fun badge => badgeId badge = "dailyCompletion"%string) (badges d))
    as Hsame.
  { cbn [badges d2 d1 withBadges withTasks]. rewrite filter_app.
    rewrite (LedgerFacts.filter_none _ (map _ earned)); [apply app_nil_r |].
    apply Forall_forall. intros badge Hin Hid'.
    apply list_elem_of_fmap in Hin as (def & -> & Hdef).
    apply list_elem_of_filter in Hdef as [[Hfree _] _].
    apply Hfree. cbn [badgeId granted] in Hid'. rewrite Hid'. exact Hheld. }
  apply held_owned in Hheld.
  unfold bind at 1 in Hdaily. rewrite awardBadge_run in Hdaily.
  cbn [BadgeManager.defId BadgeManager.dailyCompletion] in Hdaily.
  assert (owned "dailyCompletion" (currentUser d2) (badges d2) <> 0%nat) as Hstill.
  { cbn [badges d2 withBadges currentUser]. unfold owned. rewrite filter_app, length_app.
    unfold owned in Hheld. lia. }
  destruct (owned "dailyCompletion" (currentUser d2) (badges d2)); [contradiction |].
  destruct (Hrest d2 [BadgeManager.DailyGoalsAchieved] Hdaily) as (app' & Happ & Hst & Hsh).
  eexists app', d2, _. split; [exact Happ |]. split; [exact Hst |].
  split; [exact Hsh |]. intros _. split; [| exact Hsame].
  cbn [badges d1 withTasks currentUser] in Hheld. lia.
Qed.

Lemma daily_goal_announced_without_badge_witness :
  exists app' d' news,
    completeTask Calendar.utcHost Calendar.parseISO march11Evening march11Evening
      march11Evening "t2" (pageOf false carolDocument)
    = (Return tt, app')
    /\ storage app' = storeOf false d'
    /\ shown app' = shown (pageOf false carolDocument) ++ news
    /\ (FromBadges BadgeManager.DailyGoalsAchieved ∈ news ->
        (1 <= owned "dailyCompletion" (currentUser carolDocument) (badges carolDocument))%nat
        /\ filter (fun badge => badgeId badge = "dailyCompletion"%string) (badges d')
           = filter (fun badge => badgeId badge = "dailyCompletion"%string)
                    (badges carolDocument)).
Proof.
  apply (daily_goal_announced_without_badge Calendar.utcHost Calendar.parseISO
           march11Evening march11Evening march11Evening "t2" carolDocument
           (pageOf false carolDocument)); reflexivity.
Defined.

(** Carol, who holds the daily badge of 10 March, completes the task of
    11 March in the evening: the page announces the completion, the
    first-task badge and the daily goal. *)
Example carol_completes_on_the_second_day :
  shown (snd (completeTask Calendar.utcHost Calendar.parseISO march11Evening
                march11Evening march11Evening "t2" (pageOf false carolDocument)))
  = [TaskCompleted "Task"; FromBadges (BadgeManager.BadgeEarned "Getting Started");
     FromBadges BadgeManager.DailyGoalsAchieved].
Proof. vm_compute. reflexivity. Qed.

(** *** Adding a task *)

Lemma refusal_accepted (form : TaskForm) :
  refusal (Js.trim (formTitle form)) (formDate form) (formStartTime form) (formEndTime form)
  = None
  <-> accepted form.
Proof.
  unfold refusal, accepted, isEmpty.
  repeat case_bool_decide; cbn [orb];
    try (split; [discriminate | intros (? & ? & ? & ? & ?); contradiction]).
  destruct (String.ltb _ _); cbn [negb].
  - split; [intros _; auto | reflexivity].
  - split; [discriminate | intros (_ & _ & _ & _ & ?); discriminate].
Qed.

Lemma refusal_alert (form : TaskForm) :
  ~ accepted form ->
  exists message,
    refusal (Js.trim (formTitle form)) (formDate form) (formStartTime form) (formEndTime form)
    = Some message.
Proof.
  intros Hno. destruct (refusal _ _ _ _) as [message |] eqn:Hr; [eauto |].
  apply refusal_accepted in Hr. contradiction.
Qed.



Example trim_title : Js.trim (formTitle callForm) = "Call the bank"%string.
Proof. reflexivity. Qed.

(** *** Editing a task *)

(** X27: [handleEditTask] over a stored document.  A form that fails
    the checks gets an alert and nothing else happens; a form that
    passes them, for an id that no stored task has, changes nothing and
    shows nothing.  Otherwise the first stored task under the id takes
    the values of the form, the title and the description trimmed, and
    keeps its id, its owner and its completion; its reminders are set
    anew from the start of the form, those that are still ahead, or not
    at all when the task is completed, and the reminders of the other
    ids stay.  When the host refuses the write the reminders follow the
    form all the same. *)
Theorem handleEditTask_reschedules (dateParse : string -> option Z) (scheduledAt : Z)
    (taskId : string) (form : TaskForm) (full : bool) (d : Document) (app : App) :
  storage app = storeOf full d ->
  (~ accepted form ->
   exists message,
     handleEditTask dateParse scheduledAt taskId form app
     = (Return tt, withShown app (shown app ++ [Alert message])))
  /\ (accepted form ->
      findIndex taskId (tasks d) = None ->
      handleEditTask dateParse scheduledAt taskId form app = (Return tt, app))
  /\ (accepted form ->
      forall i,
        findIndex taskId (tasks d) = Some i ->
        exists app' d' old,
          handleEditTask dateParse scheduledAt taskId form app = (Return tt, app')
          /\ tasks d !! i = Some old
          /\ storage app' = storeOf full d'
          /\ d' = (if full then d
                   else withTasks d (<[i := merge old (formUpdates form)]> (tasks d)))
          /\ shown app' = shown app
          /\ NotificationManager.remindersOf (schedulerOf app') taskId
             = (if completed old then []
                else filter (fun k => due scheduledAt
                                        (dateParse (formDate form +:+ "T"
                                                    +:+ formStartTime form)%string)
                                        k = true)
                            [NotificationManager.OneHour; NotificationManager.FiveMinutes;
                             NotificationManager.AtStart])
          /\ (forall other,
                other <> taskId ->
                NotificationManager.remindersOf (schedulerOf app') other
                = NotificationManager.remindersOf (schedulerOf app) other)).
Proof.
  intros Hs. split; [| split].
  - intros Hno. destruct (refusal_alert form Hno) as (message & Hr).
    exists message. unfold handleEditTask. rewrite Hr. reflexivity.
  - intros Hyes Hnone. apply refusal_accepted in Hyes.
    unfold handleEditTask. rewrite Hyes. fold (formUpdates form). unfold bind.
    rewrite (onStorage_run _ app (Return None) (storage app)).
    + rewrite withStorage_same. reflexivity.
    + rewrite Hs. apply updateTask_missing. assumption.
  - intros Hyes i Hi. apply refusal_accepted in Hyes.
    destruct (findIndex_lookup _ _ _ Hi) as (old & Hold & Hid).
    set (edited := merge old (formUpdates form)).
    set (d1 := if full then d else withTasks d (<[i := edited]> (tasks d))).
    assert (updateTask taskId (formUpdates form) (storage app)
            = (Return (Some edited), storeOf full d1)) as Hrun.
    { rewrite Hs, (updateTask_found full d taskId _ i Hi), list_lookup_alter, Hold.
      rewrite decide_True by reflexivity.
      rewrite (list_alter_at (fun t => merge t (formUpdates form)) (tasks d) i old Hold).
      reflexivity. }
    unfold handleEditTask. rewrite Hyes. fold (formUpdates form).
    unfold bind at 1. rewrite (onStorage_run _ _ _ _ Hrun).
    set (app1 := withStorage _ _).
    unfold bind at 1.
    rewrite (onScheduler_run _ app1 _ _ (cancelTaskNotifications_run taskId _)).
    rewrite <- Hid.
    destruct (completed old) eqn:Hdone.
    + assert (NotificationManager.scheduleTaskNotifications dateParse scheduledAt
                (Some edited)
                (schedulerOf (withScheduler app1 (afterCancel (id old) (schedulerOf app1))))
              = (Return tt, afterCancel (id old) (schedulerOf app1))) as Hsched.
      { rewrite schedulerOf_withScheduler.
        unfold NotificationManager.scheduleTaskNotifications.
        cbn [completed edited merge formUpdates upCompleted default]. rewrite Hdone.
        reflexivity. }
      rewrite (onScheduler_run _ _ _ _ Hsched).
      eexists _, d1, old. split; [reflexivity |].
      split; [assumption |]. split; [reflexivity |]. split; [reflexivity |].
      split; [reflexivity |].
      rewrite Hdone.
      split.
      * apply SchedulerFacts.remindersOf_none. intros k.
        rewrite schedulerOf_withScheduler. apply lookup_afterCancel.
      * intros other Hother. apply SchedulerFacts.remindersOf_ext. intros k.
        rewrite schedulerOf_withScheduler.
        rewrite SchedulerFacts.afterCancel_other_key by exact Hother. reflexivity.
    + assert (NotificationManager.scheduleTaskNotifications dateParse scheduledAt
                (Some edited)
                (schedulerOf (withScheduler app1 (afterCancel (id old) (schedulerOf app1))))
              = (Return tt,
                 afterSchedule scheduledAt edited
                   (dateParse (formDate form +:+ "T" +:+ formStartTime form)%string)
                   (afterCancel (id old) (schedulerOf app1)))) as Hsched.
      { rewrite schedulerOf_withScheduler.
        apply (scheduleTaskNotifications_run dateParse scheduledAt edited). exact Hdone. }
      rewrite (onScheduler_run _ _ _ _ Hsched).
      eexists _, d1, old. split; [reflexivity |].
      split; [assumption |].
      split.
      { cbn [storage withScheduler]. rewrite SchedulerFacts.storage_afterSchedule.
        reflexivity. }
      split; [reflexivity |]. split; [reflexivity |].
      rewrite schedulerOf_withScheduler, Hdone.
      split.
      * apply (remindersOf_afterSchedule scheduledAt edited).
      * intros other Hother. apply SchedulerFacts.remindersOf_ext. intros k.
        rewrite SchedulerFacts.afterSchedule_foreign_key by exact Hother.
        rewrite SchedulerFacts.afterCancel_other_key by exact Hother. reflexivity.
Qed.

Lemma handleEditTask_reschedules_witness :
  exists app' d' old,
    handleEditTask Calendar.parseISO halfPastTwo "ltlm3n9fk2x9" callForm (pageOf false aliceDay)
    = (Return tt, app')
    /\ tasks aliceDay !! 0%nat = Some old
    /\ storage app' = storeOf false d'
    /\ d' = withTasks aliceDay (<[0%nat := merge old (formUpdates callForm)]> (tasks aliceDay))
    /\ shown app' = shown (pageOf false aliceDay)
    /\ NotificationManager.remindersOf (schedulerOf app') "ltlm3n9fk2x9"
       = (if completed old then []
          else filter (fun k => due halfPastTwo
                                  (Calendar.parseISO
                                     (formDate callForm +:+ "T"
                                      +:+ formStartTime callForm)%string)
                                  k = true)
                      [NotificationManager.OneHour; NotificationManager.FiveMinutes;
                       NotificationManager.AtStart])
    /\ (forall other,
          other <> "ltlm3n9fk2x9"%string ->
          NotificationManager.remindersOf (schedulerOf app') other
          = NotificationManager.remindersOf (schedulerOf (pageOf false aliceDay)) other).
Proof.
  apply (proj2 (proj2 (handleEditTask_reschedules Calendar.parseISO halfPastTwo
                         "ltlm3n9fk2x9" callForm false aliceDay (pageOf false aliceDay)
                         eq_refl))).
  - apply (proj1 (refusal_accepted callForm)). vm_compute. reflexivity.
  - reflexivity.
Defined.

(** *** Deleting a task *)

Lemma deleteTask_found full d taskId i :
  findIndex taskId (tasks d) = Some i ->
  StorageManager.deleteTask taskId (storeOf full d)
  = (Return (negb full),
     storeOf full (if full then d else withTasks d (delete i (tasks d)))).
Proof.
  intros Hi. unfold StorageManager.deleteTask.
  rewrite bind_getDocument, Hi, saveData_storeOf. reflexivity.
Qed.

Lemma deleteTask_missing full d taskId :
  findIndex taskId (tasks d) = None ->
  StorageManager.deleteTask taskId (storeOf full d) = (Return false, storeOf full d).
Proof.
  intros Hi. unfold StorageManager.deleteTask. rewrite bind_getDocument, Hi. reflexivity.
Qed.

(** X28: [deleteTask] of the page over a stored document.  When the
    user does not confirm, when no stored task has the id, or when the
    host refuses the write, nothing changes: the task, if there is one,
    stays and so do its reminders.  Otherwise the first stored task
    under the id goes and no reminder is left under the id, while the
    reminders of the other ids stay and nothing is shown. *)
Theorem deleteTask_page (confirmed : bool) (taskId : string) (full : bool) (d : Document)
    (app : App) :
  storage app = storeOf full d ->
  (confirmed = false \/ findIndex taskId (tasks d) = None \/ full = true ->
   deleteTask confirmed taskId app = (Return tt, app))
  /\ (forall i,
        confirmed = true ->
        full = false ->
        findIndex taskId (tasks d) = Some i ->
        exists app',
          deleteTask confirmed taskId app = (Return tt, app')
          /\ storage app' = storeOf false (withTasks d (delete i (tasks d)))
          /\ shown app' = shown app
          /\ NotificationManager.remindersOf (schedulerOf app') taskId = []
          /\ (forall other,
                other <> taskId ->
                NotificationManager.remindersOf (schedulerOf app') other
                = NotificationManager.remindersOf (schedulerOf app) other)).
Proof.
  intros Hs. split.
  - intros Hcase. unfold deleteTask.
    destruct confirmed; [| reflexivity].
    destruct (findIndex taskId (tasks d)) as [i |] eqn:Hi.
    + destruct Hcase as [Hc | [Hc | ->]]; try discriminate.
      unfold bind.
      rewrite (onStorage_run _ app (Return (negb true)) (storage app)).
      * rewrite withStorage_same. reflexivity.
      * rewrite Hs. apply (deleteTask_found true d taskId i Hi).
    + unfold bind.
      rewrite (onStorage_run _ app (Return false) (storage app)).
      * rewrite withStorage_same. reflexivity.
      * rewrite Hs. apply deleteTask_missing. assumption.
  - intros i -> -> Hi. unfold deleteTask, bind.
    assert (StorageManager.deleteTask taskId (storage app)
            = (Return true, storeOf false (withTasks d (delete i (tasks d))))) as Hrun.
    { rewrite Hs. apply (deleteTask_found false d taskId i Hi). }
    rewrite (onStorage_run _ _ _ _ Hrun).
    set (app1 := withStorage _ _).
    rewrite (onScheduler_run _ app1 _ _ (cancelTaskNotifications_run taskId _)).
    eexists. split; [reflexivity |].
    split; [reflexivity |]. split; [reflexivity |].
    rewrite schedulerOf_withScheduler.
    split.
    + apply SchedulerFacts.remindersOf_none. intros k. apply lookup_afterCancel.
    + intros other Hother. apply SchedulerFacts.remindersOf_ext. intros k.
      rewrite SchedulerFacts.afterCancel_other_key by exact Hother. reflexivity.
Qed.

Lemma deleteTask_page_witness :
  exists app',
    deleteTask true "ltlm3n9fk2x9" (pageOf false aliceDay) = (Return tt, app')
    /\ storage app' = storeOf false (withTasks aliceDay (delete 0%nat (tasks aliceDay)))
    /\ shown app' = shown (pageOf false aliceDay)
    /\ NotificationManager.remindersOf (schedulerOf app') "ltlm3n9fk2x9" = []
    /\ (forall other,
          other <> "ltlm3n9fk2x9"%string ->
          NotificationManager.remindersOf (schedulerOf app') other
          = NotificationManager.remindersOf (schedulerOf (pageOf false aliceDay)) other).
Proof.
  apply (proj2 (deleteTask_page true "ltlm3n9fk2x9" false aliceDay (pageOf false aliceDay)
                  eq_refl) 0%nat); reflexivity.
Defined.

(** *** The rolling window *)

Lemma window_days now k :
  now - 7 * 86400000 <= now / 86400000 * 86400000 + k * 86400000
  /\ now / 86400000 * 86400000 + k * 86400000 <= now - -7 * 86400000
  <-> (if bool_decide (now = now / 86400000 * 86400000) then -7 <= k <= 7
       else -6 <= k <= 7).
Proof.
  pose proof (Z.div_mod now 86400000 ltac:(lia)) as Hnow.
  pose proof (Z.mod_pos_bound now 86400000 ltac:(lia)) as Hrest.
  case_bool_decide as Hmid; split.
  - intros [Hfrom Hto]. lia.
  - intros [Hfrom Hto]. lia.
  - intros [Hfrom Hto]. assert (k + 7 > 0) by nia. assert (k < 8) by nia. lia.
  - intros [Hfrom Hto]. lia.
Qed.

(** X29: the window of [getRollingWindowTasks] on a host without a
    change of its clock between the local times seven days before and
    seven days after now, for a task whose date the host reads as the
    UTC midnight of the day [k] days after the day that [toISOString]
    prints for now.  The task is listed when it is given and its day is
    at most seven days ahead and at most six days back; the day seven
    days back is in the window only when now is a UTC midnight
    itself. *)
Theorem getRollingWindowTasks_days (host : Calendar.Host) (dateParse : string -> option Z)
    (now : Z) (ts : list Task) (task : Task) (k : Z) :
  Calendar.sameOffset host now 7 ->
  Calendar.sameOffset host now (-7) ->
  dateParse (date task)
  = Some (now / Calendar.msPerDay * Calendar.msPerDay + k * Calendar.msPerDay) ->
  task ∈ getRollingWindowTasks host dateParse now ts
  <-> task ∈ ts
      /\ (if bool_decide (now = now / Calendar.msPerDay * Calendar.msPerDay)
          then -7 <= k <= 7
          else -6 <= k <= 7).
Proof.
  intros Hback Hahead Hdate. unfold getRollingWindowTasks. rewrite list_elem_of_filter.
  unfold inWindow. rewrite Hdate.
  rewrite !StreakFacts.daysBefore_sameOffset by assumption.
  change Calendar.msPerDay with 86400000.
  rewrite andb_true_iff, !Z.leb_le, window_days. tauto.
Qed.

Lemma getRollingWindowTasks_days_witness :
  Calendar.parseISO "2024-03-04"
  = Some (halfPastTwo / Calendar.msPerDay * Calendar.msPerDay + -6 * Calendar.msPerDay)
  /\ (taskOn "x" "alice" "2024-03-04" false
      ∈ getRollingWindowTasks (Calendar.hostAt 19800000) Calendar.parseISO halfPastTwo
          [taskOn "x" "alice" "2024-03-04" false]
      <-> taskOn "x" "alice" "2024-03-04" false ∈ [taskOn "x" "alice" "2024-03-04" false]
          /\ (if bool_decide (halfPastTwo = halfPastTwo / Calendar.msPerDay * Calendar.msPerDay)
              then -7 <= -6 <= 7
              else -6 <= -6 <= 7)).
Proof.
  split; [vm_compute; reflexivity |].
  apply (getRollingWindowTasks_days (Calendar.hostAt 19800000) Calendar.parseISO halfPastTwo
           [taskOn "x" "alice" "2024-03-04" false] (taskOn "x" "alice" "2024-03-04" false)
           (-6)).
  - reflexivity.
  - reflexivity.
  - vm_compute. reflexivity.
Defined.

(** A task dated 3 March 2024 is not listed on 10 March at 14:30, and
    one dated 17 March is. *)
Example a_week_back_and_a_week_ahead :
  getRollingWindowTasks Calendar.utcHost Calendar.parseISO halfPastTwo
    [taskOn "w" "alice" "2024-03-03" false; taskOn "x" "alice" "2024-03-04" false;
     taskOn "y" "alice" "2024-03-17" false; taskOn "z" "alice" "2024-03-18" false]
  = [taskOn "x" "alice" "2024-03-04" false; taskOn "y" "alice" "2024-03-17" false].
Proof. vm_compute. reflexivity. Qed.

End PageFacts.
